(** * Adaptive confidence tracking and topic selection

    A shallow embedding of the confidence engine of the quiz platform:

    - [progress_service.py]: [ProgressService.update_student_progress], the
      update that smooths a stored score toward the lifetime accuracy;
    - [main_quiz.py]: [load_student_progress], [update_confidence_score] and
      [get_next_quiz_topic], the file-backed variant with the flat
      +0.1 / -0.1 update;
    - [app_hf.py] and [student_interface.py]: the scoring of submitted answers;
    - further code of these files and of their callers: the summary and the
      text cut for [json.loads] in [main_quiz.py], the update of [2.py], the
      built-in quizzes of [app_hf.py], the select box of [app.py], the
      subject view of [progress_service.py], and [delete_topic] and
      [delete_module] of [content_service.py].

    Python integers are [Z].  Python floats are modelled by exact rationals
    [Q]: every score is built from 0.5, 0.1, 0.2, quotients of integers, sums,
    products and comparisons, and the development follows the source
    expression by expression with the rounding of binary64 left out.
    Equality of scores is therefore [Qeq] ([==]).  Module [Binary64] repeats
    the score expressions on IEEE 754 doubles, where the concrete runs of
    the statements are replayed.  Exceptions are values of [exn] carried by
    [result]. *)

From Stdlib Require Import ZArith QArith Qminmax Qround.
From Stdlib Require Import List Bool String Ascii.
From Stdlib Require Import Lia Lqa.
From Stdlib Require Import Floats.
Import ListNotations.

Local Open Scope Z_scope.
Local Open Scope Q_scope.

(** A decimal float numeral stands for the nearest double, as in Python. *)
Set Warnings "-inexact-float".

(** ** Exceptions *)

Inductive exn : Type :=
| ZeroDivisionError
| ValueError
| TypeError
| KeyError.

Inductive result (A : Type) : Type :=
| Ok (a : A)
| Raise (e : exn).

Arguments Ok {A} a.
Arguments Raise {A} e.

Definition bind {A B : Type} (m : result A) (k : A -> result B) : result B :=
  match m with
  | Ok a => k a
  | Raise e => Raise e
  end.

Notation "x <- m ;; k" := (bind m (fun x => k))
  (at level 61, m at next level, right associativity).

(** ** Python arithmetic used by the updates *)

(** [a / b] on two ints: true division, [ZeroDivisionError] on a zero
    divisor. *)
Definition truediv (a b : Z) : result Q :=
  if (b =? 0)%Z then Raise ZeroDivisionError
  else Ok (inject_Z a / inject_Z b).

(** The builtin [min(a, b)]: the first argument is kept unless the second is
    strictly smaller. *)
Definition py_min (a b : Q) : Q := if Qlt_le_dec b a then b else a.

(** The builtin [max(a, b)]: the first argument is kept unless the second is
    strictly greater. *)
Definition py_max (a b : Q) : Q := if Qlt_le_dec a b then b else a.

(** The spec's [clamp(x, lo, hi)], in the words of the spec. *)
Definition clamp (x lo hi : Q) : Q := Qmax lo (Qmin hi x).

(** ** [progress_service.py] *)

Module ProgressService.

(** A row of [student_progress], as [models.StudentProgress] without the
    surrogate key [id] that SQLite assigns and no update reads. *)
Record StudentProgress : Type := mkStudentProgress {
  student_id : Z;
  topic_id : Z;
  confidence_score : Q;
  attempts : Z;
  last_quiz_date : option Z;
  total_questions : Z;
  correct_answers : Z
}.

(** A row of [quiz_history]. *)
Record QuizHistory : Type := mkQuizHistory {
  h_student_id : Z;
  h_topic_id : Z;
  h_score : Z;
  h_total_questions : Z
}.

(** The two tables the service touches. *)
Record EducationDB : Type := mkDB {
  student_progress : list StudentProgress;
  quiz_history : list QuizHistory
}.

Definition empty_db : EducationDB := mkDB [] [].

Definition row_matches (sid tid : Z) (r : StudentProgress) : bool :=
  ((student_id r =? sid) && (topic_id r =? tid))%Z.

(** [SELECT ... WHERE student_id = ? AND topic_id = ?] then [fetchone()]. *)
Definition get_student_progress (db : EducationDB) (sid tid : Z)
  : option StudentProgress :=
  find (row_matches sid tid) (student_progress db).

(** [UPDATE student_progress SET ... WHERE student_id = ? AND topic_id = ?]. *)
Definition sql_update (sid tid : Z) (conf : Q) (att : Z) (now : Z) (tq ca : Z)
           (rows : list StudentProgress) : list StudentProgress :=
  map (fun r =>
         if row_matches sid tid r
         then mkStudentProgress (student_id r) (topic_id r) conf att (Some now) tq ca
         else r) rows.

(** [INSERT INTO student_progress (...) VALUES (?, ?, ?, 1, ?, ?, ?)]. *)
Definition sql_insert (sid tid : Z) (conf : Q) (now : Z) (tq ca : Z)
           (rows : list StudentProgress) : list StudentProgress :=
  rows ++ [mkStudentProgress sid tid conf 1 (Some now) tq ca].

(** [x / y if y > 0 else 0.5]. *)
Definition guarded_accuracy (ca tq : Z) : result Q :=
  if (0 <? tq)%Z then truediv ca tq else Ok (1 # 2).

(** The record written for a topic that already has a row. *)
Definition updated_fields (existing : StudentProgress) (correct total : Z)
  : result (Q * Z * Z * Z) :=
  let new_attempts := (attempts existing + 1)%Z in
  let new_total_questions := (total_questions existing + total)%Z in
  let new_correct_answers := (correct_answers existing + correct)%Z in
  accuracy <- guarded_accuracy new_correct_answers new_total_questions ;;
  let confidence_adjustment := (accuracy - (1 # 2)) * (1 # 10) in
  let new_confidence :=
    py_max 0 (py_min 1 (confidence_score existing + confidence_adjustment)) in
  Ok (new_confidence, new_attempts, new_total_questions, new_correct_answers).

(** The score written for a topic that has no row yet. *)
Definition created_confidence (correct total : Z) : result Q :=
  accuracy <- guarded_accuracy correct total ;;
  Ok (py_max 0 (py_min 1 ((1 # 2) + (accuracy - (1 # 2)) * (2 # 10)))).

(** [update_student_progress(student_id, topic_id, correct_answers,
    total_questions)]; [now] is the value of [datetime.now()]. *)
Definition update_student_progress (db : EducationDB) (now : Z)
           (sid tid : Z) (correct total : Z) : result EducationDB :=
  rows <-
    match get_student_progress db sid tid with
    | Some existing =>
        f <- updated_fields existing correct total ;;
        let '(new_confidence, new_attempts, new_tq, new_ca) := f in
        Ok (sql_update sid tid new_confidence new_attempts now new_tq new_ca
                       (student_progress db))
    | None =>
        confidence <- created_confidence correct total ;;
        Ok (sql_insert sid tid confidence now total correct (student_progress db))
    end ;;
  Ok (mkDB rows (quiz_history db ++ [mkQuizHistory sid tid correct total])).

End ProgressService.

(** ** Python dicts with string keys

    A dict keeps its keys in insertion order and holds each key once: an
    association list whose keys are pairwise distinct ([NoDup] on
    [dict_keys]). *)

Definition dict : Type := list (string * Q).

Definition dict_keys (d : dict) : list string := map fst d.

(** [d.get(k)]: [None] for an absent key. *)
Fixpoint dict_get (d : dict) (k : string) : option Q :=
  match d with
  | [] => None
  | (k', v) :: d' => if String.eqb k' k then Some v else dict_get d' k
  end.

(** [d[k] = v]: an existing key keeps its position, a new key goes last. *)
Fixpoint dict_set (d : dict) (k : string) (v : Q) : dict :=
  match d with
  | [] => [(k, v)]
  | (k', v') :: d' =>
      if String.eqb k' k then (k', v) :: d' else (k', v') :: dict_set d' k v
  end.

(** [d.get(k, default)]. *)
Definition dict_get_default (d : dict) (k : string) (default : Q) : Q :=
  match dict_get d k with
  | Some v => v
  | None => default
  end.

(** [d[k]]: [KeyError] for an absent key. *)
Definition dict_index (d : dict) (k : string) : result Q :=
  match dict_get d k with
  | Some v => Ok v
  | None => Raise KeyError
  end.

(** [{topic: 0.5 for topic in topics}]. *)
Definition dict_of_default (topics : list string) : dict :=
  fold_left (fun d topic => dict_set d topic (1 # 2)) topics [].

(** [set(xs) == set(ys)] on two lists of strings. *)
Definition subset_b (xs ys : list string) : bool :=
  forallb (fun x => existsb (String.eqb x) ys) xs.

Definition set_eqb (xs ys : list string) : bool :=
  subset_b xs ys && subset_b ys xs.

(** [a < b] on two values that are floats or [None]. *)
Definition py_lt (a b : option Q) : result bool :=
  match a, b with
  | Some x, Some y => Ok (if Qlt_le_dec x y then true else false)
  | _, _ => Raise TypeError
  end.

(** The loop of the builtin [min(iterable, key=...)] after the first item. *)
Fixpoint min_loop {A : Type} (key : A -> option Q)
         (minitem : A) (minval : option Q) (rest : list A) : result A :=
  match rest with
  | [] => Ok minitem
  | item :: rest' =>
      let val := key item in
      b <- py_lt val minval ;;
      if b then min_loop key item val rest'
      else min_loop key minitem minval rest'
  end.

(** [min(iterable, key=key)]; an empty iterable raises [ValueError]. *)
Definition py_min_by {A : Type} (key : A -> option Q) (xs : list A) : result A :=
  match xs with
  | [] => Raise ValueError
  | item :: rest => min_loop key item (key item) rest
  end.

(** ** [main_quiz.py] *)

Module MainQuiz.

Definition SYLLABUS_TOPICS : list string :=
  [ "Well-Posed Learning Problems";
    "Designing a Learning System";
    "Perspectives and Issues in Machine Learning";
    "Concept Learning Task";
    "Concept Learning as Search";
    "Find-S Algorithm";
    "Version Spaces and Candidate-Elimination Algorithm";
    "Inductive Bias";
    "Sequential Covering Algorithms";
    "Learning Rule Sets";
    "Learning First-Order Rules";
    "FOIL Algorithm";
    "Explanation-Based Learning";
    "Perfect Domain Theories";
    "Learning Search Control Knowledge";
    "Inductive-Analytical Approaches" ]%string.

(** The progress object, as every writer of the progress file builds it:
    both keys are present, so the default of
    [existing_progress.get("confidence_scores", {})] is never taken. *)
Record Progress : Type := mkProgress {
  student_id : string;
  confidence_scores : dict
}.

(** The content of [PROGRESS_FILE_PATH]; [None] when the file is absent. *)
Definition ProgressFile : Type := option Progress.

Definition save_student_progress (progress : Progress) (file : ProgressFile)
  : ProgressFile :=
  Some progress.

Section Syllabus.

(** The module constant [SYLLABUS_TOPICS], kept general. *)
Variable topics : list string.

(** [load_student_progress(student_id)]: the progress returned and the
    file left behind. *)
Definition load_student_progress (file : ProgressFile) (sid : string)
  : Progress * ProgressFile :=
  match file with
  | Some existing_progress =>
      let ml_topics := topics in
      let existing_topics := dict_keys (confidence_scores existing_progress) in
      if negb (set_eqb ml_topics existing_topics) then
        let progress := mkProgress sid (dict_of_default topics) in
        (progress, save_student_progress progress file)
      else (existing_progress, file)
  | None =>
      let progress := mkProgress sid (dict_of_default topics) in
      (progress, save_student_progress progress file)
  end.

(** [reset_student_progress(student_id)]. *)
Definition reset_student_progress (file : ProgressFile) (sid : string)
  : Progress * ProgressFile :=
  let progress := mkProgress sid (dict_of_default topics) in
  (progress, save_student_progress progress file).

End Syllabus.

(** The score that [update_confidence_score] computes from the one it
    read. *)
Definition stepped_score (score : Q) (is_correct : bool) : Q :=
  if is_correct then py_min 1 (score + (1 # 10))
  else py_max 0 (score - (1 # 10)).

(** [update_confidence_score(progress, topic_name, is_correct)]. *)
Definition update_confidence_score (file : ProgressFile) (progress : Progress)
           (topic_name : string) (is_correct : bool) : Progress * ProgressFile :=
  let score := dict_get_default (confidence_scores progress) topic_name (1 # 2) in
  let score := stepped_score score is_correct in
  let progress :=
    mkProgress (student_id progress)
               (dict_set (confidence_scores progress) topic_name score) in
  (progress, save_student_progress progress file).

(** [get_next_quiz_topic(progress)]. *)
Definition get_next_quiz_topic (progress : Progress) : result string :=
  py_min_by (dict_get (confidence_scores progress))
            (dict_keys (confidence_scores progress)).

(** The loop of [main] (and of the submit handler of [app.py]) over the
    questions of a quiz: one [update_confidence_score] per answer. *)
Fixpoint quiz_loop (file : ProgressFile) (progress : Progress)
         (topic_name : string) (outcome : list bool) : Progress * ProgressFile :=
  match outcome with
  | [] => (progress, file)
  | is_correct :: outcome' =>
      let '(progress', file') :=
        update_confidence_score file progress topic_name is_correct in
      quiz_loop file' progress' topic_name outcome'
  end.

End MainQuiz.

(** ** Quiz questions, as the generator returns them *)

Record Question : Type := mkQuestion {
  question : string;
  options : list string;
  answer : string;
  explanation : string
}.

(** ** [app_hf.py]: the submit handler *)

Module AppHf.

(** [answers[i].startswith(question['answer'])]. *)
Definition is_correct (selected : string) (q : Question) : bool :=
  String.prefix (answer q) selected.

(** The loop of the submit handler.  [answers] holds the selected option of
    every question, so the loop runs over the questions paired with them;
    [student_progress] is the session's map and [current_topic] its
    topic. *)
Fixpoint submit_loop (current_topic : string)
         (quiz : list (Question * string))
         (student_progress : dict) (correct_count : Z) : result (dict * Z) :=
  match quiz with
  | [] => Ok (student_progress, correct_count)
  | (q, selected) :: quiz' =>
      let ok := is_correct selected q in
      let correct_count := if ok then (correct_count + 1)%Z else correct_count in
      current_score <- dict_index student_progress current_topic ;;
      let student_progress :=
        if ok
        then dict_set student_progress current_topic
                      (py_min 1 (current_score + (1 # 10)))
        else dict_set student_progress current_topic
                      (py_max 0 (current_score - (1 # 10))) in
      submit_loop current_topic quiz' student_progress correct_count
  end.

(** [min(student_progress, key=student_progress.get)], the recommendation. *)
Definition weakest_topic (student_progress : dict) : result string :=
  py_min_by (dict_get student_progress) (dict_keys student_progress).

End AppHf.

(** ** [student_interface.py]: [display_quiz] *)

Module StudentInterface.

(** [answer[0] if answer else None]. *)
Definition extract_letter (selected : option string) : option string :=
  match selected with
  | Some (String c _) => Some (String c EmptyString)
  | Some EmptyString => None
  | None => None
  end.

(** [answers[i] == question['answer']]. *)
Definition is_correct (letter : option string) (q : Question) : bool :=
  match letter with
  | Some s => String.eqb s (answer q)
  | None => false
  end.

(** The counting loop over the questions and their selected options. *)
Fixpoint count_correct (quiz : list (Question * option string))
         (correct_count : Z) : Z :=
  match quiz with
  | [] => correct_count
  | (q, selected) :: quiz' =>
      count_correct quiz'
        (if is_correct (extract_letter selected) q
         then (correct_count + 1)%Z else correct_count)
  end.

(** The submit branch: count, then
    [update_student_progress(student_id, topic_id, correct_count, len(quiz))]. *)
Definition submit_quiz (db : ProgressService.EducationDB) (now : Z)
           (sid tid : Z) (quiz : list (Question * option string))
  : result ProgressService.EducationDB :=
  ProgressService.update_student_progress
    db now sid tid (count_correct quiz 0) (Z.of_nat (List.length quiz)).

End StudentInterface.

(** ** [2.py] *)

Module Script2.

(** The files [progress_<student_id>.json], by student id. *)
Definition ProgressFiles : Type := string -> option MainQuiz.Progress.

Definition save_student_progress (progress : MainQuiz.Progress)
           (files : ProgressFiles) : ProgressFiles :=
  fun sid =>
    if String.eqb sid (MainQuiz.student_id progress) then Some progress
    else files sid.

(** [load_student_progress(student_id)]; [syllabus_topics] lists the names
    of [load_syllabus()["topics"]]. *)
Definition load_student_progress (syllabus_topics : list string)
           (files : ProgressFiles) (sid : string)
  : MainQuiz.Progress * ProgressFiles :=
  match files sid with
  | Some progress => (progress, files)
  | None =>
      let progress := MainQuiz.mkProgress sid (dict_of_default syllabus_topics) in
      (progress, save_student_progress progress files)
  end.

(** [get_next_quiz_topic(progress, syllabus)]. *)
Definition get_next_quiz_topic (progress : MainQuiz.Progress)
  : result (string * Q) :=
  let scores := MainQuiz.confidence_scores progress in
  lowest_confidence_topic <- py_min_by (dict_get scores) (dict_keys scores) ;;
  score <- dict_index scores lowest_confidence_topic ;;
  Ok (lowest_confidence_topic, score).

End Script2.

(** ** Vocabulary of the statements *)

Module Policy.

Import ProgressService.

(** The record a topic without a row counts as: the defaults of
    [models.StudentProgress]. *)
Definition default_record (sid tid : Z) : StudentProgress :=
  mkStudentProgress sid tid (1 # 2) 0 None 0 0.

(** The prior record of an update: the stored row, or the default one. *)
Definition prior_record (db : EducationDB) (sid tid : Z) : StudentProgress :=
  match get_student_progress db sid tid with
  | Some existing => existing
  | None => default_record sid tid
  end.

(** The smoothing constant [K]: 0.2 on the first attempt, 0.1 afterwards. *)
Definition K (prior_attempts : Z) : Q :=
  if (prior_attempts =? 0)%Z then 2 # 10 else 1 # 10.

(** The value of [x / y if y > 0 else 0.5]. *)
Definition accuracy_value (ca tq : Z) : Q :=
  if (0 <? tq)%Z then inject_Z ca / inject_Z tq else 1 # 2.

(** A score is valid when it lies in [[0, 1]]. *)
Definition valid_score (s : Q) : Prop := 0 <= s /\ s <= 1.

(** What every stored row satisfies: it records at least one attempt and a
    total that is not negative. *)
Definition row_ok (r : StudentProgress) : Prop :=
  (1 <= attempts r)%Z /\ (0 <= total_questions r)%Z.

Definition db_ok (db : EducationDB) : Prop :=
  Forall row_ok (student_progress db).

(** A score shown with three decimals, as thousandths. *)
Definition thousandths (s : Q) : Z := Qfloor (s * 1000 + (1 # 2)).

(** The score of a topic as the per-question mode reads it. *)
Definition stored_score (progress : MainQuiz.Progress) (topic_name : string) : Q :=
  dict_get_default (MainQuiz.confidence_scores progress) topic_name (1 # 2).

(** The correctness flags of the submit handler of [app_hf.py], in order. *)
Definition hf_flags (quiz : list (Question * string)) : list bool :=
  map (fun qa => AppHf.is_correct (snd qa) (fst qa)) quiz.

End Policy.

(** ** The score expressions on binary64

    The expressions of [update_student_progress] and
    [update_confidence_score] once more, on the doubles that Python
    computes with.  Counts are taken below [2^53], where the conversion of an
    int to a float is exact and [a / b] is the division of the two floats. *)

Module Binary64.

Local Open Scope float_scope.

Definition float_of_int (z : Z) : float :=
  match z with
  | Z0 => 0
  | Zpos _ => of_uint63 (Uint63.of_Z z)
  | Zneg p => - of_uint63 (Uint63.of_Z (Zpos p))
  end.

Definition py_min (a b : float) : float := if PrimFloat.ltb b a then b else a.

Definition py_max (a b : float) : float := if PrimFloat.ltb a b then b else a.

(** [x / y if y > 0 else 0.5]. *)
Definition guarded_accuracy (ca tq : Z) : float :=
  if (0 <? tq)%Z then float_of_int ca / float_of_int tq else 0.5.

(** [new_confidence] of the branch for an existing row. *)
Definition updated_confidence (confidence_score : float)
           (total_questions correct_answers : Z) (correct total : Z) : float :=
  let accuracy :=
    guarded_accuracy (correct_answers + correct) (total_questions + total) in
  let confidence_adjustment := (accuracy - 0.5) * 0.1 in
  py_max 0 (py_min 1 (confidence_score + confidence_adjustment)).

(** [confidence] of the branch for a new row. *)
Definition created_confidence (correct total : Z) : float :=
  let accuracy := guarded_accuracy correct total in
  py_max 0 (py_min 1 (0.5 + (accuracy - 0.5) * 0.2)).

(** The step of [update_confidence_score]. *)
Definition stepped_score (score : float) (is_correct : bool) : float :=
  if is_correct then py_min 1 (score + 0.1)
  else py_max 0 (score - 0.1).

End Binary64.

(** ** More of the builtins *)

(** The loop of the builtin [max(iterable, key=...)] after the first item:
    the candidate is replaced on a strictly greater key only. *)
Fixpoint max_loop {A : Type} (key : A -> option Q)
         (maxitem : A) (maxval : option Q) (rest : list A) : result A :=
  match rest with
  | [] => Ok maxitem
  | item :: rest' =>
      let val := key item in
      b <- py_lt maxval val ;;
      if b then max_loop key item val rest'
      else max_loop key maxitem maxval rest'
  end.

(** [max(iterable, key=key)]; an empty iterable raises [ValueError]. *)
Definition py_max_by {A : Type} (key : A -> option Q) (xs : list A) : result A :=
  match xs with
  | [] => Raise ValueError
  | item :: rest => max_loop key item (key item) rest
  end.

(** [sum(d.values())]: the values added in order onto the int 0. *)
Definition dict_sum (d : dict) : Q := fold_left Qplus (map snd d) 0.

(** [x / n] for a float [x] and an int [n]. *)
Definition truediv_float_int (x : Q) (n : Z) : result Q :=
  if (n =? 0)%Z then Raise ZeroDivisionError else Ok (x / inject_Z n).

(** ** [main_quiz.py]: the summary *)

Module Summary.

(** The dict that [get_student_summary] returns. *)
Record StudentSummary : Type := mkSummary {
  student_id : string;
  weakest_topic : string;
  weakest_confidence : Q;
  strongest_topic : string;
  strongest_confidence : Q;
  average_confidence : Q;
  total_topics : Z
}.

(** [get_student_summary(student_id)] over the syllabus [topics]: what it
    returns or raises, and the progress file it leaves (the load comes
    first and writes the file whatever happens next). *)
Definition get_student_summary (topics : list string)
           (file : MainQuiz.ProgressFile) (sid : string)
  : result StudentSummary * MainQuiz.ProgressFile :=
  let '(progress, file') := MainQuiz.load_student_progress topics file sid in
  let confidence_scores := MainQuiz.confidence_scores progress in
  (weakest_topic <-
     py_min_by (dict_get confidence_scores) (dict_keys confidence_scores) ;;
   strongest_topic <-
     py_max_by (dict_get confidence_scores) (dict_keys confidence_scores) ;;
   avg_confidence <-
     truediv_float_int (dict_sum confidence_scores)
                       (Z.of_nat (List.length confidence_scores)) ;;
   weakest_confidence <- dict_index confidence_scores weakest_topic ;;
   strongest_confidence <- dict_index confidence_scores strongest_topic ;;
   Ok (mkSummary sid weakest_topic weakest_confidence
                 strongest_topic strongest_confidence
                 avg_confidence (Z.of_nat (List.length confidence_scores))),
   file').

End Summary.

(** ** [2.py]: the update of the score *)

Module Script2Update.

(** [sum(1 for result in quiz_results if result["is_correct"])], over
    results given as the question and its [is_correct]. *)
Definition count_is_correct (quiz_results : list (string * bool)) : Z :=
  fold_left (fun (n : Z) (res : string * bool) => if snd res then (n + 1)%Z else n)
            quiz_results 0%Z.

(** [update_confidence_score(progress, topic_name, quiz_results)]. *)
Definition update_confidence_score (files : Script2.ProgressFiles)
           (progress : MainQuiz.Progress) (topic_name : string)
           (quiz_results : list (string * bool))
  : result (MainQuiz.Progress * Script2.ProgressFiles) :=
  let correct_answers := count_is_correct quiz_results in
  let total_questions := Z.of_nat (List.length quiz_results) in
  current_score <- dict_index (MainQuiz.confidence_scores progress) topic_name ;;
  progress' <-
    (if (0 <? total_questions)%Z then
       accuracy <- truediv correct_answers total_questions ;;
       new_score <-
         truediv_float_int
           (current_score * inject_Z (total_questions - 1) + accuracy)
           total_questions ;;
       Ok (MainQuiz.mkProgress
             (MainQuiz.student_id progress)
             (dict_set (MainQuiz.confidence_scores progress) topic_name new_score))
     else Ok progress) ;;
  Ok (progress', Script2.save_student_progress progress' files).

End Script2Update.

(** ** Vocabulary of the further statements *)

Module Ledger.

Import ProgressService.

(** The key of a row of [student_progress]. *)
Definition row_key (r : StudentProgress) : Z * Z := (student_id r, topic_id r).

(** [UNIQUE(student_id, topic_id)]. *)
Definition keys_unique (db : EducationDB) : Prop :=
  NoDup (map row_key (student_progress db)).

(** The rows of [quiz_history] of one student and topic. *)
Definition history_for (sid tid : Z) (history : list QuizHistory)
  : list QuizHistory :=
  filter (fun e => ((h_student_id e =? sid) && (h_topic_id e =? tid))%Z) history.

Definition sum_of (f : QuizHistory -> Z) (history : list QuizHistory) : Z :=
  fold_right Z.add 0%Z (map f history).

(** A row agrees with the history: its counters are the number of quizzes
    recorded for it and the sums of their totals and scores. *)
Definition row_agrees (history : list QuizHistory) (r : StudentProgress) : Prop :=
  attempts r
  = Z.of_nat (List.length (history_for (student_id r) (topic_id r) history))
  /\ total_questions r
     = sum_of h_total_questions (history_for (student_id r) (topic_id r) history)
  /\ correct_answers r
     = sum_of h_score (history_for (student_id r) (topic_id r) history).

(** The two tables agree: every row agrees with the history, and every
    quiz of the history has its row. *)
Definition ledger_ok (db : EducationDB) : Prop :=
  Forall (row_agrees (quiz_history db)) (student_progress db)
  /\ (forall e, In e (quiz_history db) ->
                exists r, In r (student_progress db)
                          /\ student_id r = h_student_id e
                          /\ topic_id r = h_topic_id e).

(** [0 <= correct_answers <= total_questions] in every row. *)
Definition counts_ok (db : EducationDB) : Prop :=
  Forall (fun r => (0 <= correct_answers r <= total_questions r)%Z)
         (student_progress db).

End Ledger.

(** ** [app_hf.py]: the built-in quizzes *)

Module AppHfQuiz.

Local Open Scope string_scope.

(** [quiz_bank], in the order of its keys. *)
Definition quiz_bank : list (string * list Question) :=
  [ ("Well-Posed Learning Problems",
     [ mkQuestion
         "What are the three components of a well-posed learning problem?"
         [ "A) Task, Performance, Experience";
           "B) Data, Algorithm, Model";
           "C) Input, Output, Function";
           "D) Training, Testing, Validation" ]
         "A"
         "Mitchell defines well-posed learning problems with Task T, Performance measure P, and Experience E.";
       mkQuestion
         "What does the Performance measure (P) define in a learning problem?"
         [ "A) The type of data to use";
           "B) How to measure task performance";
           "C) The algorithm complexity";
           "D) The training time required" ]
         "B"
         "The Performance measure P quantifies how well the task is being performed." ]);
    ("Find-S Algorithm",
     [ mkQuestion
         "What does the Find-S algorithm find?"
         [ "A) Most general hypothesis";
           "B) Most specific hypothesis consistent with positive examples";
           "C) All possible hypotheses";
           "D) Random hypothesis" ]
         "B"
         "Find-S finds the most specific hypothesis consistent with positive training examples.";
       mkQuestion
         "How does Find-S handle negative examples?"
         [ "A) Uses them to specialize";
           "B) Ignores them completely";
           "C) Creates separate rules";
           "D) Generalizes based on them" ]
         "B"
         "Find-S algorithm ignores negative examples and only uses positive examples." ]) ].

(** [quiz_bank.get(topic_name)] on the bank, whose keys are distinct. *)
Fixpoint bank_get (bank : list (string * list Question)) (topic_name : string)
  : option (list Question) :=
  match bank with
  | [] => None
  | (k, qs) :: bank' => if String.eqb k topic_name then Some qs else bank_get bank' topic_name
  end.

(** [generate_quiz_lightweight(topic_name, content)]; [content] is not
    read. *)
Definition generate_quiz_lightweight (topic_name : string) : list Question :=
  match bank_get quiz_bank topic_name with
  | Some qs => firstn 2 qs
  | None =>
      [ mkQuestion
          ("What is a key concept in " ++ topic_name ++ "?")
          [ "A) Algorithm efficiency";
            "B) Data preprocessing";
            "C) Model complexity";
            "D) All of the above" ]
          "D"
          (topic_name ++ " involves multiple aspects of machine learning including algorithms, data, and models.") ]
  end.

(** The option of a question that the submit handler scores correct, if the
    student picks it: the options filtered by [is_correct]. *)
Definition winning_options (q : Question) : list string :=
  filter (fun o => AppHf.is_correct o q) (options q).

End AppHfQuiz.

(** ** The text handed to [json.loads]

    [generate_quiz] of [main_quiz.py], of [3.py] and of [quiz_service.py]
    cut the answer of the model from its first opening bracket to its last
    closing bracket. *)

Module QuizText.

(** [s.find(c)] for a one-character [c], counted from [i]. *)
Fixpoint find_from (c : ascii) (s : string) (i : Z) : Z :=
  match s with
  | EmptyString => (-1)%Z
  | String a s' => if Ascii.eqb a c then i else find_from c s' (i + 1)%Z
  end.

Definition str_find (s : string) (c : ascii) : Z := find_from c s 0.

(** [s.rfind(c)] for a one-character [c], counted from [i]. *)
Fixpoint rfind_from (c : ascii) (s : string) (i : Z) : Z :=
  match s with
  | EmptyString => (-1)%Z
  | String a s' =>
      let later := rfind_from c s' (i + 1)%Z in
      if (later =? -1)%Z then (if Ascii.eqb a c then i else (-1)%Z) else later
  end.

Definition str_rfind (s : string) (c : ascii) : Z := rfind_from c s 0.

(** A bound of a slice brought into [[0, len]]. *)
Definition slice_bound (len i : Z) : Z :=
  let i := if (i <? 0)%Z then (i + len)%Z else i in
  Z.max 0 (Z.min len i).

(** [s[start:stop]]. *)
Definition py_slice (s : string) (start stop : Z) : string :=
  let len := Z.of_nat (String.length s) in
  let a := slice_bound len start in
  let b := slice_bound len stop in
  if (a <? b)%Z then substring (Z.to_nat a) (Z.to_nat (b - a)) s
  else EmptyString.

(** The lines between the answer of the model and [json.loads]: [None]
    stands for the early [return None]. *)
Definition json_string (raw_response : string) : option string :=
  let json_start_index := str_find raw_response "["%char in
  let json_end_index := (str_rfind raw_response "]"%char + 1)%Z in
  if ((json_start_index =? -1) || (json_end_index =? 0))%Z then None
  else Some (py_slice raw_response json_start_index json_end_index).

(** [c] occurs in [s]. *)
Definition occurs (c : ascii) (s : string) : Prop :=
  exists pre post, s = (pre ++ String c post)%string.

End QuizText.

(** ** Topics and modules: the subject view and the cascade *)

Module Content.

Import ProgressService.

(** A row of [topics], as [models.Topic] without [created_at]. *)
Record Topic : Type := mkTopic {
  id : Z;
  module_id : Z;
  name : string;
  description : string;
  order_index : Z
}.

(** A row of [modules], as [models.Module] without [created_at]. *)
Record ModuleRow : Type := mkModuleRow {
  m_id : Z;
  m_subject_id : Z;
  m_name : string;
  m_description : string;
  m_order_index : Z
}.

(** The tables that the queries below read and write. *)
Record School : Type := mkSchool {
  progress_db : EducationDB;
  topics : list Topic;
  modules : list ModuleRow
}.

(** The [WHERE] and [ON] conditions of the join of
    [get_student_subject_progress]. *)
Definition in_subject_view (student subject : Z)
           (sp : StudentProgress) (t : Topic) (m : ModuleRow) : bool :=
  ((topic_id sp =? id t) && (module_id t =? m_id m)
   && (student_id sp =? student) && (m_subject_id m =? subject))%Z.

(** [ProgressService.get_student_subject_progress(student_id, subject_id)]:
    the joined rows, each a progress record with its [topic_name]. *)
Definition get_student_subject_progress (school : School) (student subject : Z)
  : list (StudentProgress * string) :=
  flat_map
    (fun sp =>
       flat_map
         (fun t =>
            flat_map
              (fun m =>
                 if in_subject_view student subject sp t m
                 then [(sp, name t)] else [])
              (modules school))
         (topics school))
    (student_progress (progress_db school)).

(** The progress summary of [student_interface]: [None] for the branch
    without data, else the average confidence and the number of topics
    attempted. *)
Definition progress_summary (student_progress : list (StudentProgress * string))
  : option (result Q * Z) :=
  match student_progress with
  | [] => None
  | _ :: _ =>
      Some (truediv_float_int
              (fold_left Qplus
                         (map (fun p => confidence_score (fst p)) student_progress)
                         0)
              (Z.of_nat (List.length student_progress)),
            Z.of_nat (List.length student_progress))
  end.

(** [ContentService.delete_topic(topic_id)]: what it returns or raises and
    the tables it leaves.  [fetchone()[0]] on a missing topic raises
    [TypeError] before any statement writes, and the handler rolls back. *)
Definition delete_topic (school : School) (topic : Z) : result string * School :=
  match find (fun t => (id t =? topic)%Z) (topics school) with
  | None => (Raise TypeError, school)
  | Some t =>
      (Ok (name t),
       mkSchool
         (mkDB
            (filter (fun r => negb (topic_id r =? topic)%Z)
                    (student_progress (progress_db school)))
            (filter (fun e => negb (h_topic_id e =? topic)%Z)
                    (quiz_history (progress_db school))))
         (filter (fun t => negb (id t =? topic)%Z) (topics school))
         (modules school))
  end.

(** Every stored score lies in [[0, 1]]. *)
Definition scores_ok (db : EducationDB) : Prop :=
  Forall (fun r => 0 <= confidence_score r /\ confidence_score r <= 1)
         (student_progress db).

End Content.

(** ** [app.py]: the topic selection *)

Module App.

(** [xs.index(x)], counted from [i]; [ValueError] when [x] is not in [xs]. *)
Fixpoint index_from (x : string) (xs : list string) (i : Z) : result Z :=
  match xs with
  | [] => Raise ValueError
  | y :: ys => if String.eqb y x then Ok i else index_from x ys (i + 1)%Z
  end.

(** The recommended topic and the [index] argument of the select box:
    [get_next_quiz_topic(progress)], then
    [list(progress["confidence_scores"].keys()).index(weakest_topic)]. *)
Definition default_selection (progress : MainQuiz.Progress) : result (string * Z) :=
  weakest_topic <- MainQuiz.get_next_quiz_topic progress ;;
  index <- index_from weakest_topic
                      (dict_keys (MainQuiz.confidence_scores progress)) 0 ;;
  Ok (weakest_topic, index).

End App.

(** [content_service.py]: [delete_module], and what the foreign keys of the
    schema ask of the tables.  The connection of [get_connection] does not
    switch foreign keys on, so [sqlite3] checks none of them. *)
Module Cascade.

Import ProgressService.
Import Content.

(** The two [DELETE] statements of one turn of the loop of
    [delete_module]. *)
Definition drop_topic (db : EducationDB) (topic : Z) : EducationDB :=
  mkDB (filter (fun r => negb (topic_id r =? topic)%Z) (student_progress db))
       (filter (fun e => negb (h_topic_id e =? topic)%Z) (quiz_history db)).

(** [ContentService.delete_module(module_id)]: what it returns or raises
    and the tables it leaves.  [fetchone()[0]] on a missing module raises
    [TypeError] before any statement writes, and the handler rolls back. *)
Definition delete_module (school : School) (module : Z) : result string * School :=
  match find (fun m => (m_id m =? module)%Z) (modules school) with
  | None => (Raise TypeError, school)
  | Some m =>
      let topic_ids :=
        map id (filter (fun t => (module_id t =? module)%Z) (topics school)) in
      (Ok (m_name m),
       mkSchool
         (fold_left drop_topic topic_ids (progress_db school))
         (filter (fun t => negb (module_id t =? module)%Z) (topics school))
         (filter (fun m => negb (m_id m =? module)%Z) (modules school)))
  end.

(** [FOREIGN KEY (topic_id) REFERENCES topics(id)] of [student_progress]
    and of [quiz_history], and [FOREIGN KEY (module_id) REFERENCES
    modules(id)] of [topics]. *)
Definition refs_ok (school : School) : Prop :=
  (forall r, In r (student_progress (progress_db school)) ->
             exists t, In t (topics school) /\ id t = topic_id r)
  /\ (forall e, In e (quiz_history (progress_db school)) ->
                exists t, In t (topics school) /\ id t = h_topic_id e)
  /\ (forall t, In t (topics school) ->
                exists m, In m (modules school) /\ m_id m = module_id t).

(** Is [topic] one of [topic_ids]? *)
Definition listed (topic_ids : list Z) (topic : Z) : bool :=
  existsb (Z.eqb topic) topic_ids.

End Cascade.

(** * Properties *)

(** ** Arithmetic of the clamps *)

Section Clamps.

Lemma py_min_spec (a b : Q) : py_min a b == Qmin a b.
Proof.
  unfold py_min.
  destruct (Qlt_le_dec b a) as [Hlt | Hle].
  - symmetry. apply Q.min_r. apply Qlt_le_weak. exact Hlt.
  - symmetry. apply Q.min_l. exact Hle.
Qed.

Lemma py_max_spec (a b : Q) : py_max a b == Qmax a b.
Proof.
  unfold py_max.
  destruct (Qlt_le_dec a b) as [Hlt | Hle].
  - symmetry. apply Q.max_r. apply Qlt_le_weak. exact Hlt.
  - symmetry. apply Q.max_l. exact Hle.
Qed.

(** [max(0.0, min(1.0, x))] is the spec's [clamp(x, 0.0, 1.0)]. *)
Lemma py_clamp_is_clamp (x : Q) : py_max 0 (py_min 1 x) == clamp x 0 1.
Proof.
  unfold clamp, py_max, py_min.
  destruct (Qlt_le_dec x 1) as [Hx | Hx].
  - destruct (Qlt_le_dec 0 x) as [H0 | H0].
    + rewrite Q.min_r by lra. rewrite Q.max_r by lra. reflexivity.
    + rewrite Q.min_r by lra. rewrite Q.max_l by lra. reflexivity.
  - destruct (Qlt_le_dec 0 1) as [H0 | H0]; [ | lra ].
    rewrite Q.min_l by lra. rewrite Q.max_r by lra. reflexivity.
Qed.

Lemma py_clamp_bounds (x : Q) : 0 <= py_max 0 (py_min 1 x) <= 1.
Proof.
  unfold py_max, py_min.
  destruct (Qlt_le_dec x 1) as [Hx | Hx].
  - destruct (Qlt_le_dec 0 x); lra.
  - destruct (Qlt_le_dec 0 1); lra.
Qed.

Lemma py_clamp_mono_up (s x : Q) : s <= 1 -> s <= x -> s <= py_max 0 (py_min 1 x).
Proof.
  intros Hs Hx. unfold py_max, py_min.
  destruct (Qlt_le_dec x 1).
  - destruct (Qlt_le_dec 0 x); lra.
  - destruct (Qlt_le_dec 0 1); lra.
Qed.

Lemma py_clamp_mono_down (s x : Q) : 0 <= s -> x <= s -> py_max 0 (py_min 1 x) <= s.
Proof.
  intros Hs Hx. unfold py_max, py_min.
  destruct (Qlt_le_dec x 1).
  - destruct (Qlt_le_dec 0 x); lra.
  - destruct (Qlt_le_dec 0 1); lra.
Qed.

End Clamps.

(** ** Replay on binary64 *)

Section OnDoubles.

Local Open Scope float_scope.

Lemma b64_ltb_leb (a b : float) :
  PrimFloat.ltb a b = true -> PrimFloat.leb a b = true.
Proof.
  rewrite ltb_spec, leb_spec. unfold SFltb, SFleb.
  destruct (SFcompare (Prim2SF a) (Prim2SF b)) as [ [ | | ] | ];
    intros H; try discriminate; reflexivity.
Qed.

(** [max(0.0, min(1.0, x))] lies in [[0, 1]] for every double [x], the
    infinities and NaN included. *)
Lemma b64_clamp_bounds (x : float) :
  PrimFloat.leb 0 (Binary64.py_max 0 (Binary64.py_min 1 x)) = true
  /\ PrimFloat.leb (Binary64.py_max 0 (Binary64.py_min 1 x)) 1 = true.
Proof.
  unfold Binary64.py_max, Binary64.py_min.
  destruct (PrimFloat.ltb x 1) eqn:H1.
  - destruct (PrimFloat.ltb 0 x) eqn:H0.
    + split; apply b64_ltb_leb; assumption.
    + split; reflexivity.
  - split; reflexivity.
Qed.

(** Every score that [update_student_progress] stores is a double in
    [[0, 1]]. *)
Lemma b64_update_bounds (s : float) (tq ca correct total : Z) :
  (PrimFloat.leb 0 (Binary64.updated_confidence s tq ca correct total) = true
   /\ PrimFloat.leb (Binary64.updated_confidence s tq ca correct total) 1 = true)
  /\ (PrimFloat.leb 0 (Binary64.created_confidence correct total) = true
      /\ PrimFloat.leb (Binary64.created_confidence correct total) 1 = true).
Proof.
  split; apply b64_clamp_bounds.
Qed.

(** 2 of 3 on a new topic, then 3 of 3: 0.5333333333333333, then
    0.5666666666666667. *)
Lemma b64_scenario :
  Binary64.created_confidence 2 3 = 0.5333333333333333
  /\ Binary64.updated_confidence 0.5333333333333333 3 2 3 3
     = 0.5666666666666667.
Proof. split; vm_compute; reflexivity. Qed.

(** 0 of 10 on a new topic gives 0.4, which an all-correct quiz of one
    question lowers to 0.3590909090909091; 10 of 10 gives 0.6, which an
    all-incorrect quiz of one question raises to 0.6409090909090909. *)
Lemma b64_direction :
  Binary64.created_confidence 0 10 = 0.4
  /\ Binary64.updated_confidence 0.4 10 0 1 1 = 0.3590909090909091
  /\ Binary64.created_confidence 10 10 = 0.6
  /\ Binary64.updated_confidence 0.6 10 10 0 1 = 0.6409090909090909.
Proof. repeat split; vm_compute; reflexivity. Qed.

(** A quiz without questions moves the score 0.5333333333333333 of a topic
    with 2 correct out of 3 to 0.55. *)
Lemma b64_zero_questions :
  Binary64.updated_confidence 0.5333333333333333 3 2 0 0 = 0.55.
Proof. vm_compute. reflexivity. Qed.

(** From 1.0, a correct then an incorrect answer leave 0.9. *)
Lemma b64_per_question :
  Binary64.stepped_score (Binary64.stepped_score 1 true) false = 0.9.
Proof. vm_compute. reflexivity. Qed.

End OnDoubles.

(** ** The stored record after [update_student_progress] *)

Section UpdateFacts.

Import ProgressService Policy.

Lemma guarded_accuracy_value (ca tq : Z) :
  guarded_accuracy ca tq = Ok (accuracy_value ca tq).
Proof.
  unfold guarded_accuracy, accuracy_value, truediv.
  destruct (0 <? tq)%Z eqn:Hpos; [ | reflexivity ].
  apply Z.ltb_lt in Hpos.
  destruct (tq =? 0)%Z eqn:Hz; [ | reflexivity ].
  apply Z.eqb_eq in Hz. lia.
Qed.

Lemma find_sql_update (sid tid : Z) (conf : Q) (att now tq ca : Z)
      (rows : list StudentProgress) :
  find (row_matches sid tid) (sql_update sid tid conf att now tq ca rows)
  = option_map
      (fun r => mkStudentProgress (student_id r) (topic_id r)
                                  conf att (Some now) tq ca)
      (find (row_matches sid tid) rows).
Proof.
  induction rows as [ | a rows IH ]; [ reflexivity | ].
  cbn [sql_update map find].
  destruct (row_matches sid tid a) eqn:Ha.
  - unfold row_matches at 1. cbn [student_id topic_id].
    fold (row_matches sid tid a). rewrite Ha. reflexivity.
  - rewrite Ha. exact IH.
Qed.

Lemma find_sql_insert (sid tid : Z) (conf : Q) (now tq ca : Z)
      (rows : list StudentProgress) :
  find (row_matches sid tid) rows = None ->
  find (row_matches sid tid) (sql_insert sid tid conf now tq ca rows)
  = Some (mkStudentProgress sid tid conf 1 (Some now) tq ca).
Proof.
  unfold sql_insert.
  induction rows as [ | a rows IH ]; cbn [app find]; intros Hnone.
  - unfold row_matches. cbn [student_id topic_id].
    rewrite !Z.eqb_refl. reflexivity.
  - destruct (row_matches sid tid a); [ discriminate | auto ].
Qed.

Lemma get_matches (db : EducationDB) (sid tid : Z) (r : StudentProgress) :
  get_student_progress db sid tid = Some r ->
  In r (student_progress db) /\ student_id r = sid /\ topic_id r = tid.
Proof.
  unfold get_student_progress. intros Hget.
  apply find_some in Hget. destruct Hget as [Hin Hm].
  unfold row_matches in Hm. apply andb_prop in Hm. destruct Hm as [H1 H2].
  apply Z.eqb_eq in H1. apply Z.eqb_eq in H2. auto.
Qed.

(** The update of a topic that has a row: it returns, and the row reads
    back with the fields of the [UPDATE] statement. *)
Lemma update_existing (db : EducationDB) (now sid tid correct total : Z)
      (r : StudentProgress) :
  get_student_progress db sid tid = Some r ->
  exists db',
    update_student_progress db now sid tid correct total = Ok db'
    /\ quiz_history db'
       = quiz_history db ++ [mkQuizHistory sid tid correct total]
    /\ get_student_progress db' sid tid
       = Some (mkStudentProgress
                 sid tid
                 (py_max 0 (py_min 1
                    (confidence_score r
                     + (accuracy_value (correct_answers r + correct)
                                       (total_questions r + total)
                        - (1 # 2)) * (1 # 10))))
                 (attempts r + 1) (Some now)
                 (total_questions r + total) (correct_answers r + correct)).
Proof.
  intros Hget.
  destruct (get_matches _ _ _ _ Hget) as (_ & Hs & Ht).
  unfold update_student_progress, updated_fields.
  rewrite Hget, guarded_accuracy_value. cbn [bind].
  eexists. split; [ reflexivity | ]. split; [ reflexivity | ].
  unfold get_student_progress in *. cbn [student_progress].
  rewrite find_sql_update, Hget. cbn [option_map].
  rewrite Hs, Ht. reflexivity.
Qed.

(** The update of a topic that has no row: it returns, and the row of the
    [INSERT] statement reads back. *)
Lemma update_created (db : EducationDB) (now sid tid correct total : Z) :
  get_student_progress db sid tid = None ->
  exists db',
    update_student_progress db now sid tid correct total = Ok db'
    /\ quiz_history db'
       = quiz_history db ++ [mkQuizHistory sid tid correct total]
    /\ get_student_progress db' sid tid
       = Some (mkStudentProgress
                 sid tid
                 (py_max 0 (py_min 1
                    ((1 # 2)
                     + (accuracy_value correct total - (1 # 2)) * (2 # 10))))
                 1 (Some now) total correct).
Proof.
  intros Hget.
  unfold update_student_progress, created_confidence.
  rewrite Hget, guarded_accuracy_value. cbn [bind].
  eexists. split; [ reflexivity | ]. split; [ reflexivity | ].
  unfold get_student_progress in *. cbn [student_progress].
  apply find_sql_insert. exact Hget.
Qed.

(** [update_student_progress] raises on no input. *)
Lemma update_returns (db : EducationDB) (now sid tid correct total : Z) :
  exists db', update_student_progress db now sid tid correct total = Ok db'.
Proof.
  destruct (get_student_progress db sid tid) as [ r | ] eqn:Hget.
  - destruct (update_existing db now sid tid correct total r Hget) as (db' & H & _).
    exists db'. exact H.
  - destruct (update_created db now sid tid correct total Hget) as (db' & H & _).
    exists db'. exact H.
Qed.

(** The submit branch of [display_quiz] raises on no quiz either. *)
Lemma submit_quiz_returns (db : EducationDB) (now sid tid : Z)
      (quiz : list (Question * option string)) :
  exists db', StudentInterface.submit_quiz db now sid tid quiz = Ok db'.
Proof. unfold StudentInterface.submit_quiz. apply update_returns. Qed.

Lemma db_ok_empty : db_ok empty_db.
Proof. constructor. Qed.

(** Rows written by the service keep [db_ok]: the service is the only
    writer of the table, so every stored row has [attempts >= 1]. *)
Lemma db_ok_update (db db' : EducationDB) (now sid tid correct total : Z) :
  db_ok db -> (0 <= total)%Z ->
  update_student_progress db now sid tid correct total = Ok db' ->
  db_ok db'.
Proof.
  unfold db_ok. intros Hok Htot Hup.
  unfold update_student_progress in Hup.
  destruct (get_student_progress db sid tid) as [ r | ] eqn:Hget.
  - unfold updated_fields in Hup. rewrite guarded_accuracy_value in Hup.
    cbn [bind] in Hup. injection Hup as <-. cbn [student_progress].
    destruct (get_matches _ _ _ _ Hget) as (Hin & _ & _).
    pose proof (proj1 (Forall_forall _ _) Hok r Hin) as [Hr1 Hr2].
    unfold sql_update. apply Forall_forall. intros x Hx.
    apply in_map_iff in Hx. destruct Hx as (y & <- & Hy).
    destruct (row_matches sid tid y).
    + unfold row_ok. cbn [attempts total_questions]. lia.
    + exact (proj1 (Forall_forall _ _) Hok y Hy).
  - unfold created_confidence in Hup. rewrite guarded_accuracy_value in Hup.
    cbn [bind] in Hup. injection Hup as <-. cbn [student_progress].
    unfold sql_insert. apply Forall_app. split; [ exact Hok | ].
    constructor; [ | constructor ].
    unfold row_ok. cbn [attempts total_questions]. lia.
Qed.

Lemma accuracy_value_pos (ca tq : Z) :
  (0 < tq)%Z -> accuracy_value ca tq = inject_Z ca / inject_Z tq.
Proof.
  intros Hpos. unfold accuracy_value.
  destruct (0 <? tq)%Z eqn:E; [ reflexivity | ].
  apply Z.ltb_ge in E. lia.
Qed.

End UpdateFacts.

(** ** The confidence update of the progress service *)

Section ConfidenceUpdate.

Import ProgressService Policy.

Lemma K_established (a : Z) : (1 <= a)%Z -> K a = 1 # 10.
Proof.
  intros Ha. unfold K. destruct (a =? 0)%Z eqn:E; [ | reflexivity ].
  apply Z.eqb_eq in E. lia.
Qed.

Lemma prior_row_ok (db : EducationDB) (sid tid : Z) (r : StudentProgress) :
  db_ok db -> get_student_progress db sid tid = Some r -> row_ok r.
Proof.
  intros Hok Hget. destruct (get_matches _ _ _ _ Hget) as (Hin & _ & _).
  exact (proj1 (Forall_forall _ _) Hok r Hin).
Qed.

(** The general step of the update, for a database written by the
    service. *)
Lemma update_step (db : EducationDB) (now sid tid newCorrect newTotal : Z) :
  db_ok db -> (1 <= newTotal)%Z ->
  exists db' r',
    update_student_progress db now sid tid newCorrect newTotal = Ok db'
    /\ get_student_progress db' sid tid = Some r'
    /\ total_questions r'
       = (total_questions (prior_record db sid tid) + newTotal)%Z
    /\ correct_answers r'
       = (correct_answers (prior_record db sid tid) + newCorrect)%Z
    /\ attempts r' = (attempts (prior_record db sid tid) + 1)%Z
    /\ confidence_score r'
       == clamp (confidence_score (prior_record db sid tid)
                 + (inject_Z (correct_answers r') / inject_Z (total_questions r')
                    - (1 # 2))
                   * K (attempts (prior_record db sid tid)))
                0 1.
Proof.
  intros Hok Hnt. unfold prior_record.
  destruct (get_student_progress db sid tid) as [ r | ] eqn:Hget.
  - destruct (prior_row_ok db sid tid r Hok Hget) as [Ha Htq].
    destruct (update_existing db now sid tid newCorrect newTotal r Hget)
      as (db' & Hup & _ & Hread).
    eexists. eexists. split; [ exact Hup | ]. split; [ exact Hread | ].
    cbn [total_questions correct_answers attempts confidence_score].
    repeat (split; [ reflexivity | ]).
    rewrite py_clamp_is_clamp, (K_established _ Ha).
    rewrite accuracy_value_pos by lia. reflexivity.
  - destruct (update_created db now sid tid newCorrect newTotal Hget)
      as (db' & Hup & _ & Hread).
    eexists. eexists. split; [ exact Hup | ]. split; [ exact Hread | ].
    cbn [default_record total_questions correct_answers attempts confidence_score].
    repeat (split; [ reflexivity | ]).
    rewrite py_clamp_is_clamp.
    rewrite accuracy_value_pos by lia. reflexivity.
Qed.

End ConfidenceUpdate.

Section Scenario.

Import ProgressService Policy.

Variables now sid tid : Z.

(** The first quiz of a topic, 2 correct out of 3. *)
Lemma first_quiz_2_of_3 :
  exists db1,
    update_student_progress empty_db now sid tid 2 3 = Ok db1
    /\ get_student_progress db1 sid tid
       = Some (mkStudentProgress sid tid
                 (py_max 0 (py_min 1
                    ((1 # 2) + (accuracy_value 2 3 - (1 # 2)) * (2 # 10))))
                 1 (Some now) 3 2).
Proof.
  destruct (update_created empty_db now sid tid 2 3 eq_refl)
    as (db1 & Hup & _ & Hread).
  exists db1. split; assumption.
Qed.

(** The second quiz from that state, 3 correct out of 3. *)
Lemma second_quiz_3_of_3 :
  exists db1 db2 r2,
    update_student_progress empty_db now sid tid 2 3 = Ok db1
    /\ update_student_progress db1 now sid tid 3 3 = Ok db2
    /\ get_student_progress db2 sid tid = Some r2
    /\ total_questions r2 = 6%Z /\ correct_answers r2 = 5%Z
    /\ attempts r2 = 2%Z
    /\ confidence_score r2 == 17 # 30.
Proof.
  destruct first_quiz_2_of_3 as (db1 & Hup1 & Hread1).
  destruct (update_existing db1 now sid tid 3 3 _ Hread1)
    as (db2 & Hup2 & _ & Hread2).
  exists db1, db2. eexists.
  split; [ exact Hup1 | ]. split; [ exact Hup2 | ]. split; [ exact Hread2 | ].
  cbn [total_questions correct_answers attempts confidence_score].
  repeat (split; [ reflexivity | ]).
  vm_compute. reflexivity.
Qed.

End Scenario.

Lemma thousandths_compat (x y : Q) : x == y -> Policy.thousandths x = Policy.thousandths y.
Proof.
  intros Hxy. unfold Policy.thousandths. apply Qfloor_comp. rewrite Hxy. reflexivity.
Qed.

(** C1.  For a database written by the service (every row has
    [attempts >= 1] and [totalQuestions >= 0], which holds of the empty
    database and is kept by every update) and a quiz with
    [newTotal >= 1] questions of which [newCorrect <= newTotal] are correct,
    [update_student_progress] returns and stores, for the prior record
    [(s, a, tq, ca)] of the topic (the default record when the topic has no
    row), [tq' = tq + newTotal], [ca' = ca + newCorrect], [a' = a + 1] and
    [s' = clamp(s + (ca'/tq' - 0.5) * K, 0, 1)] with [K = 0.2] when [a = 0]
    and [K = 0.1] otherwise.  From the default record, 2 correct out of 3
    gives [s' = 8/15], shown as 0.533; a second quiz with 3 out of 3 gives
    [s' = 17/30], shown as 0.567.  On doubles the two scores are
    0.5333333333333333 and 0.5666666666666667. *)
Theorem C1_confidence_update :
  (forall (db : ProgressService.EducationDB) (now sid tid newCorrect newTotal : Z),
      Policy.db_ok db -> (1 <= newTotal)%Z -> (newCorrect <= newTotal)%Z ->
      exists db' r',
        ProgressService.update_student_progress db now sid tid newCorrect newTotal
        = Ok db'
        /\ ProgressService.get_student_progress db' sid tid = Some r'
        /\ ProgressService.total_questions r'
           = (ProgressService.total_questions (Policy.prior_record db sid tid)
              + newTotal)%Z
        /\ ProgressService.correct_answers r'
           = (ProgressService.correct_answers (Policy.prior_record db sid tid)
              + newCorrect)%Z
        /\ ProgressService.attempts r'
           = (ProgressService.attempts (Policy.prior_record db sid tid) + 1)%Z
        /\ ProgressService.confidence_score r'
           == clamp
                (ProgressService.confidence_score (Policy.prior_record db sid tid)
                 + (inject_Z (ProgressService.correct_answers r')
                    / inject_Z (ProgressService.total_questions r')
                    - (1 # 2))
                   * Policy.K (ProgressService.attempts
                                 (Policy.prior_record db sid tid)))
                0 1)
  /\ (forall now sid tid : Z,
         exists db1 r1 db2 r2,
           ProgressService.update_student_progress
             ProgressService.empty_db now sid tid 2 3 = Ok db1
           /\ ProgressService.get_student_progress db1 sid tid = Some r1
           /\ ProgressService.total_questions r1 = 3%Z
           /\ ProgressService.correct_answers r1 = 2%Z
           /\ ProgressService.attempts r1 = 1%Z
           /\ ProgressService.confidence_score r1 == 8 # 15
           /\ Policy.thousandths (ProgressService.confidence_score r1) = 533%Z
           /\ ProgressService.update_student_progress db1 now sid tid 3 3 = Ok db2
           /\ ProgressService.get_student_progress db2 sid tid = Some r2
           /\ ProgressService.total_questions r2 = 6%Z
           /\ ProgressService.correct_answers r2 = 5%Z
           /\ ProgressService.attempts r2 = 2%Z
           /\ ProgressService.confidence_score r2 == 17 # 30
           /\ Policy.thousandths (ProgressService.confidence_score r2) = 567%Z)
  /\ (Binary64.created_confidence 2 3 = 0.5333333333333333%float
      /\ Binary64.updated_confidence 0.5333333333333333%float 3 2 3 3
         = 0.5666666666666667%float)
  /\ (Policy.db_ok ProgressService.empty_db
      /\ forall (db db' : ProgressService.EducationDB)
                (now sid tid newCorrect newTotal : Z),
          Policy.db_ok db -> (0 <= newTotal)%Z ->
          ProgressService.update_student_progress db now sid tid newCorrect newTotal
          = Ok db' ->
          Policy.db_ok db').
Proof.
  split; [ | split; [ | split; [ exact b64_scenario | ] ] ];
    [ | | split; [ exact db_ok_empty | exact db_ok_update ] ].
  - intros db now sid tid newCorrect newTotal Hok Hnt _.
    apply update_step; assumption.
  - intros now sid tid.
    destruct (second_quiz_3_of_3 now sid tid)
      as (db1 & db2 & r2 & Hup1 & Hup2 & Hread2 & Htq & Hca & Ha & Hs).
    destruct (first_quiz_2_of_3 now sid tid) as (db1' & Hup1' & Hread1).
    assert (db1' = db1) as -> by congruence.
    exists db1. eexists. exists db2, r2.
    split; [ exact Hup1 | ]. split; [ exact Hread1 | ].
    cbn [ProgressService.total_questions ProgressService.correct_answers
         ProgressService.attempts ProgressService.confidence_score].
    do 3 (split; [ reflexivity | ]).
    split; [ vm_compute; reflexivity | ].
    split; [ vm_compute; reflexivity | ].
    split; [ exact Hup2 | ]. split; [ exact Hread2 | ].
    repeat (split; [ assumption | ]).
    rewrite (thousandths_compat _ _ Hs). vm_compute. reflexivity.
Qed.

(** The update applied to a one-row database of an established topic. *)
Lemma C1_confidence_update_witness :
  let db :=
    ProgressService.mkDB
      [ProgressService.mkStudentProgress 7 3 (8 # 15) 1 (Some 0%Z) 3 2] [] in
  Policy.db_ok db /\ (1 <= 3)%Z /\ (3 <= 3)%Z
  /\ exists db' r',
      ProgressService.update_student_progress db 1 7 3 3 3 = Ok db'
      /\ ProgressService.get_student_progress db' 7 3 = Some r'
      /\ ProgressService.total_questions r' = 6%Z
      /\ ProgressService.attempts r' = 2%Z.
Proof.
  intros db.
  assert (Hok : Policy.db_ok db).
  { repeat constructor; cbn; lia. }
  split; [ exact Hok | ]. split; [ lia | ]. split; [ lia | ].
  destruct (proj1 C1_confidence_update db 1%Z 7%Z 3%Z 3%Z 3%Z Hok
                  ltac:(lia) ltac:(lia))
    as (db' & r' & Hup & Hread & Htq & _ & Ha & _).
  exists db', r'. repeat split; assumption.
Defined.

(** ** Dicts *)

Section DictFacts.

Lemma dict_get_set_same (d : dict) (k : string) (v : Q) :
  dict_get (dict_set d k v) k = Some v.
Proof.
  induction d as [ | [k' v'] d IH ]; cbn [dict_set dict_get].
  - rewrite String.eqb_refl. reflexivity.
  - destruct (String.eqb k' k) eqn:E; cbn [dict_get]; rewrite E; auto.
Qed.

Lemma dict_get_set_other (d : dict) (k k0 : string) (v : Q) :
  k <> k0 -> dict_get (dict_set d k v) k0 = dict_get d k0.
Proof.
  intros Hne.
  induction d as [ | [k' v'] d IH ]; cbn [dict_set dict_get].
  - destruct (String.eqb_spec k k0); [ contradiction | reflexivity ].
  - destruct (String.eqb_spec k' k) as [ -> | Hk ]; cbn [dict_get].
    + destruct (String.eqb_spec k k0); [ contradiction | reflexivity ].
    + destruct (String.eqb k' k0); [ reflexivity | exact IH ].
Qed.

Lemma dict_get_in_keys (d : dict) (k : string) (v : Q) :
  dict_get d k = Some v -> In k (dict_keys d).
Proof.
  induction d as [ | [k' v'] d IH ]; cbn [dict_get dict_keys map fst]; [ discriminate | ].
  destruct (String.eqb_spec k' k) as [ -> | Hk ]; intros H.
  - left. reflexivity.
  - right. apply IH. exact H.
Qed.

Lemma dict_get_not_in_keys (d : dict) (k : string) :
  dict_get d k = None -> ~ In k (dict_keys d).
Proof.
  induction d as [ | [k' v'] d IH ]; cbn [dict_get dict_keys map fst]; [ tauto | ].
  destruct (String.eqb_spec k' k) as [ -> | Hk ]; [ discriminate | ].
  intros H [ Heq | Hin ]; [ contradiction | ]. exact (IH H Hin).
Qed.

Lemma in_keys_dict_get (d : dict) (k : string) :
  In k (dict_keys d) -> exists v, dict_get d k = Some v.
Proof.
  intros Hin. destruct (dict_get d k) as [ v | ] eqn:E.
  - exists v. reflexivity.
  - exfalso. exact (dict_get_not_in_keys d k E Hin).
Qed.

(** An assignment keeps the keys of a present key and appends an absent
    one. *)
Lemma dict_keys_set (d : dict) (k : string) (v : Q) :
  dict_keys (dict_set d k v)
  = if existsb (String.eqb k) (dict_keys d) then dict_keys d
    else dict_keys d ++ [k].
Proof.
  induction d as [ | [k' v'] d IH ]; [ reflexivity | ].
  cbn [dict_set dict_keys map fst existsb].
  rewrite (String.eqb_sym k k').
  destruct (String.eqb k' k); cbn [map fst orb]; [ reflexivity | ].
  fold (dict_keys (dict_set d k v)). fold (dict_keys d). rewrite IH.
  destruct (existsb (String.eqb k) (dict_keys d)); reflexivity.
Qed.

Lemma existsb_eqb_in (k : string) (l : list string) :
  existsb (String.eqb k) l = true <-> In k l.
Proof.
  rewrite existsb_exists. split.
  - intros (x & Hin & Heq). apply String.eqb_eq in Heq. subst. exact Hin.
  - intros Hin. exists k. split; [ exact Hin | apply String.eqb_refl ].
Qed.

Lemma dict_set_in_keys (d : dict) (k k0 : string) (v : Q) :
  In k0 (dict_keys (dict_set d k v)) <-> k0 = k \/ In k0 (dict_keys d).
Proof.
  rewrite dict_keys_set.
  destruct (existsb (String.eqb k) (dict_keys d)) eqn:E.
  - apply existsb_eqb_in in E. split; [ auto | ].
    intros [ -> | H ]; assumption.
  - rewrite in_app_iff. cbn [In]. split.
    + intros [ H | [ H | [] ] ]; auto.
    + intros [ H | H ]; auto.
Qed.

Lemma dict_set_NoDup (d : dict) (k : string) (v : Q) :
  NoDup (dict_keys d) -> NoDup (dict_keys (dict_set d k v)).
Proof.
  intros Hnd. rewrite dict_keys_set.
  destruct (existsb (String.eqb k) (dict_keys d)) eqn:E; [ exact Hnd | ].
  assert (Hnin : ~ In k (dict_keys d)).
  { intros Hin. apply existsb_eqb_in in Hin. congruence. }
  apply NoDup_app; [ exact Hnd | repeat constructor; intros [] | ].
  intros x Hx [ <- | [] ]. contradiction.
Qed.

Lemma subset_b_spec (xs ys : list string) :
  subset_b xs ys = true <-> incl xs ys.
Proof.
  unfold subset_b, incl. rewrite forallb_forall.
  split; intros H x Hx; apply existsb_eqb_in; [ | apply existsb_eqb_in ]; auto.
  apply existsb_eqb_in. auto.
Qed.

(** [set_eqb] decides equality of the two sets of strings. *)
Lemma set_eqb_spec (xs ys : list string) :
  set_eqb xs ys = true <-> (forall x, In x xs <-> In x ys).
Proof.
  unfold set_eqb. rewrite andb_true_iff, !subset_b_spec. unfold incl.
  split.
  - intros [H1 H2] x. split; auto.
  - intros H. split; intros x; apply H.
Qed.

(** The comprehension over [topics] has the topics as its keys and 0.5 as
    every value. *)
Lemma dict_of_default_acc (topics : list string) (d : dict) :
  let d' := fold_left (fun d topic => dict_set d topic (1 # 2)) topics d in
  (forall k, In k (dict_keys d') <-> In k topics \/ In k (dict_keys d))
  /\ (forall k, In k topics -> dict_get d' k = Some (1 # 2))
  /\ (forall k, ~ In k topics -> dict_get d' k = dict_get d k)
  /\ (NoDup (dict_keys d) -> NoDup (dict_keys d')).
Proof.
  revert d. induction topics as [ | t topics IH ]; intros d; cbn [fold_left].
  - cbn [In]. repeat split; tauto.
  - destruct (IH (dict_set d t (1 # 2))) as (Hk & Hin & Hout & Hnd).
    split; [ | split; [ | split ] ].
    + intros k. rewrite Hk, dict_set_in_keys. cbn [In]. intuition auto.
    + intros k Hk'.
      destruct (in_dec string_dec k topics) as [ Hi | Hni ]; [ auto | ].
      destruct Hk' as [ -> | Hk' ]; [ | contradiction ].
      rewrite (Hout _ Hni). apply dict_get_set_same.
    + intros k Hk'. cbn [In] in Hk'.
      rewrite Hout by tauto. apply dict_get_set_other. intros ->. tauto.
    + intros H. apply Hnd. apply dict_set_NoDup. exact H.
Qed.

Lemma dict_of_default_keys (topics : list string) (k : string) :
  In k (dict_keys (dict_of_default topics)) <-> In k topics.
Proof.
  unfold dict_of_default.
  destruct (dict_of_default_acc topics []) as (Hk & _).
  rewrite Hk. cbn [dict_keys map In]. tauto.
Qed.

Lemma dict_of_default_get (topics : list string) (k : string) :
  In k topics -> dict_get (dict_of_default topics) k = Some (1 # 2).
Proof.
  unfold dict_of_default.
  destruct (dict_of_default_acc topics []) as (_ & Hin & _). apply Hin.
Qed.

Lemma dict_of_default_NoDup (topics : list string) :
  NoDup (dict_keys (dict_of_default topics)).
Proof.
  unfold dict_of_default.
  destruct (dict_of_default_acc topics []) as (_ & _ & _ & Hnd).
  apply Hnd. constructor.
Qed.

End DictFacts.

(** ** The per-question mode *)

Section PerQuestion.

Import MainQuiz Policy.

Lemma stepped_score_correct (score : Q) :
  stepped_score score true == Qmin 1 (score + (1 # 10)).
Proof. unfold stepped_score. apply py_min_spec. Qed.

Lemma stepped_score_incorrect (score : Q) :
  stepped_score score false == Qmax 0 (score - (1 # 10)).
Proof. unfold stepped_score. apply py_max_spec. Qed.

Lemma stepped_score_valid (score : Q) (is_correct : bool) :
  valid_score score -> valid_score (stepped_score score is_correct).
Proof.
  unfold valid_score, stepped_score, py_min, py_max. intros [H0 H1].
  destruct is_correct.
  - destruct (Qlt_le_dec (score + (1 # 10)) 1); lra.
  - destruct (Qlt_le_dec 0 (score - (1 # 10))); lra.
Qed.

Lemma stored_score_set (p : Progress) (topic_name : string) (v : Q) :
  stored_score
    (mkProgress (student_id p) (dict_set (confidence_scores p) topic_name v))
    topic_name = v.
Proof.
  unfold stored_score, dict_get_default. cbn [confidence_scores].
  rewrite dict_get_set_same. reflexivity.
Qed.

(** One call of [update_confidence_score]: the topic gets the stepped score
    and the progress is saved. *)
Lemma update_confidence_score_spec (file : ProgressFile) (p : Progress)
      (topic_name : string) (is_correct : bool) :
  let p' := fst (update_confidence_score file p topic_name is_correct) in
  dict_get (confidence_scores p') topic_name
  = Some (stepped_score (stored_score p topic_name) is_correct)
  /\ snd (update_confidence_score file p topic_name is_correct) = Some p'.
Proof.
  unfold update_confidence_score. cbn [fst snd confidence_scores].
  split; [ apply dict_get_set_same | reflexivity ].
Qed.

(** The loop over a quiz steps the score once per answer. *)
Lemma quiz_loop_score (outcome : list bool) :
  forall (file : ProgressFile) (p : Progress) (topic_name : string),
    stored_score (fst (quiz_loop file p topic_name outcome)) topic_name
    = fold_left stepped_score outcome (stored_score p topic_name).
Proof.
  induction outcome as [ | b outcome IH ]; intros file p topic_name.
  - reflexivity.
  - cbn [quiz_loop fold_left].
    unfold update_confidence_score.
    rewrite IH. rewrite stored_score_set. reflexivity.
Qed.

Lemma fold_stepped_valid (outcome : list bool) :
  forall score : Q,
    valid_score score -> valid_score (fold_left stepped_score outcome score).
Proof.
  induction outcome as [ | b outcome IH ]; intros score Hv; cbn [fold_left].
  - exact Hv.
  - apply IH. apply stepped_score_valid. exact Hv.
Qed.

(** The submit handler of [app_hf.py] steps the session's score once per
    question and counts the correct answers. *)
Lemma submit_loop_score (current_topic : string) (quiz : list (Question * string)) :
  forall (student_progress : dict) (correct_count : Z) (score : Q),
    dict_get student_progress current_topic = Some score ->
    exists student_progress',
      AppHf.submit_loop current_topic quiz student_progress correct_count
      = Ok (student_progress',
            (correct_count
             + Z.of_nat (List.length (filter (fun b => b) (hf_flags quiz))))%Z)
      /\ dict_get student_progress' current_topic
         = Some (fold_left stepped_score (hf_flags quiz) score).
Proof.
  induction quiz as [ | [q selected] quiz IH ];
    intros student_progress correct_count score Hget.
  - exists student_progress. cbn. rewrite Z.add_0_r. auto.
  - cbn [AppHf.submit_loop hf_flags map fst snd fold_left].
    unfold dict_index. rewrite Hget. cbn [bind].
    fold (hf_flags quiz).
    destruct (AppHf.is_correct selected q) eqn:Hc.
    + destruct (IH (dict_set student_progress current_topic
                             (py_min 1 (score + (1 # 10))))
                   (correct_count + 1)%Z (py_min 1 (score + (1 # 10)))
                   (dict_get_set_same _ _ _)) as (sp' & Hrun & Hread).
      exists sp'. split; [ | exact Hread ].
      rewrite Hrun. cbn [filter List.length]. do 2 f_equal. lia.
    + destruct (IH (dict_set student_progress current_topic
                             (py_max 0 (score - (1 # 10))))
                   correct_count (py_max 0 (score - (1 # 10)))
                   (dict_get_set_same _ _ _)) as (sp' & Hrun & Hread).
      exists sp'. split; [ | exact Hread ].
      rewrite Hrun. reflexivity.
Qed.

End PerQuestion.

(** C2.  When the prior score of the topic (0.5 for a topic without a row)
    lies in [[0, 1]] and the quiz has [newTotal >= 1] questions,
    [update_student_progress] returns and the score it stores lies in
    [[0, 1]], whatever the number of correct answers.  In the per-question
    mode the stored score lies in [[0, 1]] after every answer of a quiz, in
    the loop over [update_confidence_score] and in the submit handler of
    [app_hf.py] alike.  On doubles the score that the update stores lies in
    [[0, 1]] for every stored double and every pair of counts. *)
Theorem C2_score_in_unit_interval :
  (forall (db : ProgressService.EducationDB) (now sid tid newCorrect newTotal : Z),
      Policy.valid_score
        (ProgressService.confidence_score (Policy.prior_record db sid tid)) ->
      (1 <= newTotal)%Z ->
      exists db' r',
        ProgressService.update_student_progress db now sid tid newCorrect newTotal
        = Ok db'
        /\ ProgressService.get_student_progress db' sid tid = Some r'
        /\ Policy.valid_score (ProgressService.confidence_score r'))
  /\ (forall (file : MainQuiz.ProgressFile) (p : MainQuiz.Progress)
             (topic_name : string) (outcome : list bool) (n : nat),
         Policy.valid_score (Policy.stored_score p topic_name) ->
         Policy.valid_score
           (Policy.stored_score
              (fst (MainQuiz.quiz_loop file p topic_name (firstn n outcome)))
              topic_name))
  /\ (forall (current_topic : string) (quiz : list (Question * string))
             (student_progress : dict) (correct_count : Z) (score : Q) (n : nat),
         dict_get student_progress current_topic = Some score ->
         Policy.valid_score score ->
         exists student_progress' correct_count' score',
           AppHf.submit_loop current_topic (firstn n quiz)
                             student_progress correct_count
           = Ok (student_progress', correct_count')
           /\ dict_get student_progress' current_topic = Some score'
           /\ Policy.valid_score score')
  /\ (forall (s : float) (tq ca newCorrect newTotal : Z),
         PrimFloat.leb 0 (Binary64.updated_confidence s tq ca newCorrect newTotal)
         = true
         /\ PrimFloat.leb (Binary64.updated_confidence s tq ca newCorrect newTotal) 1
            = true
         /\ PrimFloat.leb 0 (Binary64.created_confidence newCorrect newTotal) = true
         /\ PrimFloat.leb (Binary64.created_confidence newCorrect newTotal) 1 = true).
Proof.
  split; [ | split; [ | split ] ];
    [ | | | intros s tq ca newCorrect newTotal;
            destruct (b64_update_bounds s tq ca newCorrect newTotal)
              as [[H1 H2] [H3 H4]]; auto ].
  - intros db now sid tid newCorrect newTotal _ _.
    unfold Policy.prior_record.
    destruct (ProgressService.get_student_progress db sid tid) as [ r | ] eqn:Hget.
    + destruct (update_existing db now sid tid newCorrect newTotal r Hget)
        as (db' & Hup & _ & Hread).
      eexists. eexists. split; [ exact Hup | ]. split; [ exact Hread | ].
      apply py_clamp_bounds.
    + destruct (update_created db now sid tid newCorrect newTotal Hget)
        as (db' & Hup & _ & Hread).
      eexists. eexists. split; [ exact Hup | ]. split; [ exact Hread | ].
      apply py_clamp_bounds.
  - intros file p topic_name outcome n Hv.
    rewrite quiz_loop_score. apply fold_stepped_valid. exact Hv.
  - intros current_topic quiz student_progress correct_count score n Hget Hv.
    destruct (submit_loop_score current_topic (firstn n quiz)
                                student_progress correct_count score Hget)
      as (sp' & Hrun & Hread).
    eexists. eexists. eexists.
    split; [ exact Hrun | ]. split; [ exact Hread | ].
    apply fold_stepped_valid. exact Hv.
Qed.

(** The two extreme outcomes of a four-question quiz, all correct on a
    stored score 1 and all incorrect on a stored score 0, and the first
    step of the per-question mode from score 1. *)
Lemma C2_score_in_unit_interval_witness :
  let top := ProgressService.mkDB
               [ProgressService.mkStudentProgress 7 3 1 5 (Some 0%Z) 20 20] [] in
  let bottom := ProgressService.mkDB
                  [ProgressService.mkStudentProgress 7 3 0 5 (Some 0%Z) 20 0] [] in
  (exists db' r',
      ProgressService.update_student_progress top 1 7 3 4 4 = Ok db'
      /\ ProgressService.get_student_progress db' 7 3 = Some r'
      /\ Policy.valid_score (ProgressService.confidence_score r'))
  /\ (exists db' r',
         ProgressService.update_student_progress bottom 1 7 3 0 4 = Ok db'
         /\ ProgressService.get_student_progress db' 7 3 = Some r'
         /\ Policy.valid_score (ProgressService.confidence_score r'))
  /\ Policy.valid_score
       (Policy.stored_score
          (fst (MainQuiz.quiz_loop
                  None (MainQuiz.mkProgress "user123" [("Inductive Bias"%string, 1)])
                  "Inductive Bias" (firstn 1 [true; false])))
          "Inductive Bias").
Proof.
  intros top bottom.
  assert (H1 : Policy.valid_score 1) by (unfold Policy.valid_score; lra).
  assert (H0 : Policy.valid_score 0) by (unfold Policy.valid_score; lra).
  split; [ | split ].
  - apply (proj1 C2_score_in_unit_interval top 1%Z 7%Z 3%Z 4%Z 4%Z);
      [ exact H1 | lia ].
  - apply (proj1 C2_score_in_unit_interval bottom 1%Z 7%Z 3%Z 0%Z 4%Z);
      [ exact H0 | lia ].
  - apply (proj1 (proj2 C2_score_in_unit_interval)). exact H1.
Defined.

(** C9.  In the per-question mode one correct answer stores
    [min(1.0, score + 0.1)] and one incorrect answer stores
    [max(0.0, score - 0.1)], where [score] is the score read for the topic;
    a quiz is processed answer by answer, each step clamping the score it
    produces, in [update_confidence_score] and in the submit handler of
    [app_hf.py].  Clamping at every step differs from clamping once at the
    end: from score 1, a correct then an incorrect answer leave 0.9. *)
Theorem C9_per_question_mode :
  (forall score : Q,
      MainQuiz.stepped_score score true == Qmin 1 (score + (1 # 10))
      /\ MainQuiz.stepped_score score false == Qmax 0 (score - (1 # 10)))
  /\ (forall (file : MainQuiz.ProgressFile) (p : MainQuiz.Progress)
             (topic_name : string) (is_correct : bool),
         let p' := fst (MainQuiz.update_confidence_score
                          file p topic_name is_correct) in
         dict_get (MainQuiz.confidence_scores p') topic_name
         = Some (MainQuiz.stepped_score (Policy.stored_score p topic_name)
                                        is_correct)
         /\ snd (MainQuiz.update_confidence_score file p topic_name is_correct)
            = Some p')
  /\ (forall (file : MainQuiz.ProgressFile) (p : MainQuiz.Progress)
             (topic_name : string) (outcome : list bool),
         Policy.stored_score
           (fst (MainQuiz.quiz_loop file p topic_name outcome)) topic_name
         = fold_left MainQuiz.stepped_score outcome
                     (Policy.stored_score p topic_name))
  /\ (forall (current_topic : string) (quiz : list (Question * string))
             (student_progress : dict) (correct_count : Z) (score : Q),
         dict_get student_progress current_topic = Some score ->
         exists student_progress' correct_count',
           AppHf.submit_loop current_topic quiz student_progress correct_count
           = Ok (student_progress', correct_count')
           /\ dict_get student_progress' current_topic
              = Some (fold_left MainQuiz.stepped_score
                                (Policy.hf_flags quiz) score))
  /\ (fold_left MainQuiz.stepped_score [true; false] 1 == 9 # 10
      /\ clamp (1 + (1 # 10) - (1 # 10)) 0 1 == 1).
Proof.
  split; [ | split; [ | split; [ | split ] ] ].
  - intros score. split.
    + apply stepped_score_correct.
    + apply stepped_score_incorrect.
  - intros file p topic_name is_correct.
    apply update_confidence_score_spec.
  - intros file p topic_name outcome. apply quiz_loop_score.
  - intros current_topic quiz student_progress correct_count score Hget.
    destruct (submit_loop_score current_topic quiz student_progress
                                correct_count score Hget)
      as (sp' & Hrun & Hread).
    eexists. eexists. split; [ exact Hrun | exact Hread ].
  - split; vm_compute; reflexivity.
Qed.

(** The submit handler on a two-question quiz answered right then wrong. *)
Lemma C9_per_question_mode_witness :
  let q := mkQuestion "Which bias?" ["A) One"%string; "B) Two"%string] "A" "-" in
  let session := [("Inductive Bias"%string, 1)] in
  dict_get session "Inductive Bias" = Some 1
  /\ exists student_progress' correct_count',
      AppHf.submit_loop "Inductive Bias" [(q, "A) One"%string); (q, "B) Two"%string)]
                        session 0
      = Ok (student_progress', correct_count')
      /\ dict_get student_progress' "Inductive Bias"
         = Some (fold_left MainQuiz.stepped_score [true; false] 1).
Proof.
  intros q session. split; [ reflexivity | ].
  exact (proj1 (proj2 (proj2 (proj2 C9_per_question_mode)))
               "Inductive Bias"%string
               [(q, "A) One"%string); (q, "B) Two"%string)]
               session 0%Z 1 eq_refl).
Defined.

(** ** Direction of the update *)

Section Direction.

Import ProgressService Policy.

Lemma accuracy_at_least_half (ca tq : Z) :
  (0 < tq)%Z -> (tq <= 2 * ca)%Z -> (1 # 2) <= inject_Z ca / inject_Z tq.
Proof.
  intros Hpos Hle. apply Qle_shift_div_l.
  - change 0 with (inject_Z 0). rewrite <- Zlt_Qlt. exact Hpos.
  - unfold Qle, Qmult, inject_Z. cbn [Qnum Qden]. lia.
Qed.

Lemma accuracy_at_most_half (ca tq : Z) :
  (0 < tq)%Z -> (2 * ca <= tq)%Z -> inject_Z ca / inject_Z tq <= (1 # 2).
Proof.
  intros Hpos Hle. apply Qle_shift_div_r.
  - change 0 with (inject_Z 0). rewrite <- Zlt_Qlt. exact Hpos.
  - unfold Qle, Qmult, inject_Z. cbn [Qnum Qden]. lia.
Qed.

(** The score moves toward the side of one half on which the cumulative
    accuracy lies. *)
Lemma update_direction (db : EducationDB) (now sid tid correct total : Z) :
  valid_score (confidence_score (prior_record db sid tid)) ->
  (0 <= total_questions (prior_record db sid tid))%Z ->
  (1 <= total)%Z ->
  exists db' r',
    update_student_progress db now sid tid correct total = Ok db'
    /\ get_student_progress db' sid tid = Some r'
    /\ ((total_questions r' <= 2 * correct_answers r')%Z ->
        confidence_score (prior_record db sid tid) <= confidence_score r')
    /\ ((2 * correct_answers r' <= total_questions r')%Z ->
        confidence_score r' <= confidence_score (prior_record db sid tid))
    /\ total_questions r'
       = (total_questions (prior_record db sid tid) + total)%Z
    /\ correct_answers r'
       = (correct_answers (prior_record db sid tid) + correct)%Z.
Proof.
  unfold prior_record, valid_score.
  destruct (get_student_progress db sid tid) as [ r | ] eqn:Hget;
    intros [Hs0 Hs1] Htq Hnt.
  - destruct (update_existing db now sid tid correct total r Hget)
      as (db' & Hup & _ & Hread).
    eexists. eexists. split; [ exact Hup | ]. split; [ exact Hread | ].
    cbn [total_questions correct_answers confidence_score].
    rewrite accuracy_value_pos by lia.
    assert (Hpos : (0 < total_questions r + total)%Z) by lia.
    split; [ | split; [ | split; reflexivity ] ]; intros Hacc.
    + apply py_clamp_mono_up; [ exact Hs1 | ].
      pose proof (accuracy_at_least_half _ _ Hpos Hacc) as Hhalf.
      lra.
    + apply py_clamp_mono_down; [ exact Hs0 | ].
      pose proof (accuracy_at_most_half _ _ Hpos Hacc) as Hhalf.
      lra.
  - destruct (update_created db now sid tid correct total Hget)
      as (db' & Hup & _ & Hread).
    eexists. eexists. split; [ exact Hup | ]. split; [ exact Hread | ].
    cbn [default_record total_questions correct_answers confidence_score].
    rewrite accuracy_value_pos by lia.
    assert (Hpos : (0 < total)%Z) by lia.
    split; [ | split; [ | split; reflexivity ] ]; intros Hacc.
    + apply py_clamp_mono_up; [ lra | ].
      pose proof (accuracy_at_least_half _ _ Hpos Hacc) as Hhalf.
      lra.
    + apply py_clamp_mono_down; [ lra | ].
      pose proof (accuracy_at_most_half _ _ Hpos Hacc) as Hhalf.
      lra.
Qed.

End Direction.

(** C3, as the code has it.  For a prior score in [[0, 1]], a prior total
    that is not negative and a quiz with [newTotal >= 1] questions: an
    all-correct quiz does not lower the score when the cumulative accuracy
    after it is at least one half ([tq + newTotal <= 2 * (ca + newTotal)]),
    and an all-incorrect quiz does not raise it when the cumulative accuracy
    after it is at most one half ([2 * ca <= tq + newTotal]).  Both side
    conditions hold on the first attempt of a topic. *)
Theorem C3_monotone_with_lifetime_accuracy :
  forall (db : ProgressService.EducationDB) (now sid tid newCorrect newTotal : Z),
    Policy.valid_score
      (ProgressService.confidence_score (Policy.prior_record db sid tid)) ->
    (0 <= ProgressService.total_questions (Policy.prior_record db sid tid))%Z ->
    (1 <= newTotal)%Z ->
    exists db' r',
      ProgressService.update_student_progress db now sid tid newCorrect newTotal
      = Ok db'
      /\ ProgressService.get_student_progress db' sid tid = Some r'
      /\ (newCorrect = newTotal ->
          (ProgressService.total_questions (Policy.prior_record db sid tid)
           + newTotal
           <= 2 * (ProgressService.correct_answers (Policy.prior_record db sid tid)
                   + newTotal))%Z ->
          ProgressService.confidence_score (Policy.prior_record db sid tid)
          <= ProgressService.confidence_score r')
      /\ (newCorrect = 0%Z ->
          (2 * ProgressService.correct_answers (Policy.prior_record db sid tid)
           <= ProgressService.total_questions (Policy.prior_record db sid tid)
              + newTotal)%Z ->
          ProgressService.confidence_score r'
          <= ProgressService.confidence_score (Policy.prior_record db sid tid))
      /\ (ProgressService.get_student_progress db sid tid = None ->
          (newCorrect = newTotal ->
           (1 # 2) <= ProgressService.confidence_score r')
          /\ (newCorrect = 0%Z ->
              ProgressService.confidence_score r' <= (1 # 2))).
Proof.
  intros db now sid tid newCorrect newTotal Hv Htq Hnt.
  destruct (update_direction db now sid tid newCorrect newTotal Hv Htq Hnt)
    as (db' & r' & Hup & Hread & Hupw & Hdown & Etq & Eca).
  exists db', r'. split; [ exact Hup | ]. split; [ exact Hread | ].
  split; [ | split ].
  - intros -> Hacc. apply Hupw. rewrite Etq, Eca. exact Hacc.
  - intros -> Hacc. apply Hdown. rewrite Etq, Eca. lia.
  - intros Hnone. revert Hupw Hdown. rewrite Etq, Eca.
    unfold Policy.prior_record. rewrite Hnone.
    cbn [Policy.default_record ProgressService.total_questions
         ProgressService.correct_answers ProgressService.confidence_score].
    intros Hupw Hdown. split; intros ->.
    + apply Hupw. lia.
    + apply Hdown. lia.
Qed.

(** A strong topic (10 of 10 so far) answered all-correct once more. *)
Lemma C3_monotone_with_lifetime_accuracy_witness :
  let db := ProgressService.mkDB
              [ProgressService.mkStudentProgress 7 3 (6 # 10) 1 (Some 0%Z) 10 10]
              [] in
  Policy.valid_score (6 # 10) /\ (0 <= 10)%Z /\ (1 <= 2)%Z
  /\ exists db' r',
      ProgressService.update_student_progress db 1 7 3 2 2 = Ok db'
      /\ ProgressService.get_student_progress db' 7 3 = Some r'
      /\ (6 # 10) <= ProgressService.confidence_score r'.
Proof.
  intros db.
  assert (Hv : Policy.valid_score (6 # 10)) by (unfold Policy.valid_score; lra).
  split; [ exact Hv | ]. split; [ lia | ]. split; [ lia | ].
  destruct (C3_monotone_with_lifetime_accuracy db 1%Z 7%Z 3%Z 2%Z 2%Z
              Hv ltac:(cbn; lia) ltac:(lia))
    as (db' & r' & Hup & Hread & Hupw & _).
  exists db', r'. split; [ exact Hup | ]. split; [ exact Hread | ].
  apply Hupw; [ reflexivity | cbn; lia ].
Defined.

(** C3 as stated fails.  A topic first answered 0 of 10 holds score 0.4; an
    all-correct one-question quiz lowers it to 79/220, because the
    cumulative accuracy 1/11 is below one half.  A topic first answered
    10 of 10 holds 0.6; an all-incorrect one-question quiz raises it. *)
Lemma C3_all_correct_can_lower_score :
  (exists db1 r1 db2 r2,
      ProgressService.update_student_progress
        ProgressService.empty_db 0 7 3 0 10 = Ok db1
      /\ ProgressService.get_student_progress db1 7 3 = Some r1
      /\ Policy.valid_score (ProgressService.confidence_score r1)
      /\ ProgressService.update_student_progress db1 1 7 3 1 1 = Ok db2
      /\ ProgressService.get_student_progress db2 7 3 = Some r2
      /\ ProgressService.confidence_score r1 == 4 # 10
      /\ ProgressService.confidence_score r2 == 79 # 220
      /\ ~ (ProgressService.confidence_score r1
            <= ProgressService.confidence_score r2))
  /\ (exists db1 r1 db2 r2,
         ProgressService.update_student_progress
           ProgressService.empty_db 0 7 3 10 10 = Ok db1
         /\ ProgressService.get_student_progress db1 7 3 = Some r1
         /\ Policy.valid_score (ProgressService.confidence_score r1)
         /\ ProgressService.update_student_progress db1 1 7 3 0 1 = Ok db2
         /\ ProgressService.get_student_progress db2 7 3 = Some r2
         /\ ProgressService.confidence_score r1 == 6 # 10
         /\ ProgressService.confidence_score r2 == 141 # 220
         /\ ~ (ProgressService.confidence_score r2
               <= ProgressService.confidence_score r1)).
Proof.
  split.
  - eexists. eexists. eexists. eexists.
    split; [ vm_compute; reflexivity | ].
    split; [ vm_compute; reflexivity | ].
    split; [ split; vm_compute; discriminate | ].
    split; [ vm_compute; reflexivity | ].
    split; [ vm_compute; reflexivity | ].
    split; [ vm_compute; reflexivity | ].
    split; [ vm_compute; reflexivity | ].
    apply Qlt_not_le. vm_compute. reflexivity.
  - eexists. eexists. eexists. eexists.
    split; [ vm_compute; reflexivity | ].
    split; [ vm_compute; reflexivity | ].
    split; [ split; vm_compute; discriminate | ].
    split; [ vm_compute; reflexivity | ].
    split; [ vm_compute; reflexivity | ].
    split; [ vm_compute; reflexivity | ].
    split; [ vm_compute; reflexivity | ].
    apply Qlt_not_le. vm_compute. reflexivity.
Qed.

(** ** Quizzes without questions *)

(** C4, as the code has it.  A quiz outcome with zero questions is not
    rejected: [update_student_progress] raises nothing, appends a row to
    [quiz_history] and stores the topic's record with [attempts + 1], the
    same [totalQuestions], [correctAnswers + newCorrect] and the score
    [clamp(s + (accuracy - 0.5) * K, 0, 1)], where [accuracy] is
    [ca' / tq] when [tq > 0] and 0.5 otherwise; [K] is 0.1 for a topic with
    a row and 0.2 for a topic without one, whose new row gets score 0.5. *)
Theorem C4_zero_questions_are_stored :
  forall (db : ProgressService.EducationDB) (now sid tid newCorrect : Z),
    exists db' r',
        ProgressService.update_student_progress db now sid tid newCorrect 0
        = Ok db'
        /\ ProgressService.quiz_history db'
           = ProgressService.quiz_history db
               ++ [ProgressService.mkQuizHistory sid tid newCorrect 0]
        /\ ProgressService.get_student_progress db' sid tid = Some r'
        /\ ProgressService.attempts r'
           = (ProgressService.attempts (Policy.prior_record db sid tid) + 1)%Z
        /\ ProgressService.total_questions r'
           = ProgressService.total_questions (Policy.prior_record db sid tid)
        /\ ProgressService.correct_answers r'
           = (ProgressService.correct_answers (Policy.prior_record db sid tid)
              + newCorrect)%Z
        /\ ProgressService.confidence_score r'
           == clamp
                (ProgressService.confidence_score (Policy.prior_record db sid tid)
                 + (Policy.accuracy_value (ProgressService.correct_answers r')
                                          (ProgressService.total_questions r')
                    - (1 # 2))
                   * match ProgressService.get_student_progress db sid tid with
                     | Some _ => 1 # 10
                     | None => 2 # 10
                     end)
                0 1
        /\ (ProgressService.get_student_progress db sid tid = None ->
            ProgressService.confidence_score r' == 1 # 2).
Proof.
  intros db now sid tid newCorrect.
  unfold Policy.prior_record.
  destruct (ProgressService.get_student_progress db sid tid) as [ r | ] eqn:Hget.
  - destruct (update_existing db now sid tid newCorrect 0 r Hget)
      as (db' & Hup & Hhist & Hread).
    eexists. eexists.
    split; [ exact Hup | ]. split; [ exact Hhist | ]. split; [ exact Hread | ].
    cbn [ProgressService.total_questions ProgressService.correct_answers
         ProgressService.attempts ProgressService.confidence_score].
    split; [ reflexivity | ]. split; [ apply Z.add_0_r | ].
    split; [ reflexivity | ].
    split; [ apply py_clamp_is_clamp | discriminate ].
  - destruct (update_created db now sid tid newCorrect 0 Hget)
      as (db' & Hup & Hhist & Hread).
    eexists. eexists.
    split; [ exact Hup | ]. split; [ exact Hhist | ]. split; [ exact Hread | ].
    cbn [Policy.default_record
         ProgressService.total_questions ProgressService.correct_answers
         ProgressService.attempts ProgressService.confidence_score].
    split; [ reflexivity | ]. split; [ reflexivity | ].
    split; [ reflexivity | ].
    split; [ apply py_clamp_is_clamp | ].
    intros _. vm_compute. reflexivity.
Qed.

(** A quiz without questions on a topic that has no row yet. *)
Lemma C4_zero_questions_are_stored_witness :
  ProgressService.get_student_progress ProgressService.empty_db 7 3 = None
  /\ exists db' r',
      ProgressService.update_student_progress ProgressService.empty_db 1 7 3 0 0
      = Ok db'
      /\ ProgressService.get_student_progress db' 7 3 = Some r'
      /\ ProgressService.attempts r' = 1%Z
      /\ ProgressService.confidence_score r' == 1 # 2.
Proof.
  split; [ reflexivity | ].
  destruct (C4_zero_questions_are_stored
              ProgressService.empty_db 1%Z 7%Z 3%Z 0%Z)
    as (db' & r' & Hup & _ & Hread & Ha & _ & _ & _ & Hnew).
  exists db', r'. split; [ exact Hup | ]. split; [ exact Hread | ].
  split; [ exact Ha | apply Hnew; reflexivity ].
Defined.

(** C4 as stated fails.  A topic holding [(8/15, 1 attempt, 3 questions,
    2 correct)] is handed a quiz with no questions: the call returns, the
    record now has 2 attempts and score 11/20, and [quiz_history] has one
    more row. *)
Lemma C4_zero_questions_not_rejected :
  let r := ProgressService.mkStudentProgress 7 3 (8 # 15) 1 (Some 0%Z) 3 2 in
  let db := ProgressService.mkDB [r] [ProgressService.mkQuizHistory 7 3 2 3] in
  exists db' r',
    ProgressService.update_student_progress db 1 7 3 0 0 = Ok db'
    /\ ProgressService.get_student_progress db 7 3 = Some r
    /\ ProgressService.get_student_progress db' 7 3 = Some r'
    /\ ProgressService.attempts r' = 2%Z
    /\ ProgressService.confidence_score r' == 11 # 20
    /\ r' <> r
    /\ List.length (ProgressService.quiz_history db') = 2%nat
    /\ ProgressService.student_progress db' <> ProgressService.student_progress db.
Proof.
  intros r db. eexists. eexists.
  split; [ vm_compute; reflexivity | ].
  split; [ reflexivity | ].
  split; [ vm_compute; reflexivity | ].
  split; [ reflexivity | ].
  split; [ vm_compute; reflexivity | ].
  split; [ intros H; apply (f_equal ProgressService.attempts) in H;
           vm_compute in H; discriminate | ].
  split; [ reflexivity | ].
  intros H. vm_compute in H. discriminate.
Qed.

(** ** The weakest topic *)

Section MinBy.

Variable A : Type.
Variable key : A -> option Q.

(** The scan keeps the first item among those of least key. *)
Lemma min_loop_spec (rest : list A) :
  forall (minitem : A) (minval : Q),
    key minitem = Some minval ->
    (forall x, In x rest -> exists v, key x = Some v) ->
    exists t tv pre post,
      min_loop key minitem (Some minval) rest = Ok t
      /\ key t = Some tv
      /\ minitem :: rest = pre ++ t :: post
      /\ tv <= minval
      /\ (forall x v, In x rest -> key x = Some v -> tv <= v)
      /\ (forall x v, In x pre -> key x = Some v -> tv < v).
Proof.
  induction rest as [ | x rest IH ]; intros minitem minval Hmin Hkeys.
  - exists minitem, minval, [], []. cbn [min_loop app].
    repeat split; auto using Qle_refl; intros y w [].
  - destruct (Hkeys x (or_introl eq_refl)) as [v Hv].
    assert (Hrest : forall y, In y rest -> exists w, key y = Some w)
      by (intros y Hy; apply Hkeys; right; exact Hy).
    cbn [min_loop]. rewrite Hv. cbn [py_lt bind].
    destruct (Qlt_le_dec v minval) as [Hlt | Hge].
    + destruct (IH x v Hv Hrest)
        as (t & tv & pre & post & Hrun & Hkt & Hsplit & Hle & Hall & Hpre).
      exists t, tv, (minitem :: pre), post.
      split; [ exact Hrun | ]. split; [ exact Hkt | ].
      split; [ cbn [app]; rewrite Hsplit; reflexivity | ].
      split; [ lra | ]. split.
      * intros y w [ <- | Hy ] Hw.
        -- rewrite Hv in Hw. injection Hw as <-. exact Hle.
        -- exact (Hall y w Hy Hw).
      * intros y w [ <- | Hy ] Hw.
        -- rewrite Hmin in Hw. injection Hw as <-. lra.
        -- exact (Hpre y w Hy Hw).
    + destruct (IH minitem minval Hmin Hrest)
        as (t & tv & pre & post & Hrun & Hkt & Hsplit & Hle & Hall & Hpre).
      destruct pre as [ | a pre' ].
      * cbn [app] in Hsplit. injection Hsplit as Ht Hpost.
        exists t, tv, [], (x :: post).
        split; [ exact Hrun | ]. split; [ exact Hkt | ].
        split; [ cbn [app]; rewrite Ht, Hpost; reflexivity | ].
        split; [ exact Hle | ]. split.
        -- intros y w [ <- | Hy ] Hw.
           ++ rewrite Hv in Hw. injection Hw as <-. lra.
           ++ exact (Hall y w Hy Hw).
        -- intros y w [].
      * cbn [app] in Hsplit. injection Hsplit as Ha Hpost.
        assert (Hstrict : tv < minval).
        { apply (Hpre a minval); [ left; reflexivity | ].
          rewrite <- Ha. exact Hmin. }
        exists t, tv, (minitem :: x :: pre'), post.
        split; [ exact Hrun | ]. split; [ exact Hkt | ].
        split; [ cbn [app]; rewrite Hpost; reflexivity | ].
        split; [ exact Hle | ]. split.
        -- intros y w [ <- | Hy ] Hw.
           ++ rewrite Hv in Hw. injection Hw as <-. lra.
           ++ exact (Hall y w Hy Hw).
        -- intros y w [ <- | [ <- | Hy ] ] Hw.
           ++ rewrite Hmin in Hw. injection Hw as <-. exact Hstrict.
           ++ rewrite Hv in Hw. injection Hw as <-. lra.
           ++ apply (Hpre y w); [ right; exact Hy | exact Hw ].
Qed.

(** Two splits of one list at items that are absent from each other's
    front part split it at the same item. *)
Lemma split_unique (pre : list A) :
  forall (pre' post post' : list A) (t t' : A),
    pre ++ t :: post = pre' ++ t' :: post' ->
    ~ In t pre' -> ~ In t' pre -> t = t'.
Proof.
  induction pre as [ | a pre IH ]; intros pre' post post' t t' Heq Ht Ht'.
  - destruct pre' as [ | a' pre' ]; cbn [app] in Heq; injection Heq as Hh _.
    + exact Hh.
    + exfalso. apply Ht. left. symmetry. exact Hh.
  - destruct pre' as [ | a' pre' ]; cbn [app] in Heq; injection Heq as Hh Htl.
    + exfalso. apply Ht'. left. exact Hh.
    + apply (IH pre' post post' t t' Htl).
      * intros H. apply Ht. right. exact H.
      * intros H. apply Ht'. right. exact H.
Qed.

End MinBy.

(** [min(d, key=d.get)] on a dict that has entries: the answer is a key of
    least value, and the first such key in the order of the dict. *)
Lemma weakest_of_dict (d : dict) :
  d <> [] ->
  exists t s pre post,
    py_min_by (dict_get d) (dict_keys d) = Ok t
    /\ dict_get d t = Some s
    /\ (forall k v, dict_get d k = Some v -> s <= v)
    /\ dict_keys d = pre ++ t :: post
    /\ (forall k v, In k pre -> dict_get d k = Some v -> s < v).
Proof.
  intros Hne. destruct d as [ | [k0 v0] d ]; [ contradiction | ].
  assert (Hkeys : forall x, In x (dict_keys ((k0, v0) :: d)) ->
                            exists v, dict_get ((k0, v0) :: d) x = Some v)
    by (intros x; apply in_keys_dict_get).
  assert (H0 : dict_get ((k0, v0) :: d) k0 = Some v0)
    by (cbn [dict_get]; rewrite String.eqb_refl; reflexivity).
  cbn [dict_keys map fst py_min_by] in *. fold (dict_keys d) in *.
  destruct (min_loop_spec string (dict_get ((k0, v0) :: d)) (dict_keys d) k0 v0 H0
                          (fun x Hx => Hkeys x (or_intror Hx)))
    as (t & tv & pre & post & Hrun & Hkt & Hsplit & Hle & Hall & Hpre).
  exists t, tv, pre, post.
  split; [ rewrite H0; exact Hrun | ]. split; [ exact Hkt | ].
  split; [ | split; [ exact Hsplit | exact Hpre ] ].
  intros k v Hk.
  pose proof (dict_get_in_keys _ _ _ Hk) as Hin.
  cbn [dict_keys map fst] in Hin. fold (dict_keys d) in Hin.
  destruct Hin as [ <- | Hin ].
  - rewrite H0 in Hk. injection Hk as <-. exact Hle.
  - exact (Hall k v Hin Hk).
Qed.

(** C5.  On a confidence map that has entries, [get_next_quiz_topic] returns
    a topic [t] of the map whose score is least; every topic that comes
    before [t] in the order of the map has a strictly greater score, so of
    the topics that tie for the least score the earliest is returned; and
    [t] is the only topic with these two properties, so the answer depends
    on the map and its order alone.  The variants of [2.py] and [app_hf.py]
    return the same topic. *)
Theorem C5_select_weakest :
  forall p : MainQuiz.Progress,
    MainQuiz.confidence_scores p <> [] ->
    exists t s pre post,
      MainQuiz.get_next_quiz_topic p = Ok t
      /\ Script2.get_next_quiz_topic p = Ok (t, s)
      /\ AppHf.weakest_topic (MainQuiz.confidence_scores p) = Ok t
      /\ dict_get (MainQuiz.confidence_scores p) t = Some s
      /\ (forall k v, dict_get (MainQuiz.confidence_scores p) k = Some v -> s <= v)
      /\ dict_keys (MainQuiz.confidence_scores p) = pre ++ t :: post
      /\ (forall k v,
             In k pre -> dict_get (MainQuiz.confidence_scores p) k = Some v ->
             s < v)
      /\ (forall t' s' pre' post',
             dict_get (MainQuiz.confidence_scores p) t' = Some s' ->
             (forall k v,
                 dict_get (MainQuiz.confidence_scores p) k = Some v -> s' <= v) ->
             dict_keys (MainQuiz.confidence_scores p) = pre' ++ t' :: post' ->
             (forall k v,
                 In k pre' ->
                 dict_get (MainQuiz.confidence_scores p) k = Some v -> s' < v) ->
             t' = t).
Proof.
  intros p Hne.
  destruct (weakest_of_dict (MainQuiz.confidence_scores p) Hne)
    as (t & s & pre & post & Hrun & Hget & Hmin & Hsplit & Hpre).
  exists t, s, pre, post.
  split; [ exact Hrun | ].
  split; [ unfold Script2.get_next_quiz_topic, dict_index; cbn zeta;
           rewrite Hrun; cbn [bind]; rewrite Hget; reflexivity | ].
  split; [ exact Hrun | ]. split; [ exact Hget | ].
  split; [ exact Hmin | ]. split; [ exact Hsplit | ]. split; [ exact Hpre | ].
  intros t' s' pre' post' Hget' Hmin' Hsplit' Hpre'.
  pose proof (Hmin t' s' Hget') as H1.
  pose proof (Hmin' t s Hget) as H2.
  symmetry. apply (split_unique string pre pre' post post' t t').
  - rewrite <- Hsplit. exact Hsplit'.
  - intros Hin. pose proof (Hpre' t s Hin Hget). lra.
  - intros Hin. pose proof (Hpre t' s' Hin Hget'). lra.
Qed.

(** Two topics tie for the least score 0.3: the earlier one is returned. *)
Lemma C5_select_weakest_witness :
  let p := MainQuiz.mkProgress "user123"
             [ ("Find-S Algorithm"%string, 5 # 10);
               ("Inductive Bias"%string, 3 # 10);
               ("FOIL Algorithm"%string, 3 # 10) ] in
  MainQuiz.confidence_scores p <> []
  /\ MainQuiz.get_next_quiz_topic p = Ok "Inductive Bias"%string
  /\ exists t s pre post,
      MainQuiz.get_next_quiz_topic p = Ok t
      /\ dict_get (MainQuiz.confidence_scores p) t = Some s
      /\ dict_keys (MainQuiz.confidence_scores p) = pre ++ t :: post.
Proof.
  intros p.
  assert (Hne : MainQuiz.confidence_scores p <> []) by discriminate.
  split; [ exact Hne | ]. split; [ reflexivity | ].
  destruct (C5_select_weakest p Hne)
    as (t & s & pre & post & Hrun & _ & _ & Hget & _ & Hsplit & _).
  exists t, s, pre, post. repeat split; assumption.
Defined.

(** C6.  On a confidence map without entries the selection raises
    [ValueError], the error of [min] on an empty iterable, in all three
    variants; no topic is returned. *)
Theorem C6_empty_map_raises :
  forall sid : string,
    MainQuiz.get_next_quiz_topic (MainQuiz.mkProgress sid []) = Raise ValueError
    /\ Script2.get_next_quiz_topic (MainQuiz.mkProgress sid []) = Raise ValueError
    /\ AppHf.weakest_topic [] = Raise ValueError
    /\ (forall t : string,
           MainQuiz.get_next_quiz_topic (MainQuiz.mkProgress sid []) <> Ok t).
Proof.
  intros sid. repeat split. intros t. discriminate.
Qed.

(** ** Loading the stored progress *)

Section Loading.

Import MainQuiz.

Variable topics : list string.

Lemma default_keys_match :
  set_eqb topics (dict_keys (dict_of_default topics)) = true.
Proof.
  apply set_eqb_spec. intros x. symmetry. apply dict_of_default_keys.
Qed.

Lemma dict_of_default_values (k : string) (v : Q) :
  dict_get (dict_of_default topics) k = Some v -> v = 1 # 2.
Proof.
  intros Hget.
  pose proof (proj1 (dict_of_default_keys topics k)
                    (dict_get_in_keys _ _ _ Hget)) as Hin.
  rewrite (dict_of_default_get topics k Hin) in Hget.
  injection Hget as <-. reflexivity.
Qed.

(** Without a stored file every topic of the syllabus starts at 0.5. *)
Lemma load_absent (sid : string) :
  load_student_progress topics None sid
  = (mkProgress sid (dict_of_default topics),
     Some (mkProgress sid (dict_of_default topics))).
Proof. reflexivity. Qed.

(** A stored progress over the topics of the syllabus is returned as it
    is. *)
Lemma load_same_topics (existing : Progress) (sid : string) :
  (forall k, In k topics <-> In k (dict_keys (confidence_scores existing))) ->
  load_student_progress topics (Some existing) sid = (existing, Some existing).
Proof.
  intros Hsame. apply set_eqb_spec in Hsame.
  unfold load_student_progress. rewrite Hsame. reflexivity.
Qed.

(** A stored progress over another set of topics is replaced. *)
Lemma load_other_topics (existing : Progress) (sid : string) :
  ~ (forall k, In k topics <-> In k (dict_keys (confidence_scores existing))) ->
  load_student_progress topics (Some existing) sid
  = (mkProgress sid (dict_of_default topics),
     Some (mkProgress sid (dict_of_default topics))).
Proof.
  intros Hdiff. unfold load_student_progress.
  destruct (set_eqb topics (dict_keys (confidence_scores existing))) eqn:E.
  - exfalso. apply Hdiff. apply (proj1 (set_eqb_spec _ _) E).
  - reflexivity.
Qed.

(** After a call the file holds the progress that the call returned, over
    the topics of the syllabus. *)
Lemma load_leaves_syllabus (file : ProgressFile) (sid : string) :
  snd (load_student_progress topics file sid)
  = Some (fst (load_student_progress topics file sid))
  /\ set_eqb topics
             (dict_keys (confidence_scores
                           (fst (load_student_progress topics file sid))))
     = true.
Proof.
  unfold load_student_progress.
  destruct file as [ existing | ].
  - destruct (set_eqb topics (dict_keys (confidence_scores existing))) eqn:E;
      cbn [negb fst snd confidence_scores save_student_progress].
    + split; [ reflexivity | exact E ].
    + split; [ reflexivity | apply default_keys_match ].
  - cbn [fst snd confidence_scores save_student_progress].
    split; [ reflexivity | apply default_keys_match ].
Qed.

(** A second call returns what the first returned and leaves the file as the
    first left it. *)
Lemma load_idempotent (file : ProgressFile) (sid sid' : string) :
  load_student_progress topics (snd (load_student_progress topics file sid)) sid'
  = load_student_progress topics file sid.
Proof.
  destruct (load_leaves_syllabus file sid) as [Hfile Hkeys].
  rewrite Hfile. unfold load_student_progress at 1. rewrite Hkeys.
  cbn [negb]. rewrite <- Hfile. symmetry. apply surjective_pairing.
Qed.

End Loading.

Lemma script2_load_idempotent (topics : list string)
      (files : Script2.ProgressFiles) (sid : string) :
  Script2.load_student_progress
    topics (snd (Script2.load_student_progress topics files sid)) sid
  = Script2.load_student_progress topics files sid.
Proof.
  unfold Script2.load_student_progress.
  destruct (files sid) as [ existing | ] eqn:Hfile; cbn [snd].
  - rewrite Hfile. reflexivity.
  - unfold Script2.save_student_progress at 1. cbn [MainQuiz.student_id].
    rewrite String.eqb_refl. reflexivity.
Qed.

(** C7, as the code has it.  [load_student_progress] is idempotent: a second
    call returns the progress of the first and leaves the file as the first
    left it, so every record, default or not, survives the repeated call.
    Without a stored file it creates every topic of the syllabus at 0.5.
    In [main_quiz.py] a stored progress is left as it is exactly when its
    topic set equals that of the syllabus; when the sets differ the whole
    map is replaced by the topics of the syllabus at 0.5, existing records
    included.  In [2.py] a stored progress is returned as it is, and no
    record is added to it. *)
Theorem C7_load_is_idempotent :
  forall (topics : list string) (file : MainQuiz.ProgressFile) (sid : string),
    MainQuiz.load_student_progress
      topics (snd (MainQuiz.load_student_progress topics file sid)) sid
    = MainQuiz.load_student_progress topics file sid
    /\ (file = None ->
        MainQuiz.load_student_progress topics file sid
        = (MainQuiz.mkProgress sid (dict_of_default topics),
           Some (MainQuiz.mkProgress sid (dict_of_default topics))))
    /\ (forall existing : MainQuiz.Progress,
           file = Some existing ->
           (forall k, In k topics
                      <-> In k (dict_keys (MainQuiz.confidence_scores existing))) ->
           MainQuiz.load_student_progress topics file sid = (existing, file))
    /\ (forall existing : MainQuiz.Progress,
           file = Some existing ->
           ~ (forall k, In k topics
                        <-> In k (dict_keys (MainQuiz.confidence_scores existing))) ->
           MainQuiz.load_student_progress topics file sid
           = (MainQuiz.mkProgress sid (dict_of_default topics),
              Some (MainQuiz.mkProgress sid (dict_of_default topics))))
    /\ (forall k, In k (dict_keys (dict_of_default topics)) <-> In k topics)
    /\ (forall k v, dict_get (dict_of_default topics) k = Some v -> v = 1 # 2)
    /\ (forall files : Script2.ProgressFiles,
           Script2.load_student_progress
             topics (snd (Script2.load_student_progress topics files sid)) sid
           = Script2.load_student_progress topics files sid
           /\ (forall existing : MainQuiz.Progress,
                  files sid = Some existing ->
                  Script2.load_student_progress topics files sid
                  = (existing, files))
           /\ (files sid = None ->
               fst (Script2.load_student_progress topics files sid)
               = MainQuiz.mkProgress sid (dict_of_default topics))).
Proof.
  intros topics file sid.
  split; [ apply load_idempotent | ].
  split; [ intros ->; apply load_absent | ].
  split; [ intros existing -> Hsame; apply load_same_topics; exact Hsame | ].
  split; [ intros existing -> Hdiff; apply load_other_topics; exact Hdiff | ].
  split; [ intros k; apply dict_of_default_keys | ].
  split; [ apply dict_of_default_values | ].
  intros files. split; [ apply script2_load_idempotent | ].
  unfold Script2.load_student_progress. split.
  - intros existing ->. reflexivity.
  - intros ->. reflexivity.
Qed.

(** A stored progress over the sixteen topics with one score at 0.9: loading
    it returns it, 0.9 included. *)
Lemma C7_load_is_idempotent_witness :
  let stored :=
    MainQuiz.mkProgress
      "user123"
      (dict_set (dict_of_default MainQuiz.SYLLABUS_TOPICS)
                "Find-S Algorithm" (9 # 10)) in
  (forall k, In k MainQuiz.SYLLABUS_TOPICS
             <-> In k (dict_keys (MainQuiz.confidence_scores stored)))
  /\ MainQuiz.load_student_progress MainQuiz.SYLLABUS_TOPICS (Some stored) "user123"
     = (stored, Some stored)
  /\ dict_get (MainQuiz.confidence_scores stored) "Find-S Algorithm"
     = Some (9 # 10).
Proof.
  intros stored.
  assert (Hsame : forall k, In k MainQuiz.SYLLABUS_TOPICS
                            <-> In k (dict_keys (MainQuiz.confidence_scores stored))).
  { apply set_eqb_spec. vm_compute. reflexivity. }
  split; [ exact Hsame | ]. split; [ | reflexivity ].
  exact (proj1 (proj2 (proj2 (C7_load_is_idempotent
                                MainQuiz.SYLLABUS_TOPICS (Some stored)
                                "user123"%string)))
               stored eq_refl Hsame).
Defined.

(** C7 as stated fails.  The stored progress holds one record, 0.9 for
    "Find-S Algorithm"; loading it against the sixteen topics replaces that
    record by 0.5 and writes the replacement to the file. *)
Lemma C7_existing_record_overwritten :
  let stored :=
    MainQuiz.mkProgress "user123" [("Find-S Algorithm"%string, 9 # 10)] in
  let loaded :=
    MainQuiz.load_student_progress MainQuiz.SYLLABUS_TOPICS (Some stored)
                                   "user123" in
  dict_get (MainQuiz.confidence_scores stored) "Find-S Algorithm" = Some (9 # 10)
  /\ dict_get (MainQuiz.confidence_scores (fst loaded)) "Find-S Algorithm"
     = Some (1 # 2)
  /\ snd loaded = Some (fst loaded)
  /\ ~ (9 # 10 == 1 # 2).
Proof.
  intros stored loaded.
  split; [ reflexivity | ].
  split; [ vm_compute; reflexivity | ].
  split; [ vm_compute; reflexivity | ].
  intros H. vm_compute in H. discriminate.
Qed.

(** C10.  When the stored progress has a key set other than the topic set of
    the syllabus, [load_student_progress] returns and saves a map whose
    keys are the topics of the syllabus and whose every score is 0.5, as
    [reset_student_progress] does; the stored scores come back exactly when
    the two sets are equal. *)
Theorem C10_topic_set_mismatch_resets :
  forall (topics : list string) (existing : MainQuiz.Progress) (sid : string),
    let loaded := MainQuiz.load_student_progress topics (Some existing) sid in
    (~ (forall k, In k topics
                  <-> In k (dict_keys (MainQuiz.confidence_scores existing))) ->
     fst loaded = MainQuiz.mkProgress sid (dict_of_default topics)
     /\ snd loaded = Some (fst loaded)
     /\ loaded = MainQuiz.reset_student_progress topics (Some existing) sid
     /\ NoDup (dict_keys (MainQuiz.confidence_scores (fst loaded)))
     /\ (forall k, In k (dict_keys (MainQuiz.confidence_scores (fst loaded)))
                   <-> In k topics)
     /\ (forall k, In k topics ->
                   dict_get (MainQuiz.confidence_scores (fst loaded)) k
                   = Some (1 # 2))
     /\ (forall k v, dict_get (MainQuiz.confidence_scores (fst loaded)) k = Some v ->
                     v = 1 # 2))
    /\ ((forall k, In k topics
                   <-> In k (dict_keys (MainQuiz.confidence_scores existing))) ->
        fst loaded = existing /\ snd loaded = Some existing)
    /\ (MainQuiz.confidence_scores (fst loaded) = MainQuiz.confidence_scores existing
        <-> (forall k, In k topics
                       <-> In k (dict_keys (MainQuiz.confidence_scores existing)))).
Proof.
  intros topics existing sid loaded.
  assert (Hreset :
            ~ (forall k, In k topics
                         <-> In k (dict_keys (MainQuiz.confidence_scores existing))) ->
            fst loaded = MainQuiz.mkProgress sid (dict_of_default topics)
            /\ snd loaded = Some (fst loaded)).
  { intros Hdiff. unfold loaded.
    rewrite (load_other_topics topics existing sid Hdiff). split; reflexivity. }
  assert (Hkeep :
            (forall k, In k topics
                       <-> In k (dict_keys (MainQuiz.confidence_scores existing))) ->
            fst loaded = existing /\ snd loaded = Some existing).
  { intros Hsame. unfold loaded.
    rewrite (load_same_topics topics existing sid Hsame). split; reflexivity. }
  split; [ | split; [ exact Hkeep | ] ].
  - intros Hdiff. destruct (Hreset Hdiff) as [Hp Hf].
    split; [ exact Hp | ]. split; [ exact Hf | ].
    split; [ unfold loaded; apply load_other_topics; exact Hdiff | ].
    rewrite Hp. cbn [MainQuiz.confidence_scores].
    split; [ apply dict_of_default_NoDup | ].
    split; [ intros k; apply dict_of_default_keys | ].
    split; [ apply dict_of_default_get | apply dict_of_default_values ].
  - split.
    + intros Hscores.
      destruct (set_eqb topics (dict_keys (MainQuiz.confidence_scores existing)))
        eqn:E; [ apply (proj1 (set_eqb_spec _ _) E) | ].
      assert (Hdiff : ~ (forall k, In k topics
                                   <-> In k (dict_keys
                                               (MainQuiz.confidence_scores existing)))).
      { intros Hsame. apply set_eqb_spec in Hsame. congruence. }
      destruct (Hreset Hdiff) as [Hp _].
      rewrite Hp in Hscores. cbn [MainQuiz.confidence_scores] in Hscores.
      intros k. rewrite <- Hscores. symmetry. apply dict_of_default_keys.
    + intros Hsame. destruct (Hkeep Hsame) as [Hp _]. rewrite Hp. reflexivity.
Qed.

(** A stored progress that lacks fifteen of the sixteen topics is reset. *)
Lemma C10_topic_set_mismatch_resets_witness :
  let stored :=
    MainQuiz.mkProgress "user123" [("Find-S Algorithm"%string, 9 # 10)] in
  ~ (forall k, In k MainQuiz.SYLLABUS_TOPICS
               <-> In k (dict_keys (MainQuiz.confidence_scores stored)))
  /\ fst (MainQuiz.load_student_progress MainQuiz.SYLLABUS_TOPICS (Some stored)
                                         "user123")
     = MainQuiz.mkProgress "user123" (dict_of_default MainQuiz.SYLLABUS_TOPICS).
Proof.
  intros stored.
  assert (Hdiff : ~ (forall k, In k MainQuiz.SYLLABUS_TOPICS
                               <-> In k (dict_keys
                                           (MainQuiz.confidence_scores stored)))).
  { intros Hsame. apply set_eqb_spec in Hsame. vm_compute in Hsame. discriminate. }
  split; [ exact Hdiff | ].
  exact (proj1 (proj1 (C10_topic_set_mismatch_resets
                         MainQuiz.SYLLABUS_TOPICS stored "user123"%string)
                      Hdiff)).
Defined.

(** ** Scoring a submitted answer *)

Section Answers.

Local Open Scope string_scope.

(** [s.startswith(p)] holds exactly when [s] is [p] followed by something. *)
Lemma prefix_iff_append (p : string) :
  forall s : string, String.prefix p s = true <-> exists rest, s = p ++ rest.
Proof.
  induction p as [ | a p IH ]; intros s.
  - split; [ intros _; exists s; reflexivity | intros _ ].
    destruct s; reflexivity.
  - destruct s as [ | b s ]; cbn [String.prefix append].
    + split; [ discriminate | intros (rest & H); discriminate ].
    + destruct (ascii_dec a b) as [ <- | Hab ].
      * rewrite IH. split; intros (rest & H); exists rest.
        -- rewrite H. reflexivity.
        -- injection H as H. exact H.
      * split; [ discriminate | intros (rest & H) ].
        injection H as H _. congruence.
Qed.

Lemma prefix_refl (s : string) : String.prefix s s = true.
Proof.
  apply prefix_iff_append. exists EmptyString.
  induction s as [ | a s IH ]; cbn [append]; [ reflexivity | ].
  rewrite <- IH. reflexivity.
Qed.

(** [display_quiz] compares the first character of the selected option with
    the whole designated answer. *)
Lemma first_letter_iff (selected : option string) (q : Question) :
  StudentInterface.is_correct (StudentInterface.extract_letter selected) q = true
  <-> exists c rest,
      selected = Some (String c rest) /\ answer q = String c EmptyString.
Proof.
  unfold StudentInterface.is_correct, StudentInterface.extract_letter.
  destruct selected as [ [ | c rest ] | ].
  - split; [ discriminate | intros (c & rest & H & _); discriminate ].
  - rewrite String.eqb_eq. split.
    + intros H. exists c, rest. split; [ reflexivity | symmetry; exact H ].
    + intros (c' & rest' & H & Ha). injection H as -> _. symmetry. exact Ha.
  - split; [ discriminate | intros (c & rest & H & _); discriminate ].
Qed.

End Answers.

(** C8, as the code has it.  In [app_hf.py] a submitted option is scored
    correct exactly when it starts with the designated answer, character by
    character with case significant: a labelled submission matches its bare
    letter, and a submission equal to the designated answer matches.  In
    [student_interface.py] the submission is cut to its first character and
    scored correct exactly when that character is the whole designated
    answer: a labelled submission matches its bare letter.  So
    "B) Second option" matches "B" in both. *)
Theorem C8_answer_matching :
  (forall (selected : string) (q : Question),
      AppHf.is_correct selected q = true
      <-> exists rest, selected = (answer q ++ rest)%string)
  /\ (forall (c : ascii) (text : string) (q : Question),
         answer q = String c EmptyString ->
         AppHf.is_correct (String c text) q = true
         /\ StudentInterface.is_correct
              (StudentInterface.extract_letter (Some (String c text))) q = true)
  /\ (forall q : Question, AppHf.is_correct (answer q) q = true)
  /\ (forall (selected : option string) (q : Question),
         StudentInterface.is_correct
           (StudentInterface.extract_letter selected) q = true
         <-> exists c rest,
             selected = Some (String c rest) /\ answer q = String c EmptyString)
  /\ (forall q : Question,
         answer q = "B"%string ->
         AppHf.is_correct "B) Second option" q = true
         /\ StudentInterface.is_correct
              (StudentInterface.extract_letter (Some "B) Second option"%string)) q
            = true).
Proof.
  assert (Hletter : forall (c : ascii) (text : string) (q : Question),
             answer q = String c EmptyString ->
             AppHf.is_correct (String c text) q = true
             /\ StudentInterface.is_correct
                  (StudentInterface.extract_letter (Some (String c text))) q = true).
  { intros c text q Ha. split.
    - unfold AppHf.is_correct. apply prefix_iff_append.
      exists text. rewrite Ha. reflexivity.
    - apply first_letter_iff. exists c, text. split; [ reflexivity | exact Ha ]. }
  split; [ intros selected q; apply prefix_iff_append | ].
  split; [ exact Hletter | ].
  split; [ intros q; apply prefix_refl | ].
  split; [ apply first_letter_iff | ].
  intros q Ha. apply Hletter. exact Ha.
Qed.

(** The question of the generator's example, answered with its option B. *)
Lemma C8_answer_matching_witness :
  let q := mkQuestion "Question text here?"
                      [ "A) First option"%string; "B) Second option"%string;
                        "C) Third option"%string; "D) Fourth option"%string ]
                      "B" "Explanation" in
  answer q = "B"%string
  /\ AppHf.is_correct "B) Second option" q = true
  /\ StudentInterface.is_correct
       (StudentInterface.extract_letter (Some "B) Second option"%string)) q = true.
Proof.
  intros q. split; [ reflexivity | ].
  exact (proj2 (proj2 (proj2 (proj2 C8_answer_matching))) q eq_refl).
Defined.

(** C8 as stated fails.  With the full option string as designated answer,
    [display_quiz] scores the very same submission incorrect; and
    [app_hf.py] scores a submission incorrect that differs from the
    designated letter by case alone. *)
Lemma C8_full_string_and_case_rejected :
  let full := mkQuestion "Question text here?"
                         [ "A) First option"%string; "B) Second option"%string;
                           "C) Third option"%string; "D) Fourth option"%string ]
                         "B) Second option" "Explanation" in
  let lower := mkQuestion "Question text here?"
                          [ "a) first option"%string; "b) second option"%string;
                            "c) third option"%string; "d) fourth option"%string ]
                          "B" "Explanation" in
  In (answer full) (options full)
  /\ StudentInterface.is_correct
       (StudentInterface.extract_letter (Some (answer full))) full = false
  /\ In "b) second option"%string (options lower)
  /\ AppHf.is_correct "b) second option" lower = false
  /\ StudentInterface.is_correct
       (StudentInterface.extract_letter (Some "b) second option"%string)) lower
     = false.
Proof.
  intros full lower.
  split; [ right; left; reflexivity | ].
  split; [ reflexivity | ].
  split; [ right; left; reflexivity | ].
  split; reflexivity.
Qed.

(** * Further properties *)

(** ** The tables of the progress service *)

Section Tables.

Import ProgressService Policy Ledger.

Lemma row_matches_key (sid tid : Z) (r : StudentProgress) :
  row_matches sid tid r = true <-> row_key r = (sid, tid).
Proof.
  unfold row_matches, row_key. rewrite andb_true_iff, !Z.eqb_eq.
  split; [ intros [-> ->]; reflexivity | intros H; injection H; auto ].
Qed.

Lemma find_none_app (sid tid : Z) (rows : list StudentProgress) (r : StudentProgress) :
  row_matches sid tid r = false ->
  find (row_matches sid tid) (rows ++ [r]) = find (row_matches sid tid) rows.
Proof.
  intros Hr. induction rows as [ | a rows IH ]; cbn [app find].
  - rewrite Hr. reflexivity.
  - destruct (row_matches sid tid a); [ reflexivity | exact IH ].
Qed.

Lemma other_key_false (sid tid sid' tid' : Z) (r : StudentProgress) :
  (sid', tid') <> (sid, tid) ->
  row_matches sid tid r = true -> row_matches sid' tid' r = false.
Proof.
  intros Hne Hr. apply row_matches_key in Hr.
  destruct (row_matches sid' tid' r) eqn:E; [ | reflexivity ].
  apply row_matches_key in E. congruence.
Qed.

Lemma find_sql_update_other (sid tid sid' tid' : Z) (conf : Q) (att now tq ca : Z)
      (rows : list StudentProgress) :
  (sid', tid') <> (sid, tid) ->
  find (row_matches sid' tid') (sql_update sid tid conf att now tq ca rows)
  = find (row_matches sid' tid') rows.
Proof.
  intros Hne. unfold sql_update.
  induction rows as [ | a rows IH ]; [ reflexivity | ].
  cbn [map find].
  destruct (row_matches sid tid a) eqn:Ha.
  - rewrite (other_key_false sid tid sid' tid' a Hne Ha).
    change (row_matches sid' tid'
              (mkStudentProgress (student_id a) (topic_id a) conf att (Some now) tq ca))
      with (row_matches sid' tid' a).
    rewrite (other_key_false sid tid sid' tid' a Hne Ha). exact IH.
  - destruct (row_matches sid' tid' a); [ reflexivity | exact IH ].
Qed.

(** The rows written for one key are invisible under another key. *)
Lemma rows_frame (db db' : EducationDB) (now sid tid correct total sid' tid' : Z) :
  update_student_progress db now sid tid correct total = Ok db' ->
  (sid', tid') <> (sid, tid) ->
  get_student_progress db' sid' tid' = get_student_progress db sid' tid'.
Proof.
  intros Hup Hne. unfold update_student_progress in Hup.
  unfold get_student_progress in *.
  destruct (find (row_matches sid tid) (student_progress db)) as [ r | ] eqn:Hget.
  - unfold updated_fields in Hup. rewrite guarded_accuracy_value in Hup.
    cbn [bind] in Hup. injection Hup as <-. cbn [student_progress].
    apply find_sql_update_other. exact Hne.
  - unfold created_confidence in Hup. rewrite guarded_accuracy_value in Hup.
    cbn [bind] in Hup. injection Hup as <-. cbn [student_progress].
    unfold sql_insert. apply find_none_app.
    destruct (row_matches sid' tid' _) eqn:E; [ | reflexivity ].
    apply row_matches_key in E. unfold row_key in E. cbn in E. congruence.
Qed.

Lemma sql_update_keys (sid tid : Z) (conf : Q) (att now tq ca : Z)
      (rows : list StudentProgress) :
  map row_key (sql_update sid tid conf att now tq ca rows) = map row_key rows.
Proof.
  unfold sql_update. rewrite map_map. apply map_ext.
  intros a. destruct (row_matches sid tid a); reflexivity.
Qed.

Lemma find_none_no_key (sid tid : Z) (rows : list StudentProgress) :
  find (row_matches sid tid) rows = None -> ~ In (sid, tid) (map row_key rows).
Proof.
  intros Hnone Hin. apply in_map_iff in Hin. destruct Hin as (r & Hk & Hr).
  apply row_matches_key in Hk.
  rewrite (find_none _ _ Hnone r Hr) in Hk. discriminate.
Qed.

Lemma unique_key_one_row (sid tid : Z) (rows : list StudentProgress) :
  NoDup (map row_key rows) ->
  (List.length (filter (row_matches sid tid) rows) <= 1)%nat.
Proof.
  induction rows as [ | a rows IH ]; cbn [map filter]; intros Hnd; [ cbn; lia | ].
  inversion Hnd as [ | k ks Hnin Hnd' ]; subst.
  destruct (row_matches sid tid a) eqn:Ha; [ | apply IH; exact Hnd' ].
  apply row_matches_key in Ha. cbn [List.length].
  assert (Hnone : filter (row_matches sid tid) rows = []).
  { destruct (filter (row_matches sid tid) rows) as [ | b l ] eqn:E; [ reflexivity | ].
    exfalso. apply Hnin.
    assert (Hb : In b (filter (row_matches sid tid) rows)) by (rewrite E; left; reflexivity).
    apply filter_In in Hb. destruct Hb as [Hb Hm].
    apply row_matches_key in Hm. rewrite Ha, <- Hm. apply in_map. exact Hb. }
  rewrite Hnone. cbn. lia.
Qed.

Lemma find_some_filter (sid tid : Z) (rows : list StudentProgress) (r : StudentProgress) :
  find (row_matches sid tid) rows = Some r ->
  (1 <= List.length (filter (row_matches sid tid) rows))%nat.
Proof.
  intros Hget. apply find_some in Hget. destruct Hget as [Hin Hm].
  assert (Hf : In r (filter (row_matches sid tid) rows))
    by (apply filter_In; split; assumption).
  destruct (filter (row_matches sid tid) rows); [ destruct Hf | cbn; lia ].
Qed.

Lemma history_for_snoc (sid tid : Z) (history : list QuizHistory) (e : QuizHistory) :
  history_for sid tid (history ++ [e])
  = history_for sid tid history
      ++ (if ((h_student_id e =? sid) && (h_topic_id e =? tid))%Z then [e] else []).
Proof.
  unfold history_for. rewrite filter_app. cbn [filter].
  destruct ((h_student_id e =? sid) && (h_topic_id e =? tid))%Z; reflexivity.
Qed.

Lemma sum_of_snoc (f : QuizHistory -> Z) (history : list QuizHistory) (e : QuizHistory) :
  sum_of f (history ++ [e]) = (sum_of f history + f e)%Z.
Proof.
  unfold sum_of. induction history as [ | a history IH ]; cbn [app map fold_right].
  - lia.
  - rewrite IH. lia.
Qed.

Lemma history_key_eqb (sid tid sid' tid' : Z) :
  (((sid =? sid') && (tid =? tid'))%Z = true) <-> (sid, tid) = (sid', tid').
Proof.
  rewrite andb_true_iff, !Z.eqb_eq.
  split; [ intros [-> ->]; reflexivity | intros H; injection H; auto ].
Qed.

(** A row whose key differs from that of the new quiz sees the same
    history. *)
Lemma row_agrees_other (history : list QuizHistory) (e : QuizHistory)
      (r : StudentProgress) :
  (h_student_id e, h_topic_id e) <> row_key r ->
  row_agrees history r -> row_agrees (history ++ [e]) r.
Proof.
  intros Hne. unfold row_agrees. rewrite history_for_snoc.
  destruct ((h_student_id e =? student_id r) && (h_topic_id e =? topic_id r))%Z eqn:E.
  - apply history_key_eqb in E. contradiction.
  - rewrite app_nil_r. auto.
Qed.

(** The row of the new quiz, with its counters advanced, agrees with the
    history that has the quiz appended. *)
Lemma row_agrees_advanced (history : list QuizHistory) (sid tid correct total : Z)
      (conf : Q) (att tq ca : Z) (date : option Z) :
  att = Z.of_nat (List.length (history_for sid tid history)) ->
  tq = sum_of h_total_questions (history_for sid tid history) ->
  ca = sum_of h_score (history_for sid tid history) ->
  row_agrees (history ++ [mkQuizHistory sid tid correct total])
             (mkStudentProgress sid tid conf (att + 1) date (tq + total) (ca + correct)).
Proof.
  intros -> -> ->. unfold row_agrees.
  cbn [student_id topic_id attempts total_questions correct_answers].
  rewrite history_for_snoc. cbn [h_student_id h_topic_id].
  rewrite !Z.eqb_refl. cbn [andb].
  rewrite length_app, !sum_of_snoc. cbn [List.length h_total_questions h_score].
  repeat split; lia.
Qed.

Lemma ledger_ok_update (db db' : EducationDB) (now sid tid correct total : Z) :
  ledger_ok db ->
  update_student_progress db now sid tid correct total = Ok db' ->
  ledger_ok db'.
Proof.
  intros [Hrows Hcover] Hup. unfold update_student_progress in Hup.
  destruct (get_student_progress db sid tid) as [ r | ] eqn:Hget.
  - unfold updated_fields in Hup. rewrite guarded_accuracy_value in Hup.
    cbn [bind] in Hup. injection Hup as <-.
    destruct (get_matches _ _ _ _ Hget) as (Hin & Hs & Ht).
    pose proof (proj1 (Forall_forall _ _) Hrows r Hin) as (Ha & Htq & Hca).
    rewrite Hs, Ht in Ha, Htq, Hca.
    split; cbn [student_progress quiz_history].
    + apply Forall_forall. intros x Hx. unfold sql_update in Hx.
      apply in_map_iff in Hx. destruct Hx as (y & <- & Hy).
      destruct (row_matches sid tid y) eqn:Hm.
      * apply row_matches_key in Hm. unfold row_key in Hm.
        injection Hm as -> ->.
        apply row_agrees_advanced; assumption.
      * apply row_agrees_other; [ | exact (proj1 (Forall_forall _ _) Hrows y Hy) ].
        cbn [h_student_id h_topic_id]. intros Hk.
        symmetry in Hk. apply row_matches_key in Hk. congruence.
    + intros e He. apply in_app_or in He.
      assert (Hkeep : forall y, In y (student_progress db) ->
                exists x, In x (sql_update sid tid
                                  (py_max 0 (py_min 1
                                     (confidence_score r
                                      + (accuracy_value (correct_answers r + correct)
                                                        (total_questions r + total)
                                         - (1 # 2)) * (1 # 10))))
                                  (attempts r + 1) now
                                  (total_questions r + total)
                                  (correct_answers r + correct)
                                  (student_progress db))
                          /\ student_id x = student_id y
                          /\ topic_id x = topic_id y).
      { intros y Hy. eexists. split; [ apply in_map; exact Hy | ].
        cbn beta. destruct (row_matches sid tid y); split; reflexivity. }
      destruct He as [ He | [ <- | [] ] ].
      * destruct (Hcover e He) as (y & Hy & Hys & Hyt).
        destruct (Hkeep y Hy) as (x & Hx & Hxs & Hxt).
        exists x. split; [ exact Hx | ]. split; congruence.
      * destruct (Hkeep r Hin) as (x & Hx & Hxs & Hxt).
        exists x. split; [ exact Hx | ].
        cbn [h_student_id h_topic_id]. split; congruence.
  - unfold created_confidence in Hup. rewrite guarded_accuracy_value in Hup.
    cbn [bind] in Hup. injection Hup as <-.
    assert (Hnone : forall y, In y (student_progress db) ->
                              row_matches sid tid y = false).
    { intros y Hy. exact (find_none _ _ Hget y Hy). }
    assert (Hempty : history_for sid tid (quiz_history db) = []).
    { unfold history_for.
      destruct (filter _ (quiz_history db)) as [ | e l ] eqn:E; [ reflexivity | ].
      exfalso.
      assert (He : In e (filter
                           (fun e => ((h_student_id e =? sid) && (h_topic_id e =? tid))%Z)
                           (quiz_history db)))
        by (rewrite E; left; reflexivity).
      apply filter_In in He. destruct He as [He Hm].
      apply history_key_eqb in Hm. injection Hm as Hms Hmt.
      destruct (Hcover e He) as (y & Hy & Hys & Hyt).
      pose proof (Hnone y Hy) as Hf.
      assert (Ht : row_matches sid tid y = true).
      { apply row_matches_key. unfold row_key. congruence. }
      congruence. }
    split; cbn [student_progress quiz_history].
    + unfold sql_insert. apply Forall_app. split.
      * apply Forall_forall. intros y Hy.
        apply row_agrees_other; [ | exact (proj1 (Forall_forall _ _) Hrows y Hy) ].
        cbn [h_student_id h_topic_id]. intros Hk.
        symmetry in Hk. apply row_matches_key in Hk.
        rewrite (Hnone y Hy) in Hk. discriminate.
      * constructor; [ | constructor ].
        apply (row_agrees_advanced (quiz_history db) sid tid correct total
                                   _ 0%Z 0%Z 0%Z (Some now));
          rewrite Hempty; reflexivity.
    + intros e He. apply in_app_or in He. unfold sql_insert.
      destruct He as [ He | [ <- | [] ] ].
      * destruct (Hcover e He) as (y & Hy & Hys & Hyt).
        exists y. split; [ apply in_or_app; left; exact Hy | ]. split; assumption.
      * eexists. split; [ apply in_or_app; right; left; reflexivity | ].
        split; reflexivity.
Qed.

Lemma ledger_ok_empty : ledger_ok empty_db.
Proof.
  split; [ constructor | intros e [] ].
Qed.

Lemma keys_unique_update (db db' : EducationDB) (now sid tid correct total : Z) :
  keys_unique db ->
  update_student_progress db now sid tid correct total = Ok db' ->
  keys_unique db'
  /\ List.length (filter (row_matches sid tid) (student_progress db')) = 1%nat.
Proof.
  unfold keys_unique. intros Hnd Hup.
  assert (Hread : exists r', get_student_progress db' sid tid = Some r').
  { destruct (get_student_progress db sid tid) as [ r | ] eqn:Hget.
    - destruct (update_existing db now sid tid correct total r Hget)
        as (d & Hd & _ & Hr). rewrite Hd in Hup. injection Hup as <-. eauto.
    - destruct (update_created db now sid tid correct total Hget)
        as (d & Hd & _ & Hr). rewrite Hd in Hup. injection Hup as <-. eauto. }
  assert (Hnd' : NoDup (map row_key (student_progress db'))).
  { unfold update_student_progress in Hup.
    destruct (get_student_progress db sid tid) as [ r | ] eqn:Hget.
    - unfold updated_fields in Hup. rewrite guarded_accuracy_value in Hup.
      cbn [bind] in Hup. injection Hup as <-. cbn [student_progress].
      rewrite sql_update_keys. exact Hnd.
    - unfold created_confidence in Hup. rewrite guarded_accuracy_value in Hup.
      cbn [bind] in Hup. injection Hup as <-. cbn [student_progress].
      unfold sql_insert. rewrite map_app. cbn [map].
      apply NoDup_app; [ exact Hnd | repeat constructor; intros [] | ].
      intros k Hk [ <- | [] ]. unfold row_key in Hk. cbn [student_id topic_id] in Hk.
      exact (find_none_no_key sid tid _ Hget Hk). }
  split; [ exact Hnd' | ].
  destruct Hread as (r' & Hr').
  pose proof (find_some_filter sid tid _ r' Hr').
  pose proof (unique_key_one_row sid tid _ Hnd'). lia.
Qed.

Lemma counts_ok_update (db db' : EducationDB) (now sid tid correct total : Z) :
  counts_ok db -> (0 <= correct <= total)%Z ->
  update_student_progress db now sid tid correct total = Ok db' ->
  counts_ok db'.
Proof.
  unfold counts_ok. intros Hok Hc Hup. unfold update_student_progress in Hup.
  destruct (get_student_progress db sid tid) as [ r | ] eqn:Hget.
  - unfold updated_fields in Hup. rewrite guarded_accuracy_value in Hup.
    cbn [bind] in Hup. injection Hup as <-. cbn [student_progress].
    destruct (get_matches _ _ _ _ Hget) as (Hin & _ & _).
    pose proof (proj1 (Forall_forall _ _) Hok r Hin) as Hr. cbn beta in Hr.
    apply Forall_forall. intros x Hx. unfold sql_update in Hx.
    apply in_map_iff in Hx. destruct Hx as (y & <- & Hy).
    destruct (row_matches sid tid y).
    + cbn [correct_answers total_questions]. lia.
    + exact (proj1 (Forall_forall _ _) Hok y Hy).
  - unfold created_confidence in Hup. rewrite guarded_accuracy_value in Hup.
    cbn [bind] in Hup. injection Hup as <-. cbn [student_progress].
    unfold sql_insert. apply Forall_app. split; [ exact Hok | ].
    constructor; [ | constructor ]. cbn [correct_answers total_questions]. lia.
Qed.

Lemma count_correct_bounds (quiz : list (Question * option string)) :
  forall n : Z,
    (n <= StudentInterface.count_correct quiz n
     <= n + Z.of_nat (List.length quiz))%Z.
Proof.
  induction quiz as [ | [q selected] quiz IH ]; intros n;
    cbn [StudentInterface.count_correct List.length].
  - lia.
  - destruct (StudentInterface.is_correct
                (StudentInterface.extract_letter selected) q).
    + specialize (IH (n + 1)%Z). lia.
    + specialize (IH n). lia.
Qed.

Lemma accuracy_in_unit (ca tq : Z) :
  (0 <= ca <= tq)%Z -> (0 < tq)%Z ->
  0 <= inject_Z ca / inject_Z tq /\ inject_Z ca / inject_Z tq <= 1.
Proof.
  intros Hc Hpos.
  assert (Hq : 0 < inject_Z tq).
  { change 0 with (inject_Z 0). rewrite <- Zlt_Qlt. exact Hpos. }
  split.
  - apply Qle_shift_div_l; [ exact Hq | ].
    unfold Qle, Qmult, inject_Z. cbn [Qnum Qden]. lia.
  - apply Qle_shift_div_r; [ exact Hq | ].
    unfold Qle, Qmult, inject_Z. cbn [Qnum Qden]. lia.
Qed.


End Tables.

(** X1.  [update_student_progress] for one student and topic leaves the
    record of every other pair of student and topic as [get_student_progress]
    read it before. *)
Theorem X1_update_leaves_other_records :
  forall (db : ProgressService.EducationDB)
         (now sid tid correct total sid' tid' : Z),
    (sid', tid') <> (sid, tid) ->
    exists db',
      ProgressService.update_student_progress db now sid tid correct total = Ok db'
      /\ ProgressService.get_student_progress db' sid' tid'
         = ProgressService.get_student_progress db sid' tid'.
Proof.
  intros db now sid tid correct total sid' tid' Hne.
  destruct (update_returns db now sid tid correct total) as (db' & Hup).
  exists db'. split; [ exact Hup | ].
  exact (rows_frame db db' now sid tid correct total sid' tid' Hup Hne).
Qed.

(** A quiz of student 7 on topic 3 next to the record of student 8. *)
Lemma X1_update_leaves_other_records_witness :
  let other := ProgressService.mkStudentProgress 8 3 (7 # 10) 2 (Some 0%Z) 6 5 in
  let db := ProgressService.mkDB [other] [] in
  (8%Z, 3%Z) <> (7%Z, 3%Z)
  /\ exists db',
      ProgressService.update_student_progress db 1 7 3 2 3 = Ok db'
      /\ ProgressService.get_student_progress db' 8 3 = Some other.
Proof.
  intros other db.
  assert (Hne : (8%Z, 3%Z) <> (7%Z, 3%Z)) by discriminate.
  split; [ exact Hne | ].
  exact (X1_update_leaves_other_records db 1%Z 7%Z 3%Z 2%Z 3%Z 8%Z 3%Z Hne).
Defined.

(** X2.  When no two rows of [student_progress] share their student and
    topic, the same holds after [update_student_progress], and the table
    then holds exactly one row for the student and topic of the quiz: the
    [INSERT] is only reached when the pair has no row. *)
Theorem X2_update_keeps_keys_unique :
  forall (db : ProgressService.EducationDB) (now sid tid correct total : Z),
    Ledger.keys_unique db ->
    exists db',
      ProgressService.update_student_progress db now sid tid correct total = Ok db'
      /\ Ledger.keys_unique db'
      /\ List.length (filter (ProgressService.row_matches sid tid)
                             (ProgressService.student_progress db')) = 1%nat.
Proof.
  intros db now sid tid correct total Hnd.
  destruct (update_returns db now sid tid correct total) as (db' & Hup).
  exists db'. split; [ exact Hup | ].
  exact (keys_unique_update db db' now sid tid correct total Hnd Hup).
Qed.

(** The first quiz of a topic on an empty table. *)
Lemma X2_update_keeps_keys_unique_witness :
  Ledger.keys_unique ProgressService.empty_db
  /\ exists db',
      ProgressService.update_student_progress ProgressService.empty_db 1 7 3 2 3
      = Ok db'
      /\ Ledger.keys_unique db'.
Proof.
  assert (Hnd : Ledger.keys_unique ProgressService.empty_db) by constructor.
  split; [ exact Hnd | ].
  destruct (X2_update_keeps_keys_unique ProgressService.empty_db
                                        1%Z 7%Z 3%Z 2%Z 3%Z Hnd)
    as (db' & Hup & Hnd' & _).
  exists db'. split; assumption.
Defined.

(** X3.  The counters of a record are the history of its quizzes: when
    every row has [attempts] equal to the number of [quiz_history] rows of
    its student and topic, [total_questions] and [correct_answers] equal to
    the sums of their totals and scores, and every history row has its
    record, then the same holds after [update_student_progress]; it holds
    of the empty tables. *)
Theorem X3_counters_follow_history :
  Ledger.ledger_ok ProgressService.empty_db
  /\ forall (db : ProgressService.EducationDB) (now sid tid correct total : Z),
      Ledger.ledger_ok db ->
      exists db' r',
        ProgressService.update_student_progress db now sid tid correct total
        = Ok db'
        /\ Ledger.ledger_ok db'
        /\ ProgressService.get_student_progress db' sid tid = Some r'
        /\ ProgressService.attempts r'
           = Z.of_nat (List.length
                         (Ledger.history_for sid tid
                                             (ProgressService.quiz_history db')))
        /\ ProgressService.total_questions r'
           = Ledger.sum_of ProgressService.h_total_questions
                           (Ledger.history_for sid tid
                                               (ProgressService.quiz_history db'))
        /\ ProgressService.correct_answers r'
           = Ledger.sum_of ProgressService.h_score
                           (Ledger.history_for sid tid
                                               (ProgressService.quiz_history db')).
Proof.
  split; [ exact ledger_ok_empty | ].
  intros db now sid tid correct total Hok.
  destruct (update_returns db now sid tid correct total) as (db' & Hup).
  pose proof (ledger_ok_update db db' now sid tid correct total Hok Hup) as Hok'.
  assert (Hread : exists r', ProgressService.get_student_progress db' sid tid = Some r').
  { destruct (ProgressService.get_student_progress db sid tid) as [ r | ] eqn:Hget.
    - destruct (update_existing db now sid tid correct total r Hget)
        as (d & Hd & _ & Hr). rewrite Hd in Hup. injection Hup as <-. eauto.
    - destruct (update_created db now sid tid correct total Hget)
        as (d & Hd & _ & Hr). rewrite Hd in Hup. injection Hup as <-. eauto. }
  destruct Hread as (r' & Hr').
  exists db', r'. split; [ exact Hup | ]. split; [ exact Hok' | ].
  split; [ exact Hr' | ].
  destruct (get_matches _ _ _ _ Hr') as (Hin & Hs & Ht).
  destruct Hok' as [Hrows _].
  pose proof (proj1 (Forall_forall _ _) Hrows r' Hin) as Hagree.
  unfold Ledger.row_agrees in Hagree. rewrite Hs, Ht in Hagree. exact Hagree.
Qed.

(** Two quizzes of one topic from the empty tables: 2 attempts, 6 questions,
    5 correct. *)
Lemma X3_counters_follow_history_witness :
  Ledger.ledger_ok ProgressService.empty_db
  /\ exists db1 db2 r2,
      ProgressService.update_student_progress ProgressService.empty_db 1 7 3 2 3
      = Ok db1
      /\ ProgressService.update_student_progress db1 2 7 3 3 3 = Ok db2
      /\ Ledger.ledger_ok db2
      /\ ProgressService.get_student_progress db2 7 3 = Some r2
      /\ ProgressService.attempts r2 = 2%Z.
Proof.
  split; [ exact (proj1 X3_counters_follow_history) | ].
  destruct (proj2 X3_counters_follow_history ProgressService.empty_db
                  1%Z 7%Z 3%Z 2%Z 3%Z (proj1 X3_counters_follow_history))
    as (db1 & r1 & Hup1 & Hok1 & _).
  destruct (proj2 X3_counters_follow_history db1 2%Z 7%Z 3%Z 3%Z 3%Z Hok1)
    as (db2 & r2 & Hup2 & Hok2 & Hread2 & Ha & _).
  exists db1, db2, r2.
  split; [ exact Hup1 | ]. split; [ exact Hup2 | ]. split; [ exact Hok2 | ].
  split; [ exact Hread2 | ].
  rewrite Ha. vm_compute in Hup1. injection Hup1 as <-.
  vm_compute in Hup2. injection Hup2 as <-. reflexivity.
Defined.



(** X5.  The submit branch of [display_quiz] counts between 0 and
    [len(quiz)] correct answers, so it keeps
    [0 <= correct_answers <= total_questions] in every row of
    [student_progress], and it appends the count and [len(quiz)] to
    [quiz_history]. *)
Theorem X5_submit_keeps_counts_in_range :
  forall (db : ProgressService.EducationDB) (now sid tid : Z)
         (quiz : list (Question * option string)),
    Ledger.counts_ok db ->
    (0 <= StudentInterface.count_correct quiz 0 <= Z.of_nat (List.length quiz))%Z
    /\ exists db',
        StudentInterface.submit_quiz db now sid tid quiz = Ok db'
        /\ Ledger.counts_ok db'
        /\ ProgressService.quiz_history db'
           = ProgressService.quiz_history db
               ++ [ProgressService.mkQuizHistory
                     sid tid (StudentInterface.count_correct quiz 0)
                     (Z.of_nat (List.length quiz))].
Proof.
  intros db now sid tid quiz Hok.
  pose proof (count_correct_bounds quiz 0%Z) as Hb.
  split; [ lia | ].
  destruct (submit_quiz_returns db now sid tid quiz) as (db' & Hup).
  exists db'. split; [ exact Hup | ].
  unfold StudentInterface.submit_quiz in Hup.
  split.
  - refine (counts_ok_update db db' now sid tid _ _ Hok _ Hup). lia.
  - unfold ProgressService.update_student_progress in Hup.
    destruct (match ProgressService.get_student_progress db sid tid with
              | Some existing => _ | None => _ end) as [ rows | e ];
      cbn [bind] in Hup; [ | discriminate ].
    injection Hup as <-. reflexivity.
Qed.

(** A quiz of two questions, one answered with the right letter. *)
Lemma X5_submit_keeps_counts_in_range_witness :
  let q := mkQuestion "Which bias?" ["A) One"%string; "B) Two"%string] "A" "-" in
  let quiz := [(q, Some "A) One"%string); (q, Some "B) Two"%string)] in
  Ledger.counts_ok ProgressService.empty_db
  /\ StudentInterface.count_correct quiz 0 = 1%Z
  /\ exists db',
      StudentInterface.submit_quiz ProgressService.empty_db 1 7 3 quiz = Ok db'
      /\ Ledger.counts_ok db'.
Proof.
  intros q quiz.
  assert (Hok : Ledger.counts_ok ProgressService.empty_db) by constructor.
  split; [ exact Hok | ]. split; [ reflexivity | ].
  destruct (X5_submit_keeps_counts_in_range ProgressService.empty_db
                                            1%Z 7%Z 3%Z quiz Hok)
    as (_ & db' & Hup & Hok' & _).
  exists db'. split; assumption.
Defined.

(** ** The progress file of [main_quiz.py] *)

Section ProgressFileFacts.

Import MainQuiz.

Lemma dict_keys_set_present (d : dict) (k : string) (v : Q) :
  In k (dict_keys d) -> dict_keys (dict_set d k v) = dict_keys d.
Proof.
  intros Hin. rewrite dict_keys_set.
  apply existsb_eqb_in in Hin. rewrite Hin. reflexivity.
Qed.

Lemma dict_keys_set_absent (d : dict) (k : string) (v : Q) :
  ~ In k (dict_keys d) -> dict_keys (dict_set d k v) = dict_keys d ++ [k].
Proof.
  intros Hnin. rewrite dict_keys_set.
  destruct (existsb (String.eqb k) (dict_keys d)) eqn:E; [ | reflexivity ].
  apply existsb_eqb_in in E. contradiction.
Qed.


End ProgressFileFacts.

(** X6.  What [update_confidence_score] saves is what
    [load_student_progress] loads: when the progress holds the topics of
    the syllabus and the topic of the answer is one of them, the next load
    returns the updated progress and leaves the file as it is. *)
Theorem X6_saved_progress_is_loaded :
  forall (topics : list string) (file : MainQuiz.ProgressFile)
         (p : MainQuiz.Progress) (topic_name sid : string) (is_correct : bool),
    (forall k, In k topics <-> In k (dict_keys (MainQuiz.confidence_scores p))) ->
    In topic_name topics ->
    let saved := MainQuiz.update_confidence_score file p topic_name is_correct in
    MainQuiz.load_student_progress topics (snd saved) sid = (fst saved, snd saved)
    /\ dict_get (MainQuiz.confidence_scores (fst saved)) topic_name
       = Some (MainQuiz.stepped_score (Policy.stored_score p topic_name) is_correct).
Proof.
  intros topics file p topic_name sid is_correct Hsame Hin saved.
  unfold saved, MainQuiz.update_confidence_score.
  cbn [fst snd MainQuiz.save_student_progress].
  split.
  - apply load_same_topics. cbn [MainQuiz.confidence_scores].
    rewrite dict_keys_set_present by (apply Hsame; exact Hin). exact Hsame.
  - cbn [MainQuiz.confidence_scores]. apply dict_get_set_same.
Qed.

(** A correct answer on "Find-S Algorithm" in a fresh progress. *)
Lemma X6_saved_progress_is_loaded_witness :
  let p := MainQuiz.mkProgress "user123" (dict_of_default MainQuiz.SYLLABUS_TOPICS) in
  let saved := MainQuiz.update_confidence_score None p "Find-S Algorithm" true in
  In "Find-S Algorithm"%string MainQuiz.SYLLABUS_TOPICS
  /\ MainQuiz.load_student_progress MainQuiz.SYLLABUS_TOPICS (snd saved) "user123"
     = (fst saved, snd saved)
  /\ dict_get (MainQuiz.confidence_scores (fst saved)) "Find-S Algorithm"
     = Some (MainQuiz.stepped_score (1 # 2) true).
Proof.
  intros p saved.
  assert (Hin : In "Find-S Algorithm"%string MainQuiz.SYLLABUS_TOPICS).
  { apply existsb_eqb_in. reflexivity. }
  split; [ exact Hin | ].
  apply (X6_saved_progress_is_loaded MainQuiz.SYLLABUS_TOPICS None p
                                     "Find-S Algorithm"%string "user123"%string true);
    [ | exact Hin ].
  intros k. symmetry. apply dict_of_default_keys.
Defined.

(** X7.  An answer on a topic outside the syllabus costs every score: when
    the progress holds the topics of the syllabus and [topic_name] is not
    one of them, [update_confidence_score] saves a map with one more key,
    and the next [load_student_progress] replaces it by the topics of the
    syllabus at 0.5. *)
Theorem X7_unknown_topic_resets_progress :
  forall (topics : list string) (file : MainQuiz.ProgressFile)
         (p : MainQuiz.Progress) (topic_name sid : string) (is_correct : bool),
    (forall k, In k topics <-> In k (dict_keys (MainQuiz.confidence_scores p))) ->
    ~ In topic_name topics ->
    let saved := MainQuiz.update_confidence_score file p topic_name is_correct in
    dict_keys (MainQuiz.confidence_scores (fst saved))
    = dict_keys (MainQuiz.confidence_scores p) ++ [topic_name]
    /\ snd saved = Some (fst saved)
    /\ MainQuiz.load_student_progress topics (snd saved) sid
       = (MainQuiz.mkProgress sid (dict_of_default topics),
          Some (MainQuiz.mkProgress sid (dict_of_default topics))).
Proof.
  intros topics file p topic_name sid is_correct Hsame Hnin saved.
  unfold saved, MainQuiz.update_confidence_score.
  cbn [fst snd MainQuiz.save_student_progress MainQuiz.confidence_scores].
  assert (Hkeys : dict_keys (dict_set (MainQuiz.confidence_scores p) topic_name
                                      (MainQuiz.stepped_score
                                         (dict_get_default
                                            (MainQuiz.confidence_scores p)
                                            topic_name (1 # 2)) is_correct))
                  = dict_keys (MainQuiz.confidence_scores p) ++ [topic_name]).
  { apply dict_keys_set_absent. intros Hin. apply Hnin. apply Hsame. exact Hin. }
  split; [ exact Hkeys | ]. split; [ reflexivity | ].
  apply load_other_topics. cbn [MainQuiz.confidence_scores].
  rewrite Hkeys. intros Hall. apply Hnin. apply Hall.
  apply in_or_app. right. left. reflexivity.
Qed.

(** An answer on "Decision Trees", which the sixteen topics do not list. *)
Lemma X7_unknown_topic_resets_progress_witness :
  let p := MainQuiz.mkProgress
             "user123"
             (dict_set (dict_of_default MainQuiz.SYLLABUS_TOPICS)
                       "Find-S Algorithm" (9 # 10)) in
  let saved := MainQuiz.update_confidence_score None p "Decision Trees" true in
  ~ In "Decision Trees"%string MainQuiz.SYLLABUS_TOPICS
  /\ dict_get (MainQuiz.confidence_scores (fst saved)) "Find-S Algorithm"
     = Some (9 # 10)
  /\ dict_get (MainQuiz.confidence_scores
                 (fst (MainQuiz.load_student_progress
                         MainQuiz.SYLLABUS_TOPICS (snd saved) "user123")))
              "Find-S Algorithm"
     = Some (1 # 2).
Proof.
  intros p saved.
  assert (Hnin : ~ In "Decision Trees"%string MainQuiz.SYLLABUS_TOPICS).
  { intros Hin. apply existsb_eqb_in in Hin. vm_compute in Hin. discriminate. }
  split; [ exact Hnin | ]. split; [ vm_compute; reflexivity | ].
  destruct (X7_unknown_topic_resets_progress
              MainQuiz.SYLLABUS_TOPICS None p "Decision Trees"%string
              "user123"%string true) as (_ & _ & Hload);
    [ | exact Hnin | ].
  - apply set_eqb_spec. vm_compute. reflexivity.
  - fold saved in Hload. rewrite Hload. vm_compute. reflexivity.
Defined.

(** X8.  [update_confidence_score] changes the score of its topic alone:
    every other topic reads as before, and when the topic is in the map the
    keys keep their order. *)
Theorem X8_update_changes_one_topic :
  forall (file : MainQuiz.ProgressFile) (p : MainQuiz.Progress)
         (topic_name : string) (is_correct : bool),
    let p' := fst (MainQuiz.update_confidence_score file p topic_name is_correct) in
    MainQuiz.student_id p' = MainQuiz.student_id p
    /\ (forall k, k <> topic_name ->
                  dict_get (MainQuiz.confidence_scores p') k
                  = dict_get (MainQuiz.confidence_scores p) k)
    /\ (In topic_name (dict_keys (MainQuiz.confidence_scores p)) ->
        dict_keys (MainQuiz.confidence_scores p')
        = dict_keys (MainQuiz.confidence_scores p)).
Proof.
  intros file p topic_name is_correct p'. unfold p', MainQuiz.update_confidence_score.
  cbn [fst MainQuiz.student_id MainQuiz.confidence_scores].
  split; [ reflexivity | ]. split.
  - intros k Hne. apply dict_get_set_other. congruence.
  - apply dict_keys_set_present.
Qed.

(** An answer on the second of three topics. *)
Lemma X8_update_changes_one_topic_witness :
  let p := MainQuiz.mkProgress "user123"
             [ ("Find-S Algorithm"%string, 5 # 10);
               ("Inductive Bias"%string, 3 # 10);
               ("FOIL Algorithm"%string, 8 # 10) ] in
  let p' := fst (MainQuiz.update_confidence_score None p "Inductive Bias" true) in
  "FOIL Algorithm"%string <> "Inductive Bias"%string
  /\ dict_get (MainQuiz.confidence_scores p') "FOIL Algorithm" = Some (8 # 10)
  /\ dict_keys (MainQuiz.confidence_scores p')
     = ["Find-S Algorithm"%string; "Inductive Bias"%string; "FOIL Algorithm"%string].
Proof.
  intros p p'.
  assert (Hne : "FOIL Algorithm"%string <> "Inductive Bias"%string) by discriminate.
  split; [ exact Hne | ].
  destruct (X8_update_changes_one_topic None p "Inductive Bias"%string true)
    as (_ & Hother & Hkeys).
  split.
  - exact (Hother "FOIL Algorithm"%string Hne).
  - apply Hkeys. right. left. reflexivity.
Defined.



(** ** The first recommendation and the summary *)

Section Recommendation.

Lemma dict_set_head (k0 : string) (v0 : Q) (d : dict) (k : string) (v : Q) :
  exists v0' d', dict_set ((k0, v0) :: d) k v = (k0, v0') :: d'.
Proof.
  cbn [dict_set]. destruct (String.eqb k0 k); eauto.
Qed.

Lemma fold_set_head (topics : list string) :
  forall (k0 : string) (v0 : Q) (d : dict),
  exists v0' d',
    fold_left (fun d topic => dict_set d topic (1 # 2)) topics ((k0, v0) :: d)
    = (k0, v0') :: d'.
Proof.
  induction topics as [ | t topics IH ]; intros k0 v0 d; cbn [fold_left].
  - eauto.
  - destruct (dict_set_head k0 v0 d t (1 # 2)) as (v0' & d' & ->). apply IH.
Qed.

(** The map built from a syllabus starts with the first topic. *)
Lemma dict_of_default_head (t : string) (rest : list string) :
  exists d', dict_of_default (t :: rest) = (t, 1 # 2) :: d'.
Proof.
  unfold dict_of_default. cbn [fold_left dict_set].
  destruct (fold_set_head rest t (1 # 2) []) as (v0' & d' & Heq).
  assert (Hv : dict_get (dict_of_default (t :: rest)) t = Some (1 # 2))
    by (apply dict_of_default_get; left; reflexivity).
  unfold dict_of_default in Hv. cbn [fold_left dict_set] in Hv.
  rewrite Heq in Hv |- *. cbn [dict_get] in Hv. rewrite String.eqb_refl in Hv.
  injection Hv as ->. eauto.
Qed.

(** On a map whose scores are all equal the scan keeps its first key. *)
Lemma weakest_of_flat_dict (k0 : string) (v0 : Q) (d : dict) :
  (forall k v, dict_get ((k0, v0) :: d) k = Some v -> v == v0) ->
  py_min_by (dict_get ((k0, v0) :: d)) (dict_keys ((k0, v0) :: d)) = Ok k0.
Proof.
  intros Hflat.
  destruct (weakest_of_dict ((k0, v0) :: d)) as (t & s & pre & post & Hrun & Hget & _ & Hsplit & Hpre);
    [ discriminate | ].
  rewrite Hrun. f_equal.
  destruct pre as [ | a pre ].
  - cbn [dict_keys map fst app] in Hsplit. injection Hsplit as Hh _. symmetry. exact Hh.
  - exfalso. cbn [dict_keys map fst app] in Hsplit. injection Hsplit as Hh _.
    subst a.
    assert (H0 : dict_get ((k0, v0) :: d) k0 = Some v0)
      by (cbn [dict_get]; rewrite String.eqb_refl; reflexivity).
    pose proof (Hpre k0 v0 (or_introl eq_refl) H0) as Hlt.
    pose proof (Hflat t s Hget) as Hs. lra.
Qed.

Lemma weakest_of_default (t : string) (rest : list string) :
  py_min_by (dict_get (dict_of_default (t :: rest)))
            (dict_keys (dict_of_default (t :: rest))) = Ok t.
Proof.
  destruct (dict_of_default_head t rest) as (d' & Heq).
  assert (Hflat : forall k v, dict_get (dict_of_default (t :: rest)) k = Some v ->
                              v == 1 # 2).
  { intros k v Hk. rewrite (dict_of_default_values (t :: rest) k v Hk). reflexivity. }
  rewrite Heq in Hflat |- *. apply weakest_of_flat_dict. exact Hflat.
Qed.

(** [max] by key as [min] by the negated key. *)
Lemma max_loop_as_min {A : Type} (key : A -> option Q) (rest : list A) :
  forall (item : A) (val : option Q),
    max_loop key item val rest
    = min_loop (fun x => option_map Qopp (key x)) item (option_map Qopp val) rest.
Proof.
  induction rest as [ | x rest IH ]; intros item val; cbn [max_loop min_loop];
    [ reflexivity | ].
  destruct val as [ mv | ], (key x) as [ v | ]; cbn [option_map py_lt bind];
    try reflexivity.
  destruct (Qlt_le_dec mv v) as [ Hlt | Hge ];
    destruct (Qlt_le_dec (- v) (- mv)) as [ Hlt' | Hge' ]; try lra.
  - rewrite IH. reflexivity.
  - rewrite IH. reflexivity.
Qed.

(** [max(d, key=d.get)] on a dict that has entries returns a key of greatest
    value. *)
Lemma strongest_of_dict (d : dict) :
  d <> [] ->
  exists t s,
    py_max_by (dict_get d) (dict_keys d) = Ok t
    /\ dict_get d t = Some s
    /\ (forall k v, dict_get d k = Some v -> v <= s).
Proof.
  intros Hne. destruct d as [ | [k0 v0] d ]; [ contradiction | ].
  assert (H0 : dict_get ((k0, v0) :: d) k0 = Some v0)
    by (cbn [dict_get]; rewrite String.eqb_refl; reflexivity).
  cbn [dict_keys map fst py_max_by]. fold (dict_keys d).
  rewrite max_loop_as_min.
  destruct (min_loop_spec string
              (fun x => option_map Qopp (dict_get ((k0, v0) :: d) x))
              (dict_keys d) k0 (- v0))
    as (t & tv & pre & post & Hrun & Hkt & _ & Hle & Hall & _).
  - rewrite H0. reflexivity.
  - intros x Hx.
    destruct (in_keys_dict_get ((k0, v0) :: d) x) as (v & Hv).
    + cbn [dict_keys map fst]. right. exact Hx.
    + exists (- v). rewrite Hv. reflexivity.
  - rewrite H0. cbn [option_map]. rewrite Hrun.
    destruct (dict_get ((k0, v0) :: d) t) as [ s | ] eqn:Hs; [ | discriminate ].
    cbn [option_map] in Hkt. injection Hkt as <-.
    exists t, s. split; [ reflexivity | ]. split; [ exact Hs | ].
    intros k v Hk.
    pose proof (dict_get_in_keys _ _ _ Hk) as Hin.
    cbn [dict_keys map fst] in Hin. fold (dict_keys d) in Hin.
    destruct Hin as [ <- | Hin ].
    + rewrite H0 in Hk. injection Hk as <-. lra.
    + assert (Hneg : - s <= - v).
      { apply (Hall k (- v) Hin). rewrite Hk. reflexivity. }
      lra.
Qed.

End Recommendation.

(** X10.  With every score at 0.5 the recommendation is the first topic of
    the syllabus: after a first load, after [reset_student_progress], and
    in the fresh session of [app_hf.py]. *)
Theorem X10_first_recommendation_is_first_topic :
  forall (t : string) (rest : list string)
         (file : MainQuiz.ProgressFile) (sid : string),
    MainQuiz.get_next_quiz_topic
      (fst (MainQuiz.load_student_progress (t :: rest) None sid)) = Ok t
    /\ MainQuiz.get_next_quiz_topic
         (fst (MainQuiz.reset_student_progress (t :: rest) file sid)) = Ok t
    /\ AppHf.weakest_topic (dict_of_default (t :: rest)) = Ok t.
Proof.
  intros t rest file sid.
  unfold MainQuiz.get_next_quiz_topic, MainQuiz.reset_student_progress,
    AppHf.weakest_topic.
  cbn [MainQuiz.load_student_progress fst MainQuiz.confidence_scores].
  repeat split; apply weakest_of_default.
Qed.

(** X11.  [get_student_summary] over a syllabus that has topics returns:
    its weakest and strongest topics are topics of the loaded map with the
    scores reported for them, every score of the map lies between the two,
    [total_topics] is the size of the map, and the file is the one that the
    load leaves.  Over an empty syllabus it raises [ValueError]. *)
Theorem X11_summary_brackets_every_score :
  forall (t : string) (rest : list string)
         (file : MainQuiz.ProgressFile) (sid : string),
    let loaded := MainQuiz.load_student_progress (t :: rest) file sid in
    let scores := MainQuiz.confidence_scores (fst loaded) in
    (exists s,
        Summary.get_student_summary (t :: rest) file sid = (Ok s, snd loaded)
        /\ Summary.student_id s = sid
        /\ dict_get scores (Summary.weakest_topic s)
           = Some (Summary.weakest_confidence s)
        /\ dict_get scores (Summary.strongest_topic s)
           = Some (Summary.strongest_confidence s)
        /\ (forall k v, dict_get scores k = Some v ->
                        Summary.weakest_confidence s <= v
                        /\ v <= Summary.strongest_confidence s)
        /\ Summary.total_topics s = Z.of_nat (List.length scores)
        /\ (1 <= Summary.total_topics s)%Z)
    /\ fst (Summary.get_student_summary [] file sid) = Raise ValueError.
Proof.
  intros t rest file sid loaded scores.
  assert (Hne : scores <> []).
  { unfold scores, loaded. intros Hnil.
    destruct (load_leaves_syllabus (t :: rest) file sid) as [_ Hkeys].
    rewrite Hnil in Hkeys. cbn in Hkeys. discriminate. }
  split.
  - destruct (weakest_of_dict scores Hne)
      as (w & ws & _ & _ & Hmin & Hw & Hwmin & _ & _).
    destruct (strongest_of_dict scores Hne) as (g & gs & Hmax & Hg & Hgmax).
    assert (Hlen : (Z.of_nat (List.length scores) =? 0)%Z = false).
    { destruct scores; [ contradiction | ]. apply Z.eqb_neq. cbn [List.length]. lia. }
    exists (Summary.mkSummary sid w ws g gs
              (dict_sum scores / inject_Z (Z.of_nat (List.length scores)))
              (Z.of_nat (List.length scores))).
    split.
    + unfold Summary.get_student_summary. fold loaded.
      rewrite (surjective_pairing loaded). fold scores.
      rewrite Hmin, Hmax. cbn [bind]. unfold truediv_float_int, dict_index.
      rewrite Hlen, Hw, Hg. reflexivity.
    + cbn [Summary.student_id Summary.weakest_topic Summary.weakest_confidence
           Summary.strongest_topic Summary.strongest_confidence
           Summary.total_topics].
      split; [ reflexivity | ]. split; [ exact Hw | ]. split; [ exact Hg | ].
      split; [ intros k v Hk; split; [ exact (Hwmin k v Hk) | exact (Hgmax k v Hk) ] | ].
      split; [ reflexivity | ].
      destruct scores; [ contradiction | ]. cbn [List.length]. lia.
  - unfold Summary.get_student_summary, MainQuiz.load_student_progress.
    destruct file as [ existing | ]; cbn [dict_of_default fold_left].
    + destruct (set_eqb [] (dict_keys (MainQuiz.confidence_scores existing))) eqn:E;
        cbn [negb].
      * assert (Hnil : MainQuiz.confidence_scores existing = []).
        { apply andb_prop in E. destruct E as [_ E].
          destruct (MainQuiz.confidence_scores existing) as [ | [k v] d ];
            [ reflexivity | cbn in E; discriminate ]. }
        rewrite Hnil. reflexivity.
      * reflexivity.
    + reflexivity.
Qed.

(** ** The update of [2.py] *)

Section Script2UpdateFacts.

Lemma count_is_correct_acc (quiz_results : list (string * bool)) :
  forall n : Z,
    (n <= fold_left (fun (n : Z) (res : string * bool) =>
                       if snd res then n + 1 else n) quiz_results n
     <= n + Z.of_nat (List.length quiz_results))%Z.
Proof.
  induction quiz_results as [ | [q b] rs IH ]; intros n; cbn [fold_left List.length snd].
  - lia.
  - destruct b; [ specialize (IH (n + 1)%Z) | specialize (IH n) ]; lia.
Qed.

Lemma count_is_correct_bounds (quiz_results : list (string * bool)) :
  (0 <= Script2Update.count_is_correct quiz_results
   <= Z.of_nat (List.length quiz_results))%Z.
Proof.
  unfold Script2Update.count_is_correct.
  pose proof (count_is_correct_acc quiz_results 0%Z). lia.
Qed.

(** The weighted mean of [2.py] stays in [[0, 1]]. *)
Lemma script2_score_in_unit (s : Q) (c n : Z) :
  0 <= s -> s <= 1 -> (0 <= c <= n)%Z -> (1 <= n)%Z ->
  0 <= (s * inject_Z (n - 1) + inject_Z c / inject_Z n) / inject_Z n
  /\ (s * inject_Z (n - 1) + inject_Z c / inject_Z n) / inject_Z n <= 1.
Proof.
  intros H0 H1 Hc Hn.
  destruct (accuracy_in_unit c n Hc ltac:(lia)) as [Ha0 Ha1].
  assert (Hm : 0 <= inject_Z (n - 1)).
  { change 0 with (inject_Z 0). rewrite <- Zle_Qle. lia. }
  assert (Hpos : 0 < inject_Z n).
  { change 0 with (inject_Z 0). rewrite <- Zlt_Qlt. lia. }
  assert (Hsplit : inject_Z n == inject_Z (n - 1) + 1).
  { unfold Qeq, Qplus, inject_Z. cbn [Qnum Qden]. lia. }
  assert (Hlo : 0 <= s * inject_Z (n - 1)) by (apply Qmult_le_0_compat; assumption).
  assert (Hhi : s * inject_Z (n - 1) <= 1 * inject_Z (n - 1))
    by (apply Qmult_le_compat_r; assumption).
  split.
  - apply Qle_shift_div_l; [ exact Hpos | ]. lra.
  - apply Qle_shift_div_r; [ exact Hpos | ]. lra.
Qed.

End Script2UpdateFacts.

(** X12.  [update_confidence_score] of [2.py]: for a topic that the map
    lacks it raises [KeyError] and saves nothing; for an empty list of
    results it saves and returns the progress as it is; otherwise it stores
    for the topic a score that lies in [[0, 1]] when the current one does,
    leaves every other topic as it is, and saves the result under the
    student's id. *)
Theorem X12_script2_update :
  forall (files : Script2.ProgressFiles) (p : MainQuiz.Progress)
         (topic_name : string) (quiz_results : list (string * bool)),
    (dict_get (MainQuiz.confidence_scores p) topic_name = None ->
     Script2Update.update_confidence_score files p topic_name quiz_results
     = Raise KeyError)
    /\ (forall s : Q,
           dict_get (MainQuiz.confidence_scores p) topic_name = Some s ->
           Script2Update.update_confidence_score files p topic_name []
           = Ok (p, Script2.save_student_progress p files))
    /\ (forall s : Q,
           dict_get (MainQuiz.confidence_scores p) topic_name = Some s ->
           0 <= s -> s <= 1 -> quiz_results <> [] ->
           exists p' s',
             Script2Update.update_confidence_score files p topic_name quiz_results
             = Ok (p', Script2.save_student_progress p' files)
             /\ Script2.save_student_progress p' files (MainQuiz.student_id p)
                = Some p'
             /\ dict_get (MainQuiz.confidence_scores p') topic_name = Some s'
             /\ 0 <= s' /\ s' <= 1
             /\ (forall k, k <> topic_name ->
                           dict_get (MainQuiz.confidence_scores p') k
                           = dict_get (MainQuiz.confidence_scores p) k)).
Proof.
  intros files p topic_name quiz_results.
  split; [ | split ].
  - intros Hnone. unfold Script2Update.update_confidence_score, dict_index.
    rewrite Hnone. reflexivity.
  - intros s Hs. unfold Script2Update.update_confidence_score, dict_index.
    rewrite Hs. reflexivity.
  - intros s Hs H0 H1 Hne.
    pose proof (count_is_correct_bounds quiz_results) as Hc.
    assert (Hn : (1 <= Z.of_nat (List.length quiz_results))%Z).
    { destruct quiz_results; [ contradiction | cbn [List.length]; lia ]. }
    unfold Script2Update.update_confidence_score, dict_index, truediv,
      truediv_float_int.
    rewrite Hs. cbn [bind].
    destruct (0 <? Z.of_nat (List.length quiz_results))%Z eqn:Hpos;
      [ | apply Z.ltb_ge in Hpos; lia ].
    destruct (Z.of_nat (List.length quiz_results) =? 0)%Z eqn:Hz;
      [ apply Z.eqb_eq in Hz; lia | ].
    cbn [bind].
    eexists. eexists. split; [ reflexivity | ].
    cbn [MainQuiz.student_id MainQuiz.confidence_scores].
    split; [ unfold Script2.save_student_progress; cbn [MainQuiz.student_id];
             rewrite String.eqb_refl; reflexivity | ].
    split; [ apply dict_get_set_same | ].
    destruct (script2_score_in_unit s _ _ H0 H1 Hc Hn) as [Hlo Hhi].
    split; [ exact Hlo | ]. split; [ exact Hhi | ].
    intros k Hk. apply dict_get_set_other. congruence.
Qed.

(** Two results, one correct, on a topic at 0.5. *)
Lemma X12_script2_update_witness :
  let p := MainQuiz.mkProgress "user123" [("Linked Lists"%string, 1 # 2)] in
  let rs := [("What is a linked list?"%string, true);
             ("What is a node?"%string, false)] in
  dict_get (MainQuiz.confidence_scores p) "Linked Lists" = Some (1 # 2)
  /\ exists p' s',
      Script2Update.update_confidence_score (fun _ => None) p "Linked Lists" rs
      = Ok (p', Script2.save_student_progress p' (fun _ => None))
      /\ dict_get (MainQuiz.confidence_scores p') "Linked Lists" = Some s'
      /\ 0 <= s' /\ s' <= 1.
Proof.
  intros p rs. split; [ reflexivity | ].
  destruct (proj2 (proj2 (X12_script2_update (fun _ => None) p
                                             "Linked Lists"%string rs))
                  (1 # 2) eq_refl)
    as (p' & s' & Hrun & _ & Hread & Hlo & Hhi & _);
    [ lra | lra | discriminate | ].
  exists p', s'. repeat split; assumption.
Defined.

(** X13.  In [2.py] a quiz of one question overwrites the score: whatever
    the current score of the topic, the stored score is 1 after a correct
    answer and 0 after an incorrect one. *)
Theorem X13_script2_single_question_overwrites :
  forall (files : Script2.ProgressFiles) (p : MainQuiz.Progress)
         (topic_name q : string) (is_correct : bool) (s : Q),
    dict_get (MainQuiz.confidence_scores p) topic_name = Some s ->
    exists p' s',
      Script2Update.update_confidence_score files p topic_name [(q, is_correct)]
      = Ok (p', Script2.save_student_progress p' files)
      /\ dict_get (MainQuiz.confidence_scores p') topic_name = Some s'
      /\ s' == (if is_correct then 1 else 0).
Proof.
  intros files p topic_name q is_correct s Hs.
  unfold Script2Update.update_confidence_score, dict_index, truediv,
    truediv_float_int, Script2Update.count_is_correct.
  rewrite Hs. cbn [bind List.length fold_left snd Z.of_nat Pos.of_succ_nat
                   Z.ltb Z.compare Z.eqb].
  eexists. eexists. split; [ reflexivity | ].
  cbn [MainQuiz.confidence_scores].
  split; [ apply dict_get_set_same | ].
  destruct is_correct; cbn [Z.add Z.sub Z.opp Z.pos_sub]; unfold Qeq;
    cbn [Qnum Qden Qplus Qmult Qdiv Qinv inject_Z]; lia.
Qed.

(** A topic at 0.9 answered wrongly once. *)
Lemma X13_script2_single_question_overwrites_witness :
  let p := MainQuiz.mkProgress "user123" [("Linked Lists"%string, 9 # 10)] in
  dict_get (MainQuiz.confidence_scores p) "Linked Lists" = Some (9 # 10)
  /\ exists p' s',
      Script2Update.update_confidence_score
        (fun _ => None) p "Linked Lists" [("What is a node?"%string, false)]
      = Ok (p', Script2.save_student_progress p' (fun _ => None))
      /\ dict_get (MainQuiz.confidence_scores p') "Linked Lists" = Some s'
      /\ s' == 0.
Proof.
  intros p. split; [ reflexivity | ].
  exact (X13_script2_single_question_overwrites
           (fun _ => None) p "Linked Lists"%string "What is a node?"%string
           false (9 # 10) eq_refl).
Defined.

(** ** The submit handler and the built-in quizzes of [app_hf.py] *)

Section AppHfFacts.

Import Policy.

Lemma true_flags_bound (flags : list bool) :
  (0 <= Z.of_nat (List.length (filter (fun b => b) flags))
   <= Z.of_nat (List.length flags))%Z.
Proof.
  induction flags as [ | b flags IH ]; cbn [filter List.length]; [ lia | ].
  destruct b; cbn [List.length]; lia.
Qed.

Lemma hf_flags_length (quiz : list (Question * string)) :
  List.length (hf_flags quiz) = List.length quiz.
Proof. unfold hf_flags. apply length_map. Qed.

(** The loop keeps the keys of the session's map and the scores of the
    other topics. *)
Lemma submit_loop_frame (current_topic : string) (quiz : list (Question * string)) :
  forall (student_progress : dict) (correct_count : Z) (score : Q),
    dict_get student_progress current_topic = Some score ->
    exists student_progress' correct_count',
      AppHf.submit_loop current_topic quiz student_progress correct_count
      = Ok (student_progress', correct_count')
      /\ dict_keys student_progress' = dict_keys student_progress
      /\ (forall k, k <> current_topic ->
                    dict_get student_progress' k = dict_get student_progress k).
Proof.
  induction quiz as [ | [q selected] quiz IH ];
    intros student_progress correct_count score Hget.
  - exists student_progress, correct_count. cbn [AppHf.submit_loop]. auto.
  - cbn [AppHf.submit_loop]. unfold dict_index. rewrite Hget. cbn [bind].
    assert (Hin : In current_topic (dict_keys student_progress))
      by (exact (dict_get_in_keys _ _ _ Hget)).
    destruct (AppHf.is_correct selected q).
    + destruct (IH (dict_set student_progress current_topic
                             (py_min 1 (score + (1 # 10))))
                   (correct_count + 1)%Z _ (dict_get_set_same _ _ _))
        as (sp' & cc' & Hrun & Hkeys & Hother).
      exists sp', cc'. split; [ exact Hrun | ]. split.
      * rewrite Hkeys. apply dict_keys_set_present. exact Hin.
      * intros k Hk. rewrite (Hother k Hk). apply dict_get_set_other. congruence.
    + destruct (IH (dict_set student_progress current_topic
                             (py_max 0 (score - (1 # 10))))
                   correct_count _ (dict_get_set_same _ _ _))
        as (sp' & cc' & Hrun & Hkeys & Hother).
      exists sp', cc'. split; [ exact Hrun | ]. split.
      * rewrite Hkeys. apply dict_keys_set_present. exact Hin.
      * intros k Hk. rewrite (Hother k Hk). apply dict_get_set_other. congruence.
Qed.

End AppHfFacts.

(** X14.  The submit handler of [app_hf.py] on a topic of the session's
    map: it returns, the count it adds is the number of submissions scored
    correct and lies between 0 and [len(quiz)], the map keeps its keys in
    order, and the scores of the other topics are as before.  On a topic
    that the map lacks, a quiz with a question raises [KeyError]. *)
Theorem X14_submit_handler_frame :
  forall (current_topic : string) (quiz : list (Question * string))
         (student_progress : dict) (correct_count : Z),
    (forall score : Q,
        dict_get student_progress current_topic = Some score ->
        exists student_progress',
          AppHf.submit_loop current_topic quiz student_progress correct_count
          = Ok (student_progress',
                (correct_count
                 + Z.of_nat (List.length
                               (filter (fun b => b) (Policy.hf_flags quiz))))%Z)
          /\ (0 <= Z.of_nat (List.length
                               (filter (fun b => b) (Policy.hf_flags quiz)))
              <= Z.of_nat (List.length quiz))%Z
          /\ dict_keys student_progress' = dict_keys student_progress
          /\ (forall k, k <> current_topic ->
                        dict_get student_progress' k = dict_get student_progress k))
    /\ (dict_get student_progress current_topic = None ->
        quiz <> [] ->
        AppHf.submit_loop current_topic quiz student_progress correct_count
        = Raise KeyError).
Proof.
  intros current_topic quiz student_progress correct_count. split.
  - intros score Hget.
    destruct (submit_loop_score current_topic quiz student_progress
                                correct_count score Hget) as (sp1 & Hrun1 & _).
    destruct (submit_loop_frame current_topic quiz student_progress
                                correct_count score Hget)
      as (sp2 & cc2 & Hrun2 & Hkeys & Hother).
    rewrite Hrun1 in Hrun2. injection Hrun2 as <- _.
    exists sp1. split; [ exact Hrun1 | ].
    split; [ | split; assumption ].
    pose proof (true_flags_bound (Policy.hf_flags quiz)) as Hb.
    rewrite hf_flags_length in Hb. exact Hb.
  - intros Hnone Hne. destruct quiz as [ | [q selected] quiz ]; [ contradiction | ].
    cbn [AppHf.submit_loop]. unfold dict_index. rewrite Hnone. reflexivity.
Qed.

(** A session of two topics, a quiz on the first. *)
Lemma X14_submit_handler_frame_witness :
  let q := mkQuestion "Which bias?" ["A) One"%string; "B) Two"%string] "A" "-" in
  let session := [("Inductive Bias"%string, 1 # 2); ("Find-S Algorithm"%string, 7 # 10)] in
  dict_get session "Inductive Bias" = Some (1 # 2)
  /\ exists student_progress',
      AppHf.submit_loop "Inductive Bias" [(q, "A) One"%string); (q, "B) Two"%string)]
                        session 0
      = Ok (student_progress', 1%Z)
      /\ dict_get student_progress' "Find-S Algorithm" = Some (7 # 10).
Proof.
  intros q session. split; [ reflexivity | ].
  destruct (proj1 (X14_submit_handler_frame
                     "Inductive Bias"%string
                     [(q, "A) One"%string); (q, "B) Two"%string)]
                     session 0%Z) (1 # 2) eq_refl)
    as (sp' & Hrun & _ & _ & Hother).
  exists sp'. split; [ exact Hrun | ].
  rewrite (Hother "Find-S Algorithm"%string); [ reflexivity | discriminate ].
Defined.

(** X15.  [generate_quiz_lightweight] returns, for every topic, one or two
    questions; each has four options, and exactly one of them is scored
    correct by the submit handler of [app_hf.py]. *)
Theorem X15_builtin_quiz_has_one_right_option :
  forall topic_name : string,
    (1 <= List.length (AppHfQuiz.generate_quiz_lightweight topic_name) <= 2)%nat
    /\ Forall (fun q => List.length (options q) = 4%nat
                        /\ List.length (AppHfQuiz.winning_options q) = 1%nat)
              (AppHfQuiz.generate_quiz_lightweight topic_name).
Proof.
  intros topic_name. unfold AppHfQuiz.generate_quiz_lightweight.
  cbn [AppHfQuiz.quiz_bank AppHfQuiz.bank_get].
  destruct (String.eqb "Well-Posed Learning Problems" topic_name).
  - split; [ cbn; lia | ]. repeat constructor.
  - destruct (String.eqb "Find-S Algorithm" topic_name).
    + split; [ cbn; lia | ]. repeat constructor.
    + split; [ cbn; lia | ]. repeat constructor.
Qed.

(** ** The text between the brackets *)

Section QuizTextFacts.

Import QuizText.

Local Open Scope string_scope.

Lemma occurs_empty (c : ascii) : ~ occurs c EmptyString.
Proof. intros (pre & post & H). destruct pre; discriminate. Qed.

Lemma occurs_cons (c a : ascii) (s : string) :
  occurs c (String a s) <-> a = c \/ occurs c s.
Proof.
  split.
  - intros (pre & post & H). destruct pre as [ | b pre ]; cbn [append] in H.
    + injection H as -> _. left. reflexivity.
    + injection H as _ ->. right. exists pre, post. reflexivity.
  - intros [ -> | (pre & post & ->) ].
    + exists EmptyString, s. reflexivity.
    + exists (String a pre), post. reflexivity.
Qed.

Lemma occurs_append_l (c : ascii) (s t : string) :
  occurs c s -> occurs c (s ++ t).
Proof.
  induction s as [ | a s IH ]; intros H.
  - destruct (occurs_empty c H).
  - cbn [append]. apply occurs_cons. apply occurs_cons in H.
    destruct H as [ H | H ]; [ left; exact H | right; apply IH; exact H ].
Qed.

(** [find]: either the character is absent and the answer is -1, or the
    answer is the length of the part before its first occurrence. *)
Lemma find_from_spec (c : ascii) (s : string) :
  forall i : Z,
    (0 <= i)%Z ->
    (find_from c s i = (-1)%Z /\ ~ occurs c s)
    \/ (exists pre post,
           s = pre ++ String c post /\ ~ occurs c pre
           /\ find_from c s i = (i + Z.of_nat (String.length pre))%Z).
Proof.
  induction s as [ | a s IH ]; intros i Hi; cbn [find_from].
  - left. split; [ reflexivity | apply occurs_empty ].
  - destruct (Ascii.eqb_spec a c) as [ -> | Hne ].
    + right. exists EmptyString, s. cbn [append String.length].
      split; [ reflexivity | ]. split; [ apply occurs_empty | lia ].
    + destruct (IH (i + 1)%Z ltac:(lia))
        as [ [Hnone Hno] | (pre & post & -> & Hno & Hidx) ].
      * left. split; [ exact Hnone | ].
        intros H. apply occurs_cons in H. tauto.
      * right. exists (String a pre), post. cbn [append String.length].
        split; [ reflexivity | ]. split.
        -- intros H. apply occurs_cons in H. tauto.
        -- rewrite Hidx. lia.
Qed.

(** [rfind]: either the character is absent and the answer is -1, or the
    answer is the length of the part before its last occurrence. *)
Lemma rfind_from_spec (c : ascii) (s : string) :
  forall i : Z,
    (0 <= i)%Z ->
    (rfind_from c s i = (-1)%Z /\ ~ occurs c s)
    \/ (exists pre post,
           s = pre ++ String c post /\ ~ occurs c post
           /\ rfind_from c s i = (i + Z.of_nat (String.length pre))%Z).
Proof.
  induction s as [ | a s IH ]; intros i Hi; cbn [rfind_from].
  - left. split; [ reflexivity | apply occurs_empty ].
  - destruct (IH (i + 1)%Z ltac:(lia))
      as [ [Hnone Hno] | (pre & post & -> & Hno & Hidx) ].
    + rewrite Hnone. cbn [Z.eqb Pos.eqb].
      destruct (Ascii.eqb_spec a c) as [ -> | Hne ].
      * right. exists EmptyString, s. cbn [append String.length].
        split; [ reflexivity | ]. split; [ exact Hno | lia ].
      * left. split; [ reflexivity | ].
        intros H. apply occurs_cons in H. tauto.
    + rewrite Hidx.
      destruct (i + 1 + Z.of_nat (String.length pre) =? -1)%Z eqn:E;
        [ apply Z.eqb_eq in E; lia | ].
      right. exists (String a pre), post. cbn [append String.length].
      split; [ reflexivity | ]. split; [ exact Hno | lia ].
Qed.

Lemma length_append (s t : string) :
  String.length (s ++ t) = (String.length s + String.length t)%nat.
Proof.
  induction s as [ | a s IH ]; cbn [append String.length]; [ reflexivity | ].
  rewrite IH. reflexivity.
Qed.

Lemma substring_prefix (m post : string) :
  substring 0 (String.length m) (m ++ post) = m.
Proof.
  induction m as [ | a m IH ]; cbn [append String.length substring].
  - destruct post; reflexivity.
  - rewrite IH. reflexivity.
Qed.

Lemma substring_middle (pre m post : string) :
  substring (String.length pre) (String.length m) (pre ++ m ++ post) = m.
Proof.
  induction pre as [ | a pre IH ]; cbn [append String.length substring].
  - apply substring_prefix.
  - exact IH.
Qed.

(** Two splits of one string, the first at an earlier place: the second
    front part continues the first. *)
Lemma split_earlier (pre1 : string) :
  forall (pre2 post1 post2 : string) (c1 c2 : ascii),
    pre1 ++ String c1 post1 = pre2 ++ String c2 post2 ->
    (String.length pre1 < String.length pre2)%nat ->
    exists mid, pre2 = pre1 ++ String c1 mid /\ post1 = mid ++ String c2 post2.
Proof.
  induction pre1 as [ | a pre1 IH ]; intros pre2 post1 post2 c1 c2 Heq Hlen.
  - destruct pre2 as [ | b pre2 ]; cbn [String.length] in Hlen; [ lia | ].
    cbn [append] in Heq. injection Heq as -> ->.
    exists pre2. split; reflexivity.
  - destruct pre2 as [ | b pre2 ]; cbn [String.length] in Hlen; [ lia | ].
    cbn [append] in Heq. injection Heq as -> Heq.
    destruct (IH pre2 post1 post2 c1 c2 Heq ltac:(lia)) as (mid & -> & ->).
    exists mid. split; reflexivity.
Qed.

Lemma split_same_place (pre1 : string) :
  forall (pre2 post1 post2 : string) (c1 c2 : ascii),
    pre1 ++ String c1 post1 = pre2 ++ String c2 post2 ->
    String.length pre1 = String.length pre2 -> c1 = c2.
Proof.
  induction pre1 as [ | a pre1 IH ]; intros pre2 post1 post2 c1 c2 Heq Hlen;
    destruct pre2 as [ | b pre2 ]; cbn [String.length] in Hlen; try lia;
    cbn [append] in Heq.
  - injection Heq as -> _. reflexivity.
  - injection Heq as _ Heq. apply (IH pre2 post1 post2 c1 c2 Heq). lia.
Qed.

Lemma slice_bound_inside (len i : Z) :
  (0 <= i <= len)%Z -> slice_bound len i = i.
Proof.
  intros Hi. unfold slice_bound.
  destruct (i <? 0)%Z eqn:E; [ apply Z.ltb_lt in E; lia | lia ].
Qed.

End QuizTextFacts.

(** X16.  The text that [generate_quiz] hands to [json.loads].  The
    function gives up before parsing exactly when the answer of the model
    lacks an opening or a closing square bracket.  Otherwise the text runs
    from the first opening bracket to the last closing bracket of the
    answer, both included, when the first comes before the second; and it
    is empty when the last closing bracket comes before the first opening
    one. *)
Theorem X16_json_text_between_brackets :
  forall raw_response : string,
    (QuizText.json_string raw_response = None
     <-> ~ QuizText.occurs "["%char raw_response
         \/ ~ QuizText.occurs "]"%char raw_response)
    /\ (forall js : string,
           QuizText.json_string raw_response = Some js ->
           (exists pre mid post,
               raw_response
               = (pre ++ String "["%char (mid ++ String "]"%char post))%string
               /\ js = String "["%char (mid ++ String "]"%char EmptyString)
               /\ ~ QuizText.occurs "["%char pre
               /\ ~ QuizText.occurs "]"%char post)
           \/ (js = EmptyString
               /\ exists pre mid post,
                   raw_response
                   = (pre ++ String "]"%char (mid ++ String "["%char post))%string
                   /\ ~ QuizText.occurs "["%char (pre ++ String "]"%char mid)
                   /\ ~ QuizText.occurs "]"%char (mid ++ String "["%char post))).
Proof.
  intros raw. unfold QuizText.json_string, QuizText.str_find, QuizText.str_rfind.
  destruct (find_from_spec "["%char raw 0%Z ltac:(lia))
    as [ [Hf Hnof] | (pre1 & post1 & Hraw1 & Hno1 & Hf) ];
    destruct (rfind_from_spec "]"%char raw 0%Z ltac:(lia))
      as [ [Hr Hnor] | (pre2 & post2 & Hraw2 & Hno2 & Hr) ];
    try rewrite Z.add_0_l in Hf; try rewrite Z.add_0_l in Hr;
    rewrite Hf, Hr.
  - split; [ split; auto | intros js H; discriminate ].
  - cbn [Z.eqb Pos.eqb orb]. split; [ split; auto | intros js H; discriminate ].
  - cbn [Z.add Z.eqb Z.pos_sub].
    rewrite orb_true_r. split; [ split; auto | intros js H; discriminate ].
  - assert (E1 : (Z.of_nat (String.length pre1) =? -1)%Z = false)
      by (apply Z.eqb_neq; lia).
    assert (E2 : (Z.of_nat (String.length pre2) + 1 =? 0)%Z = false)
      by (apply Z.eqb_neq; lia).
    rewrite E1, E2. cbn [orb].
    assert (Hocc1 : QuizText.occurs "["%char raw) by (exists pre1, post1; exact Hraw1).
    assert (Hocc2 : QuizText.occurs "]"%char raw) by (exists pre2, post2; exact Hraw2).
    split; [ split; [ discriminate | intros [ H | H ]; contradiction ] | ].
    intros js Hjs. injection Hjs as <-.
    assert (Hlen1 : String.length raw
                    = (String.length pre1 + S (String.length post1))%nat)
      by (rewrite Hraw1, length_append; reflexivity).
    assert (Hlen2 : String.length raw
                    = (String.length pre2 + S (String.length post2))%nat)
      by (rewrite Hraw2, length_append; reflexivity).
    unfold QuizText.py_slice.
    rewrite !slice_bound_inside by lia.
    destruct (Nat.lt_trichotomy (String.length pre1) (String.length pre2))
      as [ Hlt | [ Heq | Hgt ] ].
    + left.
      destruct (split_earlier pre1 pre2 post1 post2 "["%char "]"%char
                              ltac:(rewrite <- Hraw1; exact Hraw2) Hlt)
        as (mid & Hpre2 & Hpost1).
      exists pre1, mid, post2.
      split; [ rewrite Hraw1, Hpost1; reflexivity | ].
      split; [ | split; assumption ].
      destruct (Z.of_nat (String.length pre1)
                <? Z.of_nat (String.length pre2) + 1)%Z eqn:E;
        [ | apply Z.ltb_ge in E; lia ].
      replace (Z.to_nat (Z.of_nat (String.length pre1)))
        with (String.length pre1) by lia.
      replace (Z.to_nat (Z.of_nat (String.length pre2) + 1
                         - Z.of_nat (String.length pre1)))
        with (String.length (String "["%char (mid ++ String "]"%char EmptyString)%string)).
      * rewrite Hraw1, Hpost1.
        change (String "["%char (mid ++ String "]"%char post2)%string)
          with (String "["%char (mid ++ String "]"%char (EmptyString ++ post2))%string).
        replace (String "["%char (mid ++ String "]"%char (EmptyString ++ post2))%string)
          with (String "["%char (mid ++ String "]"%char EmptyString) ++ post2)%string.
        -- apply substring_middle.
        -- cbn [append]. f_equal.
           clear. induction mid as [ | a mid IH ]; cbn [append];
             [ reflexivity | rewrite IH; reflexivity ].
      * rewrite Hpre2. cbn [String.length].
        rewrite !length_append. cbn [String.length]. lia.
    + exfalso.
      pose proof (split_same_place pre1 pre2 post1 post2 "["%char "]"%char
                                   ltac:(rewrite <- Hraw1; exact Hraw2) Heq).
      discriminate.
    + right.
      destruct (Z.of_nat (String.length pre1)
                <? Z.of_nat (String.length pre2) + 1)%Z eqn:E;
        [ apply Z.ltb_lt in E; lia | ].
      split; [ reflexivity | ].
      destruct (split_earlier pre2 pre1 post2 post1 "]"%char "["%char
                              ltac:(rewrite <- Hraw2; exact Hraw1) Hgt)
        as (mid & Hpre1 & Hpost2).
      exists pre2, mid, post1.
      split; [ rewrite Hraw2, Hpost2; reflexivity | ].
      split; [ rewrite <- Hpre1; exact Hno1 | rewrite <- Hpost2; exact Hno2 ].
Qed.

(** ** The subject view and the cascade of a deleted topic *)

Section ContentFacts.

Import ProgressService Ledger Content.

Lemma in_subject_view_iff (student subject : Z)
      (sp : StudentProgress) (t : Topic) (m : ModuleRow) :
  in_subject_view student subject sp t m = true
  <-> topic_id sp = id t /\ module_id t = m_id m
      /\ student_id sp = student /\ m_subject_id m = subject.
Proof.
  unfold in_subject_view. rewrite !andb_true_iff, !Z.eqb_eq. tauto.
Qed.

Lemma view_entry (school : School) (student subject : Z)
      (sp : StudentProgress) (nm : string) :
  In (sp, nm) (get_student_subject_progress school student subject)
  <-> In sp (student_progress (progress_db school))
      /\ exists t m,
          In t (topics school) /\ In m (modules school)
          /\ in_subject_view student subject sp t m = true /\ nm = name t.
Proof.
  unfold get_student_subject_progress. rewrite in_flat_map. split.
  - intros (sp0 & Hsp & Hin). apply in_flat_map in Hin.
    destruct Hin as (t & Ht & Hin). apply in_flat_map in Hin.
    destruct Hin as (m & Hm & Hin).
    destruct (in_subject_view student subject sp0 t m) eqn:E; [ | destruct Hin ].
    destruct Hin as [ Heq | [] ]. injection Heq as Hs Hn. subst sp0 nm.
    split; [ exact Hsp | ]. exists t, m. auto.
  - intros (Hsp & t & m & Ht & Hm & E & ->).
    exists sp. split; [ exact Hsp | ].
    apply in_flat_map. exists t. split; [ exact Ht | ].
    apply in_flat_map. exists m. split; [ exact Hm | ].
    rewrite E. left. reflexivity.
Qed.

Lemma sum_scores_bounds (l : list Q) :
  Forall (fun v => 0 <= v /\ v <= 1) l ->
  forall acc : Q,
    acc <= fold_left Qplus l acc
    /\ fold_left Qplus l acc <= acc + inject_Z (Z.of_nat (List.length l)).
Proof.
  induction 1 as [ | v l [Hv0 Hv1] _ IH ]; intros acc; cbn [fold_left List.length].
  - change (inject_Z (Z.of_nat 0)) with 0. split; lra.
  - destruct (IH (acc + v)) as [Hlo Hhi].
    rewrite Nat2Z.inj_succ. unfold Z.succ. rewrite inject_Z_plus.
    change (inject_Z 1) with 1. split; lra.
Qed.

Lemma scores_ok_update (db db' : EducationDB) (now sid tid correct total : Z) :
  scores_ok db ->
  update_student_progress db now sid tid correct total = Ok db' ->
  scores_ok db'.
Proof.
  unfold scores_ok. intros Hok Hup. unfold update_student_progress in Hup.
  destruct (get_student_progress db sid tid) as [ r | ] eqn:Hget.
  - unfold updated_fields in Hup. rewrite guarded_accuracy_value in Hup.
    cbn [bind] in Hup. injection Hup as <-. cbn [student_progress].
    apply Forall_forall. intros x Hx. unfold sql_update in Hx.
    apply in_map_iff in Hx. destruct Hx as (y & <- & Hy).
    destruct (row_matches sid tid y).
    + cbn [confidence_score]. apply py_clamp_bounds.
    + exact (proj1 (Forall_forall _ _) Hok y Hy).
  - unfold created_confidence in Hup. rewrite guarded_accuracy_value in Hup.
    cbn [bind] in Hup. injection Hup as <-. cbn [student_progress].
    unfold sql_insert. apply Forall_app. split; [ exact Hok | ].
    constructor; [ | constructor ]. cbn [confidence_score]. apply py_clamp_bounds.
Qed.

Lemma find_filter_kept {A : Type} (f g : A -> bool) (l : list A) :
  (forall x, f x = true -> g x = true) ->
  find f (filter g l) = find f l.
Proof.
  intros Himp. induction l as [ | a l IH ]; [ reflexivity | ].
  cbn [filter find]. destruct (g a) eqn:Hg; cbn [find].
  - destruct (f a); [ reflexivity | exact IH ].
  - destruct (f a) eqn:Hf; [ rewrite (Himp a Hf) in Hg; discriminate | exact IH ].
Qed.

Lemma find_filter_dropped {A : Type} (f g : A -> bool) (l : list A) :
  (forall x, f x = true -> g x = false) ->
  find f (filter g l) = None.
Proof.
  intros Himp. induction l as [ | a l IH ]; [ reflexivity | ].
  cbn [filter]. destruct (g a) eqn:Hg; [ | exact IH ].
  cbn [find]. destruct (f a) eqn:Hf; [ rewrite (Himp a Hf) in Hg; discriminate | exact IH ].
Qed.

Lemma filter_filter_kept {A : Type} (f g : A -> bool) (l : list A) :
  (forall x, f x = true -> g x = true) ->
  filter f (filter g l) = filter f l.
Proof.
  intros Himp. induction l as [ | a l IH ]; [ reflexivity | ].
  cbn [filter]. destruct (g a) eqn:Hg; cbn [filter].
  - destruct (f a); [ rewrite IH; reflexivity | exact IH ].
  - destruct (f a) eqn:Hf; [ rewrite (Himp a Hf) in Hg; discriminate | exact IH ].
Qed.

Lemma filter_filter_dropped {A : Type} (f g : A -> bool) (l : list A) :
  (forall x, f x = true -> g x = false) ->
  filter f (filter g l) = [].
Proof.
  intros Himp. induction l as [ | a l IH ]; [ reflexivity | ].
  cbn [filter]. destruct (g a) eqn:Hg; [ | exact IH ].
  cbn [filter]. destruct (f a) eqn:Hf; [ rewrite (Himp a Hf) in Hg; discriminate | exact IH ].
Qed.

End ContentFacts.

(** X17.  The subject view of [get_student_subject_progress] lists only
    stored records of the student asked for, each on a topic of a module of
    the subject and under that topic's name; and after
    [update_student_progress] on a topic of the subject the view holds the
    record just stored. *)
Theorem X17_subject_view_shows_own_records :
  forall (school : Content.School) (student subject : Z),
    (forall (sp : ProgressService.StudentProgress) (nm : string),
        In (sp, nm) (Content.get_student_subject_progress school student subject) ->
        In sp (ProgressService.student_progress (Content.progress_db school))
        /\ ProgressService.student_id sp = student
        /\ exists t m,
            In t (Content.topics school) /\ In m (Content.modules school)
            /\ Content.id t = ProgressService.topic_id sp
            /\ Content.module_id t = Content.m_id m
            /\ Content.m_subject_id m = subject
            /\ nm = Content.name t)
    /\ (forall (now correct total : Z) (t : Content.Topic) (m : Content.ModuleRow),
           In t (Content.topics school) -> In m (Content.modules school) ->
           Content.module_id t = Content.m_id m ->
           Content.m_subject_id m = subject ->
           exists db' r',
             ProgressService.update_student_progress
               (Content.progress_db school) now student (Content.id t) correct total
             = Ok db'
             /\ ProgressService.get_student_progress db' student (Content.id t)
                = Some r'
             /\ In (r', Content.name t)
                   (Content.get_student_subject_progress
                      (Content.mkSchool db' (Content.topics school)
                                        (Content.modules school))
                      student subject)).
Proof.
  intros school student subject. split.
  - intros sp nm Hin. apply view_entry in Hin.
    destruct Hin as (Hsp & t & m & Ht & Hm & E & ->).
    apply in_subject_view_iff in E. destruct E as (E1 & E2 & E3 & E4).
    split; [ exact Hsp | ]. split; [ exact E3 | ].
    exists t, m. repeat split; auto.
  - intros now correct total t m Ht Hm Hmod Hsub.
    destruct (update_returns (Content.progress_db school) now student
                             (Content.id t) correct total) as (db' & Hup).
    assert (Hread : exists r',
               ProgressService.get_student_progress db' student (Content.id t)
               = Some r').
    { destruct (ProgressService.get_student_progress
                  (Content.progress_db school) student (Content.id t))
        as [ r | ] eqn:Hget.
      - destruct (update_existing _ now student (Content.id t) correct total r Hget)
          as (d & Hd & _ & Hr). rewrite Hd in Hup. injection Hup as <-. eauto.
      - destruct (update_created _ now student (Content.id t) correct total Hget)
          as (d & Hd & _ & Hr). rewrite Hd in Hup. injection Hup as <-. eauto. }
    destruct Hread as (r' & Hr').
    exists db', r'. split; [ exact Hup | ]. split; [ exact Hr' | ].
    destruct (get_matches _ _ _ _ Hr') as (Hin & Hs & Hk).
    apply view_entry. cbn [Content.progress_db Content.topics Content.modules].
    split; [ exact Hin | ]. exists t, m.
    split; [ exact Ht | ]. split; [ exact Hm | ]. split; [ | reflexivity ].
    apply in_subject_view_iff. auto.
Qed.

(** A first quiz on topic 3 of module 2 of subject 1. *)
Lemma X17_subject_view_shows_own_records_witness :
  let t := Content.mkTopic 3 2 "Find-S Algorithm" "-" 1 in
  let m := Content.mkModuleRow 2 1 "MODULE-1" "-" 1 in
  let school := Content.mkSchool ProgressService.empty_db [t] [m] in
  In t (Content.topics school) /\ In m (Content.modules school)
  /\ exists db' r',
      ProgressService.update_student_progress ProgressService.empty_db 1 7 3 2 3
      = Ok db'
      /\ In (r', "Find-S Algorithm"%string)
            (Content.get_student_subject_progress
               (Content.mkSchool db' [t] [m]) 7 1).
Proof.
  intros t m school.
  assert (Ht : In t (Content.topics school)) by (left; reflexivity).
  assert (Hm : In m (Content.modules school)) by (left; reflexivity).
  split; [ exact Ht | ]. split; [ exact Hm | ].
  destruct (proj2 (X17_subject_view_shows_own_records school 7%Z 1%Z)
                  1%Z 2%Z 3%Z t m Ht Hm eq_refl eq_refl)
    as (db' & r' & Hup & _ & Hin).
  exists db', r'. split; [ exact Hup | exact Hin ].
Defined.

(** X18.  The average confidence of the progress summary lies in [[0, 1]]:
    stored scores lie in [[0, 1]] in the empty table and after every
    [update_student_progress], and for a subject view with entries the
    summary divides their sum by their number without error; for a view
    without entries the summary is not computed. *)
Theorem X18_average_confidence_in_unit :
  Content.scores_ok ProgressService.empty_db
  /\ (forall (db db' : ProgressService.EducationDB) (now sid tid correct total : Z),
         Content.scores_ok db ->
         ProgressService.update_student_progress db now sid tid correct total
         = Ok db' ->
         Content.scores_ok db')
  /\ (forall (school : Content.School) (student subject : Z),
         Content.scores_ok (Content.progress_db school) ->
         match Content.progress_summary
                 (Content.get_student_subject_progress school student subject)
         with
         | None => Content.get_student_subject_progress school student subject = []
         | Some (avg, n) =>
             n = Z.of_nat (List.length
                             (Content.get_student_subject_progress
                                school student subject))
             /\ (1 <= n)%Z
             /\ exists a, avg = Ok a /\ 0 <= a /\ a <= 1
         end).
Proof.
  split; [ constructor | ]. split; [ exact scores_ok_update | ].
  intros school student subject Hok.
  set (view := Content.get_student_subject_progress school student subject).
  assert (Hall : Forall (fun v => 0 <= v /\ v <= 1)
                        (map (fun p => ProgressService.confidence_score (fst p)) view)).
  { apply Forall_forall. intros v Hv. apply in_map_iff in Hv.
    destruct Hv as ([sp nm] & <- & Hin). cbn [fst].
    apply view_entry in Hin. destruct Hin as (Hsp & _).
    exact (proj1 (Forall_forall _ _) Hok sp Hsp). }
  destruct view as [ | e view' ] eqn:Hview; cbn [Content.progress_summary];
    [ reflexivity | ].
  split; [ reflexivity | ].
  assert (Hn : (1 <= Z.of_nat (List.length (e :: view')))%Z)
    by (cbn [List.length]; lia).
  split; [ exact Hn | ].
  unfold truediv_float_int.
  destruct (Z.of_nat (List.length (e :: view')) =? 0)%Z eqn:E;
    [ apply Z.eqb_eq in E; lia | ].
  eexists. split; [ reflexivity | ].
  destruct (sum_scores_bounds _ Hall 0) as [Hlo Hhi].
  rewrite length_map in Hhi.
  assert (Hpos : 0 < inject_Z (Z.of_nat (List.length (e :: view')))).
  { change 0 with (inject_Z 0). rewrite <- Zlt_Qlt. lia. }
  split.
  - apply Qle_shift_div_l; [ exact Hpos | lra ].
  - apply Qle_shift_div_r; [ exact Hpos | lra ].
Qed.

(** The summary of one record at 0.7. *)
Lemma X18_average_confidence_in_unit_witness :
  let r := ProgressService.mkStudentProgress 7 3 (7 # 10) 1 (Some 0%Z) 3 2 in
  let t := Content.mkTopic 3 2 "Find-S Algorithm" "-" 1 in
  let m := Content.mkModuleRow 2 1 "MODULE-1" "-" 1 in
  let school := Content.mkSchool (ProgressService.mkDB [r] []) [t] [m] in
  Content.scores_ok (Content.progress_db school)
  /\ exists avg n,
      Content.progress_summary (Content.get_student_subject_progress school 7 1)
      = Some (avg, n)
      /\ exists a, avg = Ok a /\ 0 <= a /\ a <= 1.
Proof.
  intros r t m school.
  assert (Hok : Content.scores_ok (Content.progress_db school)).
  { repeat constructor; cbn; lra. }
  split; [ exact Hok | ].
  pose proof (proj2 (proj2 X18_average_confidence_in_unit) school 7%Z 1%Z Hok) as H.
  destruct (Content.progress_summary
              (Content.get_student_subject_progress school 7 1))
    as [ [avg n] | ] eqn:E.
  - exists avg, n. split; [ reflexivity | ]. exact (proj2 (proj2 H)).
  - vm_compute in H. discriminate.
Defined.



(** ** A whole quiz and the select box *)

Section QuizLoopFacts.

Import MainQuiz.

Lemma quiz_loop_frame (topic_name : string) (outcome : list bool) :
  forall (file : ProgressFile) (p : Progress),
    In topic_name (dict_keys (confidence_scores p)) ->
    dict_keys (confidence_scores (fst (quiz_loop file p topic_name outcome)))
    = dict_keys (confidence_scores p)
    /\ (forall k, k <> topic_name ->
                  dict_get (confidence_scores
                              (fst (quiz_loop file p topic_name outcome))) k
                  = dict_get (confidence_scores p) k)
    /\ (outcome <> [] ->
        snd (quiz_loop file p topic_name outcome)
        = Some (fst (quiz_loop file p topic_name outcome))).
Proof.
  induction outcome as [ | b outcome IH ]; intros file p Hin.
  - cbn [quiz_loop fst snd]. split; [ reflexivity | ].
    split; [ reflexivity | intros H; contradiction ].
  - cbn [quiz_loop]. unfold update_confidence_score.
    set (p1 := mkProgress (student_id p)
                          (dict_set (confidence_scores p) topic_name
                                    (stepped_score
                                       (dict_get_default (confidence_scores p)
                                                         topic_name (1 # 2)) b))).
    assert (Hkeys1 : dict_keys (confidence_scores p1) = dict_keys (confidence_scores p))
      by (apply dict_keys_set_present; exact Hin).
    destruct (IH (save_student_progress p1 file) p1) as (Hkeys & Hother & Hfile).
    { rewrite Hkeys1. exact Hin. }
    split; [ rewrite Hkeys; exact Hkeys1 | ]. split.
    + intros k Hk. rewrite (Hother k Hk). unfold p1. cbn [confidence_scores].
      apply dict_get_set_other. congruence.
    + intros _. destruct outcome as [ | b' outcome ].
      * reflexivity.
      * apply Hfile. discriminate.
Qed.

Lemma index_from_found (x : string) (xs : list string) :
  In x xs ->
  forall i : Z,
  exists n : nat,
    App.index_from x xs i = Ok (i + Z.of_nat n)%Z
    /\ nth_error xs n = Some x
    /\ (n < List.length xs)%nat.
Proof.
  induction xs as [ | y ys IH ]; intros Hin i; [ destruct Hin | ].
  cbn [App.index_from].
  destruct (String.eqb_spec y x) as [ -> | Hne ].
  - exists 0%nat. cbn [nth_error List.length]. repeat split; [ f_equal; lia | lia ].
  - destruct Hin as [ Heq | Hin ]; [ contradiction | ].
    destruct (IH Hin (i + 1)%Z) as (n & Hrun & Hnth & Hlen).
    exists (S n). cbn [nth_error List.length].
    split; [ rewrite Hrun; f_equal; lia | ]. split; [ exact Hnth | lia ].
Qed.

End QuizLoopFacts.

(** X20.  A whole quiz in the loop of [main]: when the progress holds the
    topics of the syllabus and the topic of the quiz is one of them, then
    after the answers of a quiz with a question the file holds the progress
    that the loop returns, the next [load_student_progress] returns it, the
    keys are in their order and the scores of the other topics are as
    before. *)
Theorem X20_quiz_is_saved_and_reloaded :
  forall (topics : list string) (file : MainQuiz.ProgressFile)
         (p : MainQuiz.Progress) (topic_name sid : string) (outcome : list bool),
    (forall k, In k topics <-> In k (dict_keys (MainQuiz.confidence_scores p))) ->
    In topic_name topics ->
    outcome <> [] ->
    let done := MainQuiz.quiz_loop file p topic_name outcome in
    snd done = Some (fst done)
    /\ MainQuiz.load_student_progress topics (snd done) sid = done
    /\ dict_keys (MainQuiz.confidence_scores (fst done))
       = dict_keys (MainQuiz.confidence_scores p)
    /\ (forall k, k <> topic_name ->
                  dict_get (MainQuiz.confidence_scores (fst done)) k
                  = dict_get (MainQuiz.confidence_scores p) k).
Proof.
  intros topics file p topic_name sid outcome Hsame Hin Hne done.
  destruct (quiz_loop_frame topic_name outcome file p (proj1 (Hsame _) Hin))
    as (Hkeys & Hother & Hfile).
  fold done in Hkeys, Hother, Hfile.
  specialize (Hfile Hne).
  split; [ exact Hfile | ]. split; [ | split; assumption ].
  rewrite Hfile.
  rewrite (load_same_topics topics (fst done) sid).
  - rewrite <- Hfile. symmetry. apply surjective_pairing.
  - rewrite Hkeys. exact Hsame.
Qed.

(** Three answers on "Find-S Algorithm" in a fresh progress. *)
Lemma X20_quiz_is_saved_and_reloaded_witness :
  let p := MainQuiz.mkProgress "user123" (dict_of_default MainQuiz.SYLLABUS_TOPICS) in
  let done := MainQuiz.quiz_loop None p "Find-S Algorithm" [true; false; true] in
  In "Find-S Algorithm"%string MainQuiz.SYLLABUS_TOPICS
  /\ [true; false; true] <> []
  /\ MainQuiz.load_student_progress MainQuiz.SYLLABUS_TOPICS (snd done) "user123"
     = done.
Proof.
  intros p done.
  assert (Hin : In "Find-S Algorithm"%string MainQuiz.SYLLABUS_TOPICS).
  { apply existsb_eqb_in. reflexivity. }
  assert (Hne : [true; false; true] <> []) by discriminate.
  split; [ exact Hin | ]. split; [ exact Hne | ].
  refine (proj1 (proj2 (X20_quiz_is_saved_and_reloaded
                          MainQuiz.SYLLABUS_TOPICS None p
                          "Find-S Algorithm"%string "user123"%string
                          [true; false; true] _ Hin Hne))).
  intros k. symmetry. apply dict_of_default_keys.
Defined.

(** X21.  The select box of [app.py] opens on the recommended topic: for a
    confidence map that has entries, [index] finds the weakest topic among
    the keys, so it raises nothing and the position it returns holds that
    topic; for a map without entries the selection raises [ValueError]. *)
Theorem X21_select_box_opens_on_weakest :
  forall p : MainQuiz.Progress,
    (MainQuiz.confidence_scores p <> [] ->
     exists (t : string) (n : nat),
       App.default_selection p = Ok (t, Z.of_nat n)
       /\ MainQuiz.get_next_quiz_topic p = Ok t
       /\ nth_error (dict_keys (MainQuiz.confidence_scores p)) n = Some t
       /\ (n < List.length (dict_keys (MainQuiz.confidence_scores p)))%nat)
    /\ (MainQuiz.confidence_scores p = [] ->
        App.default_selection p = Raise ValueError).
Proof.
  intros p. split.
  - intros Hne.
    destruct (weakest_of_dict (MainQuiz.confidence_scores p) Hne)
      as (t & s & _ & _ & Hrun & Hget & _).
    destruct (index_from_found t (dict_keys (MainQuiz.confidence_scores p))
                               (dict_get_in_keys _ _ _ Hget) 0%Z)
      as (n & Hidx & Hnth & Hlen).
    exists t, n. unfold App.default_selection, MainQuiz.get_next_quiz_topic.
    rewrite Hrun. cbn [bind]. rewrite Hidx. cbn [bind].
    repeat split; assumption.
  - intros Hnil. unfold App.default_selection, MainQuiz.get_next_quiz_topic.
    rewrite Hnil. reflexivity.
Qed.

(** The weakest of three topics is the second key. *)
Lemma X21_select_box_opens_on_weakest_witness :
  let p := MainQuiz.mkProgress "user123"
             [ ("Find-S Algorithm"%string, 5 # 10);
               ("Inductive Bias"%string, 3 # 10);
               ("FOIL Algorithm"%string, 3 # 10) ] in
  MainQuiz.confidence_scores p <> []
  /\ App.default_selection p = Ok ("Inductive Bias"%string, 1%Z)
  /\ exists (t : string) (n : nat),
      App.default_selection p = Ok (t, Z.of_nat n)
      /\ nth_error (dict_keys (MainQuiz.confidence_scores p)) n = Some t.
Proof.
  intros p.
  assert (Hne : MainQuiz.confidence_scores p <> []) by discriminate.
  split; [ exact Hne | ]. split; [ reflexivity | ].
  destruct (proj1 (X21_select_box_opens_on_weakest p) Hne)
    as (t & n & Hsel & _ & Hnth & _).
  exists t, n. split; assumption.
Defined.

(** ** Deleting a module, and the references between the tables *)

Section CascadeFacts.

Import ProgressService Ledger Content Cascade.

Lemma filter_filter_and {A : Type} (f g : A -> bool) (l : list A) :
  filter f (filter g l) = filter (fun x => g x && f x) l.
Proof.
  induction l as [ | a l IH ]; [ reflexivity | ].
  cbn [filter]. destruct (g a); cbn [filter andb].
  - destruct (f a); [ rewrite IH; reflexivity | exact IH ].
  - exact IH.
Qed.

(** The loop of [delete_module] removes the rows of the listed topics. *)
Lemma fold_drop_topic (topic_ids : list Z) (db : EducationDB) :
  fold_left drop_topic topic_ids db
  = mkDB (filter (fun r => negb (listed topic_ids (topic_id r)))
                 (student_progress db))
         (filter (fun e => negb (listed topic_ids (h_topic_id e)))
                 (quiz_history db)).
Proof.
  revert db. induction topic_ids as [ | a ids IH ]; intros db.
  - cbn [fold_left]. unfold listed. cbn [existsb negb].
    destruct db as [sp qh]. cbn [student_progress quiz_history].
    f_equal; symmetry; apply forallb_filter_id; apply forallb_forall; reflexivity.
  - cbn [fold_left]. rewrite IH. unfold drop_topic.
    cbn [student_progress quiz_history]. rewrite !filter_filter_and.
    f_equal; apply filter_ext; intros x; unfold listed; cbn [existsb];
      rewrite negb_orb; reflexivity.
Qed.

Lemma listed_spec (topic_ids : list Z) (topic : Z) :
  listed topic_ids topic = true <-> In topic topic_ids.
Proof.
  unfold listed. rewrite existsb_exists. split.
  - intros (x & Hx & He). apply Z.eqb_eq in He. subst x. exact Hx.
  - intros Hin. exists topic. split; [ exact Hin | apply Z.eqb_refl ].
Qed.

Lemma module_topic_listed (school : School) (module : Z) (t : Topic) :
  In t (topics school) -> module_id t = module ->
  listed (map id (filter (fun t => (module_id t =? module)%Z) (topics school)))
         (id t) = true.
Proof.
  intros Hin Hm. apply listed_spec. apply in_map. apply filter_In.
  split; [ exact Hin | apply Z.eqb_eq; exact Hm ].
Qed.

Lemma listed_module_topic (school : School) (module topic : Z) :
  listed (map id (filter (fun t => (module_id t =? module)%Z) (topics school)))
         topic = true ->
  exists t, In t (topics school) /\ module_id t = module /\ id t = topic.
Proof.
  intros Hl. apply listed_spec in Hl. apply in_map_iff in Hl.
  destruct Hl as (t & Hid & Ht). apply filter_In in Ht.
  destruct Ht as [Hin Hm]. apply Z.eqb_eq in Hm. eauto.
Qed.

(** Rows removed by topic leave the counters of the other rows in
    agreement with the history. *)
Lemma ledger_ok_without (keep : Z -> bool) (db : EducationDB) :
  ledger_ok db ->
  ledger_ok (mkDB (filter (fun r => keep (topic_id r)) (student_progress db))
                  (filter (fun e => keep (h_topic_id e)) (quiz_history db))).
Proof.
  intros [Hrows Hcover]. split;
    cbn [student_progress quiz_history].
  - apply Forall_forall. intros r Hr. apply filter_In in Hr.
    destruct Hr as [Hr Hk].
    pose proof (proj1 (Forall_forall _ _) Hrows r Hr) as Hagree.
    unfold row_agrees, history_for in *.
    rewrite filter_filter_kept; [ exact Hagree | ].
    intros x Hx. apply andb_prop in Hx. destruct Hx as [_ Hx].
    apply Z.eqb_eq in Hx. rewrite Hx. exact Hk.
  - intros e He. apply filter_In in He. destruct He as [He Hk].
    destruct (Hcover e He) as (r & Hr & Hs & Ht).
    exists r. split; [ | split; assumption ].
    apply filter_In. split; [ exact Hr | rewrite Ht; exact Hk ].
Qed.

(** The topics of the rows that [update_student_progress] leaves. *)
Lemma update_topic_ids (db db' : EducationDB) (now sid tid correct total : Z)
      (r' : StudentProgress) :
  update_student_progress db now sid tid correct total = Ok db' ->
  In r' (student_progress db') ->
  topic_id r' = tid
  \/ exists r, In r (student_progress db) /\ topic_id r = topic_id r'.
Proof.
  intros Hup Hin. unfold update_student_progress in Hup.
  destruct (get_student_progress db sid tid) as [ r | ] eqn:Hget.
  - unfold updated_fields in Hup. rewrite guarded_accuracy_value in Hup.
    cbn [bind] in Hup. injection Hup as <-. cbn [student_progress] in Hin.
    unfold sql_update in Hin. apply in_map_iff in Hin.
    destruct Hin as (y & <- & Hy). right. exists y. split; [ exact Hy | ].
    destruct (row_matches sid tid y); reflexivity.
  - unfold created_confidence in Hup. rewrite guarded_accuracy_value in Hup.
    cbn [bind] in Hup. injection Hup as <-. cbn [student_progress] in Hin.
    unfold sql_insert in Hin. apply in_app_or in Hin.
    destruct Hin as [ Hin | [ <- | [] ] ].
    + right. exists r'. split; [ exact Hin | reflexivity ].
    + left. reflexivity.
Qed.

Lemma update_history (db db' : EducationDB) (now sid tid correct total : Z) :
  update_student_progress db now sid tid correct total = Ok db' ->
  quiz_history db' = quiz_history db ++ [mkQuizHistory sid tid correct total]
  /\ exists r', get_student_progress db' sid tid = Some r'.
Proof.
  intros Hup.
  destruct (get_student_progress db sid tid) as [ r | ] eqn:Hget.
  - destruct (update_existing db now sid tid correct total r Hget)
      as (d & Hd & Hh & Hr). rewrite Hd in Hup. injection Hup as <-. eauto.
  - destruct (update_created db now sid tid correct total Hget)
      as (d & Hd & Hh & Hr). rewrite Hd in Hup. injection Hup as <-. eauto.
Qed.

End CascadeFacts.

(** X22.  [delete_module] of a module that exists returns its name and
    removes the module, its topics, and every record and history row of
    these topics, for every student, and nothing else: the other topics
    stay, the records of topics of other modules read as before, and the
    counters of the remaining records still agree with the history.  For a
    module that does not exist it raises [TypeError] and leaves the tables
    as they are. *)
Theorem X22_delete_module_cascade :
  forall (school : Content.School) (module : Z),
    ((forall m, In m (Content.modules school) -> Content.m_id m <> module) ->
     Cascade.delete_module school module = (Raise TypeError, school))
    /\ (forall m0, In m0 (Content.modules school) -> Content.m_id m0 = module ->
        exists nm school',
          Cascade.delete_module school module = (Ok nm, school')
          /\ (exists m, In m (Content.modules school)
                        /\ Content.m_id m = module /\ nm = Content.m_name m)
          /\ (forall m, In m (Content.modules school') <->
                        In m (Content.modules school) /\ Content.m_id m <> module)
          /\ (forall t, In t (Content.topics school') <->
                        In t (Content.topics school)
                        /\ Content.module_id t <> module)
          /\ (forall t sid,
                 In t (Content.topics school) -> Content.module_id t = module ->
                 ProgressService.get_student_progress
                   (Content.progress_db school') sid (Content.id t) = None
                 /\ Ledger.history_for
                      sid (Content.id t)
                      (ProgressService.quiz_history (Content.progress_db school'))
                    = [])
          /\ (forall sid tid,
                 (forall t, In t (Content.topics school) ->
                            Content.module_id t = module -> Content.id t <> tid) ->
                 ProgressService.get_student_progress
                   (Content.progress_db school') sid tid
                 = ProgressService.get_student_progress
                     (Content.progress_db school) sid tid
                 /\ Ledger.history_for
                      sid tid
                      (ProgressService.quiz_history (Content.progress_db school'))
                    = Ledger.history_for
                        sid tid
                        (ProgressService.quiz_history (Content.progress_db school)))
          /\ (Ledger.ledger_ok (Content.progress_db school) ->
              Ledger.ledger_ok (Content.progress_db school'))).
Proof.
  intros school module. split.
  - intros Hnone. unfold Cascade.delete_module.
    destruct (find (fun m => (Content.m_id m =? module)%Z) (Content.modules school))
      as [ m | ] eqn:E; [ | reflexivity ].
    apply find_some in E. destruct E as [Hin Hid]. apply Z.eqb_eq in Hid.
    destruct (Hnone m Hin Hid).
  - intros m0 Hin0 Hid0. unfold Cascade.delete_module.
    destruct (find (fun m => (Content.m_id m =? module)%Z) (Content.modules school))
      as [ m | ] eqn:E.
    2:{ pose proof (find_none _ _ E m0 Hin0) as Hf. cbn beta in Hf.
        apply Z.eqb_neq in Hf. contradiction. }
    apply find_some in E. destruct E as [Hin Hid]. apply Z.eqb_eq in Hid.
    eexists. eexists. split; [ reflexivity | ].
    rewrite fold_drop_topic.
    cbn [Content.progress_db Content.topics Content.modules
         ProgressService.student_progress ProgressService.quiz_history].
    split; [ exists m; auto | ].
    split.
    { intros m'. rewrite filter_In, negb_true_iff, Z.eqb_neq. reflexivity. }
    split.
    { intros t. rewrite filter_In, negb_true_iff, Z.eqb_neq. reflexivity. }
    split.
    { intros t sid Ht Hm.
      pose proof (module_topic_listed school module t Ht Hm) as Hl. split.
      - unfold ProgressService.get_student_progress.
        cbn [ProgressService.student_progress].
        apply find_filter_dropped. intros x Hx.
        unfold ProgressService.row_matches in Hx.
        apply andb_prop in Hx. destruct Hx as [_ Hx]. apply Z.eqb_eq in Hx.
        rewrite Hx, Hl. reflexivity.
      - unfold Ledger.history_for. apply filter_filter_dropped.
        intros x Hx. apply andb_prop in Hx. destruct Hx as [_ Hx].
        apply Z.eqb_eq in Hx. rewrite Hx, Hl. reflexivity. }
    split.
    { intros sid tid Hother.
      assert (Hl : Cascade.listed
                     (map Content.id
                          (filter (fun t => (Content.module_id t =? module)%Z)
                                  (Content.topics school))) tid = false).
      { destruct (Cascade.listed _ tid) eqn:Hl; [ | reflexivity ].
        destruct (listed_module_topic school module tid Hl) as (t & Ht & Hm & Hi).
        destruct (Hother t Ht Hm Hi). }
      split.
      - unfold ProgressService.get_student_progress.
        cbn [ProgressService.student_progress].
        apply find_filter_kept. intros x Hx.
        unfold ProgressService.row_matches in Hx.
        apply andb_prop in Hx. destruct Hx as [_ Hx]. apply Z.eqb_eq in Hx.
        rewrite Hx, Hl. reflexivity.
      - unfold Ledger.history_for. apply filter_filter_kept.
        intros x Hx. apply andb_prop in Hx. destruct Hx as [_ Hx].
        apply Z.eqb_eq in Hx. rewrite Hx, Hl. reflexivity. }
    intros Hok.
    exact (ledger_ok_without
             (fun topic =>
                negb (Cascade.listed
                        (map Content.id
                             (filter (fun t => (Content.module_id t =? module)%Z)
                                     (Content.topics school))) topic))
             (Content.progress_db school) Hok).
Qed.

(** A module with two topics, one of them with a record, is deleted; the
    record of a topic of another module stays. *)
Lemma X22_delete_module_cascade_witness :
  let r3 := ProgressService.mkStudentProgress 7 3 (8 # 15) 1 (Some 0%Z) 3 2 in
  let r5 := ProgressService.mkStudentProgress 7 5 (1 # 2) 1 (Some 0%Z) 2 1 in
  let t3 := Content.mkTopic 3 2 "Find-S Algorithm" "-" 1 in
  let t4 := Content.mkTopic 4 2 "Candidate Elimination" "-" 2 in
  let t5 := Content.mkTopic 5 6 "FOIL Algorithm" "-" 1 in
  let m2 := Content.mkModuleRow 2 1 "Concept Learning" "-" 1 in
  let m6 := Content.mkModuleRow 6 1 "Rule Learning" "-" 2 in
  let school :=
    Content.mkSchool
      (ProgressService.mkDB [r3; r5]
                            [ProgressService.mkQuizHistory 7 3 2 3;
                             ProgressService.mkQuizHistory 7 5 1 2])
      [t3; t4; t5] [m2; m6] in
  In m2 (Content.modules school)
  /\ exists school',
      Cascade.delete_module school 2 = (Ok "Concept Learning"%string, school')
      /\ ProgressService.get_student_progress (Content.progress_db school') 7 3
         = None
      /\ ProgressService.get_student_progress (Content.progress_db school') 7 5
         = Some r5.
Proof.
  intros r3 r5 t3 t4 t5 m2 m6 school.
  assert (Hm : In m2 (Content.modules school)) by (left; reflexivity).
  split; [ exact Hm | ].
  destruct (proj2 (X22_delete_module_cascade school 2%Z) m2 Hm eq_refl)
    as (nm & school' & Hrun & _ & _ & _ & Hgone & Hkept & _).
  exists school'. split; [ | split ].
  - rewrite Hrun. vm_compute in Hrun. injection Hrun as <- _. reflexivity.
  - apply (Hgone t3 7%Z); [ left; reflexivity | reflexivity ].
  - rewrite (proj1 (Hkept 7%Z 5%Z ltac:(
      intros t [ <- | [ <- | [ <- | [] ] ] ] Hmod; cbn in *; lia))).
    reflexivity.
Defined.

(** X23.  Records refer to topics that exist.  The schema declares the
    foreign keys but the connection never switches them on, so the code
    alone keeps them: when every record and every history row is on a topic
    of [topics] and every topic is in a module of [modules], this is so
    again after [delete_topic] and after [delete_module], and after
    [update_student_progress] exactly when the topic of the quiz exists;
    for any other topic id the update stores the record all the same. *)
Theorem X23_records_refer_to_topics :
  forall school : Content.School,
    Cascade.refs_ok school ->
    (forall topic, Cascade.refs_ok (snd (Content.delete_topic school topic)))
    /\ (forall module, Cascade.refs_ok (snd (Cascade.delete_module school module)))
    /\ (forall now sid tid correct total,
           exists db',
             ProgressService.update_student_progress
               (Content.progress_db school) now sid tid correct total = Ok db'
             /\ (Cascade.refs_ok
                   (Content.mkSchool db' (Content.topics school)
                                     (Content.modules school))
                 <-> exists t, In t (Content.topics school) /\ Content.id t = tid)).
Proof.
  intros school (Hsp & Hqh & Htm). split; [ | split ].
  - intros topic. unfold Content.delete_topic.
    destruct (find (fun t => (Content.id t =? topic)%Z) (Content.topics school))
      as [ t0 | ]; cbn [snd]; [ | repeat split; assumption ].
    unfold Cascade.refs_ok.
    cbn [Content.progress_db Content.topics Content.modules
         ProgressService.student_progress ProgressService.quiz_history].
    split; [ | split ].
    + intros r Hr. apply filter_In in Hr. destruct Hr as [Hr Hne].
      destruct (Hsp r Hr) as (t & Ht & Hid). exists t. split; [ | exact Hid ].
      apply filter_In. split; [ exact Ht | rewrite Hid; exact Hne ].
    + intros e He. apply filter_In in He. destruct He as [He Hne].
      destruct (Hqh e He) as (t & Ht & Hid). exists t. split; [ | exact Hid ].
      apply filter_In. split; [ exact Ht | rewrite Hid; exact Hne ].
    + intros t Ht. apply filter_In in Ht. destruct Ht as [Ht _].
      exact (Htm t Ht).
  - intros module. unfold Cascade.delete_module.
    destruct (find (fun m => (Content.m_id m =? module)%Z) (Content.modules school))
      as [ m0 | ]; cbn [snd]; [ | repeat split; assumption ].
    rewrite fold_drop_topic. unfold Cascade.refs_ok.
    cbn [Content.progress_db Content.topics Content.modules
         ProgressService.student_progress ProgressService.quiz_history].
    assert (Hstay : forall t topic,
               In t (Content.topics school) -> Content.id t = topic ->
               negb (Cascade.listed
                       (map Content.id
                            (filter (fun t => (Content.module_id t =? module)%Z)
                                    (Content.topics school))) topic) = true ->
               In t (filter (fun t => negb (Content.module_id t =? module)%Z)
                            (Content.topics school))).
    { intros t topic Ht Hid Hl. apply filter_In. split; [ exact Ht | ].
      destruct (Content.module_id t =? module)%Z eqn:Hm; [ | reflexivity ].
      apply Z.eqb_eq in Hm.
      rewrite <- Hid, (module_topic_listed school module t Ht Hm) in Hl.
      discriminate. }
    split; [ | split ].
    + intros r Hr. apply filter_In in Hr. destruct Hr as [Hr Hl].
      destruct (Hsp r Hr) as (t & Ht & Hid). exists t.
      split; [ exact (Hstay t _ Ht Hid Hl) | exact Hid ].
    + intros e He. apply filter_In in He. destruct He as [He Hl].
      destruct (Hqh e He) as (t & Ht & Hid). exists t.
      split; [ exact (Hstay t _ Ht Hid Hl) | exact Hid ].
    + intros t Ht. apply filter_In in Ht. destruct Ht as [Ht Hne].
      destruct (Htm t Ht) as (m & Hm & Hid). exists m. split; [ | exact Hid ].
      apply filter_In. split; [ exact Hm | rewrite Hid; exact Hne ].
  - intros now sid tid correct total.
    destruct (update_returns (Content.progress_db school) now sid tid correct total)
      as (db' & Hup).
    exists db'. split; [ exact Hup | ].
    destruct (update_history _ _ _ _ _ _ _ Hup) as (Hh & r' & Hr').
    unfold Cascade.refs_ok.
    cbn [Content.progress_db Content.topics Content.modules]. split.
    + intros (Hsp' & _ & _).
      destruct (get_matches _ _ _ _ Hr') as (Hin & _ & Htid).
      destruct (Hsp' r' Hin) as (t & Ht & Hid). exists t.
      split; [ exact Ht | congruence ].
    + intros (t & Ht & Hid). split; [ | split ].
      * intros r Hr.
        destruct (update_topic_ids _ _ _ _ _ _ _ r Hup Hr)
          as [ Heq | (r0 & Hr0 & Heq) ].
        -- exists t. split; [ exact Ht | congruence ].
        -- rewrite <- Heq. exact (Hsp r0 Hr0).
      * intros e He. rewrite Hh in He. apply in_app_or in He.
        destruct He as [ He | [ <- | [] ] ]; [ exact (Hqh e He) | ].
        exists t. split; [ exact Ht | exact Hid ].
      * exact Htm.
Qed.

(** A school with one topic: a quiz on the topic keeps the references, a
    quiz on topic 9, which does not exist, is stored and breaks them. *)
Lemma X23_records_refer_to_topics_witness :
  let t := Content.mkTopic 3 2 "Find-S Algorithm" "-" 1 in
  let m := Content.mkModuleRow 2 1 "Concept Learning" "-" 1 in
  let school := Content.mkSchool ProgressService.empty_db [t] [m] in
  Cascade.refs_ok school
  /\ (exists db',
         ProgressService.update_student_progress
           ProgressService.empty_db 0 7 3 2 3 = Ok db'
         /\ Cascade.refs_ok (Content.mkSchool db' [t] [m]))
  /\ (exists db',
         ProgressService.update_student_progress
           ProgressService.empty_db 0 7 9 2 3 = Ok db'
         /\ ~ Cascade.refs_ok (Content.mkSchool db' [t] [m])).
Proof.
  intros t m school.
  assert (Hok : Cascade.refs_ok school).
  { split; [ intros r [] | split; [ intros e [] | ] ].
    intros t' [ <- | [] ]. exists m. split; [ left; reflexivity | reflexivity ]. }
  split; [ exact Hok | ].
  destruct (X23_records_refer_to_topics school Hok) as (_ & _ & Hup).
  split.
  - destruct (Hup 0%Z 7%Z 3%Z 2%Z 3%Z) as (db' & Hrun & Hiff).
    exists db'. split; [ exact Hrun | ].
    apply Hiff. exists t. split; [ left; reflexivity | reflexivity ].
  - destruct (Hup 0%Z 7%Z 9%Z 2%Z 3%Z) as (db' & Hrun & Hiff).
    exists db'. split; [ exact Hrun | ].
    intros Hrefs. apply Hiff in Hrefs. destruct Hrefs as (t' & [ <- | [] ] & Hid).
    discriminate Hid.
Defined.
